(** * Supply-chain analytics chatbot: query router and retrieval engine

    A shallow embedding of [chatbot/utils/query_router.py] and
    [chatbot/utils/rag_engine.py], with the properties of the routing and
    retrieval-augmented answering pipeline stated over it. *)

From Stdlib Require Import ZArith List String Ascii Bool Arith Lia.
From Stdlib Require Import Sorted Permutation DecimalString.
Import ListNotations.
Local Open Scope string_scope.
Local Open Scope nat_scope.

(** ** Python [str] operations

    A Python [str] is held as the string of its UTF-8 bytes.  Concatenation,
    [startswith], [endswith] and the slices taken after an ASCII prefix or
    suffix test act alike on bytes and on code points.  [strip] removes the
    white-space characters of [str.isspace], whatever their width in bytes.
    [lower] is the ASCII table of [str.lower]: Python also folds letters
    beyond U+007F, which are left as they are here, so [lower] is
    [str.lower] on the texts that [isascii] accepts. *)
Module PyStr.

Definition LF : string := String (ascii_of_nat 10) "".

(** [c.isspace()] for a character held in one byte (U+0000..U+007F):
    TAB LF VT FF CR, FS GS RS US, SPACE. *)
Definition isspace (c : ascii) : bool :=
  let n := nat_of_ascii c in
  ((9 <=? n) && (n <=? 13)) || ((28 <=? n) && (n <=? 32)).

(** [c.isspace()] for a character held in two bytes: U+0085 (C2 85) and
    U+00A0 (C2 A0). *)
Definition isspace2 (c1 c2 : ascii) : bool :=
  let n1 := nat_of_ascii c1 in
  let n2 := nat_of_ascii c2 in
  (n1 =? 194) && ((n2 =? 133) || (n2 =? 160)).

(** [c.isspace()] for a character held in three bytes: U+1680 (E1 9A 80),
    U+2000..U+200A (E2 80 80..8A), U+2028 and U+2029 (E2 80 A8, E2 80 A9),
    U+202F (E2 80 AF), U+205F (E2 81 9F) and U+3000 (E3 80 80).  No
    character of four bytes is white space. *)
Definition isspace3 (c1 c2 c3 : ascii) : bool :=
  let n1 := nat_of_ascii c1 in
  let n2 := nat_of_ascii c2 in
  let n3 := nat_of_ascii c3 in
  ((n1 =? 225) && (n2 =? 154) && (n3 =? 128))
  || ((n1 =? 226) && (n2 =? 128)
      && (((128 <=? n3) && (n3 <=? 138))
          || (n3 =? 168) || (n3 =? 169) || (n3 =? 175)))
  || ((n1 =? 226) && (n2 =? 129) && (n3 =? 159))
  || ((n1 =? 227) && (n2 =? 128) && (n3 =? 128)).

(** What follows the white-space character that [s] begins with, if it
    begins with one. *)
Definition after_space (s : string) : option string :=
  match s with
  | EmptyString => None
  | String c1 s1 =>
      if isspace c1 then Some s1
      else
        match s1 with
        | EmptyString => None
        | String c2 s2 =>
            if isspace2 c1 c2 then Some s2
            else
              match s2 with
              | EmptyString => None
              | String c3 s3 => if isspace3 c1 c2 c3 then Some s3 else None
              end
        end
  end.

(** [s.lstrip()] *)
Fixpoint lstrip (s : string) : string :=
  match s with
  | EmptyString => EmptyString
  | String c1 s1 =>
      if isspace c1 then lstrip s1
      else
        match s1 with
        | EmptyString => s
        | String c2 s2 =>
            if isspace2 c1 c2 then lstrip s2
            else
              match s2 with
              | EmptyString => s
              | String c3 s3 => if isspace3 c1 c2 c3 then lstrip s3 else s
              end
        end
  end.

(** [s] is made of white space alone. *)
Definition blank (s : string) : bool :=
  match lstrip s with
  | EmptyString => true
  | String _ _ => false
  end.

(** [s.rstrip()]: what is left of [s] before its longest ending made of
    white space.  Such an ending starts where a character starts, since no
    white-space character begins with a continuation byte (80..BF). *)
Fixpoint rstrip (s : string) : string :=
  match s with
  | EmptyString => EmptyString
  | String c s' => if blank s then EmptyString else String c (rstrip s')
  end.

(** [s.strip()] *)
Definition strip (s : string) : string := rstrip (lstrip s).

(** [c.lower()] for a character held in one byte: A to Z are folded.  A byte
    of a longer character is left as it is. *)
Definition lower_char (c : ascii) : ascii :=
  let n := nat_of_ascii c in
  if (65 <=? n) && (n <=? 90) then ascii_of_nat (n + 32) else c.

(** [s.lower()] *)
Fixpoint lower (s : string) : string :=
  match s with
  | EmptyString => EmptyString
  | String c s' => String (lower_char c) (lower s')
  end.


(** [s[n:]] for [n >= 0] *)
Fixpoint drop (n : nat) (s : string) : string :=
  match n, s with
  | O, _ => s
  | S _, EmptyString => EmptyString
  | S n', String _ s' => drop n' s'
  end.

(** [s[:n]] for [n >= 0] *)
Fixpoint take (n : nat) (s : string) : string :=
  match n, s with
  | O, _ => EmptyString
  | S _, EmptyString => EmptyString
  | S n', String c s' => String c (take n' s')
  end.

(** [s[:-n]] for [n > 0] *)
Definition drop_last (n : nat) (s : string) : string :=
  take (String.length s - n) s.

(** [s.startswith(p)] *)
Definition startswith (s p : string) : bool := String.prefix p s.

(** [s.endswith(p)] *)
Definition endswith (s p : string) : bool :=
  (String.length p <=? String.length s) &&
  String.eqb (drop (String.length s - String.length p) s) p.

(** [p in s] *)
Fixpoint contains (s p : string) : bool :=
  match s with
  | EmptyString => String.prefix p EmptyString
  | String _ s' => String.prefix p s || contains s' p
  end.

(** [sep.join(parts)] *)
Fixpoint join (sep : string) (parts : list string) : string :=
  match parts with
  | [] => EmptyString
  | [p] => p
  | p :: rest => p ++ sep ++ join sep rest
  end.

(** [x] is a run of consecutive characters of [s]. *)
Definition part_of (x s : string) : Prop := exists a b, s = a ++ x ++ b.

End PyStr.

(** ** Query-generation post-processing ([QueryRouter._generate_sql], the
    statements after the model call) *)
Module SqlCleanup.
Import PyStr.

Definition FENCE : string := "```".
Definition FENCE_SQL : string := "```sql".

Definition clean_sql (raw : string) : string :=
  let sql_query := strip raw in
  let sql_query :=
    if startswith sql_query FENCE_SQL then drop 6 sql_query else sql_query in
  let sql_query :=
    if startswith sql_query FENCE then drop 3 sql_query else sql_query in
  let sql_query :=
    if endswith sql_query FENCE then drop_last 3 sql_query else sql_query in
  strip sql_query.

End SqlCleanup.

(** ** Exceptions

    A call either returns or raises.  An exception is held as the text
    [str(e)] that the router's handler reads; every exception met in the
    pipeline derives from [Exception]. *)
Inductive result (A : Type) : Type :=
| Ok (a : A)
| Raise (e : string).
Arguments Ok {A} a.
Arguments Raise {A} e.

Class Monad (m : Type -> Type) : Type := {
  ret : forall {A}, A -> m A;
  bind : forall {A B}, m A -> (A -> m B) -> m B
}.

Notation "x <- c1 ;; c2" := (bind c1 (fun x => c2))
  (at level 61, c1 at next level, right associativity).

#[export] Instance result_monad : Monad result := {
  ret := fun A a => Ok a;
  bind := fun A B c k => match c with Ok a => k a | Raise e => Raise e end
}.

(** [for x in xs: acc = step(acc, x)], left to right, stopping at the first
    exception. *)
Fixpoint for_each {A B} (step : B -> A -> result B) (xs : list A) (acc : B)
  : result B :=
  match xs with
  | [] => Ok acc
  | x :: rest =>
      match step acc x with
      | Ok acc' => for_each step rest acc'
      | Raise e => Raise e
      end
  end.

(** ** Result tables

    The part of a pandas [DataFrame] that the summary reads: a row count and
    labelled columns of dtype [int64] or [object] (holding [str]).  Columns of
    dtype [float64] are not covered. *)
Module Pandas.
Import PyStr.
Local Open Scope Z_scope.

Inductive Series : Type :=
| Int64 (values : list Z)
| Object (values : list string).

Record DataFrame : Type := {
  n_rows : nat;
  columns : list (string * Series)
}.

Inductive Value : Type :=
| VInt (z : Z)
| VStr (s : string).

Definition series_len (s : Series) : nat :=
  match s with
  | Int64 vs => List.length vs
  | Object vs => List.length vs
  end.

(** Every column is as long as the index. *)
Definition well_formed (df : DataFrame) : Prop :=
  Forall (fun c => series_len (snd c) = n_rows df) (columns df).

(** [len(df)] *)
Definition len (df : DataFrame) : nat := n_rows df.

(** [df.empty]: some axis has length 0. *)
Definition empty (df : DataFrame) : bool :=
  (n_rows df =? 0)%nat || (List.length (columns df) =? 0)%nat.

Definition is_number (s : Series) : bool :=
  match s with
  | Int64 _ => true
  | Object _ => false
  end.

(** [df.select_dtypes(include=['number']).columns] *)
Definition select_dtypes_number (df : DataFrame) : list string :=
  map fst (filter (fun c => is_number (snd c)) (columns df)).

(** Two's-complement wrap-around of an [int64] accumulator. *)
Definition wrap64 (z : Z) : Z := (z + 2 ^ 63) mod 2 ^ 64 - 2 ^ 63.

(** [series.sum()] *)
Definition series_sum (vs : list Z) : Z :=
  fold_left (fun acc v => wrap64 (acc + v)) vs 0.

(** [float(z)] for an integer: the nearest binary64 value, ties to even.
    The nearest value to an [int64] is again an integer. *)
Definition float_of_int (z : Z) : Z :=
  let a := Z.abs z in
  let bits := Z.log2 a + 1 in
  if bits <=? 53 then z
  else
    let e := bits - 53 in
    let q := Z.shiftr a e in
    let r := a - Z.shiftl q e in
    let half := Z.shiftl 1 (e - 1) in
    let q' := if (half <? r) || ((r =? half) && Z.odd q) then q + 1 else q in
    Z.sgn z * Z.shiftl q' e.

Definition digits (n : N) : string := NilZero.string_of_uint (N.to_uint n).

(** Thousands separators over the digits, least significant first. *)
Fixpoint group_rev (ds : list ascii) (i : nat) : list ascii :=
  match ds with
  | [] => []
  | d :: rest =>
      if (0 <? i)%nat && (i mod 3 =? 0)%nat
      then ","%char :: d :: group_rev rest (S i)
      else d :: group_rev rest (S i)
  end.

Definition thousands (s : string) : string :=
  string_of_list_ascii (rev (group_rev (rev (list_ascii_of_string s)) 0)).

(** [format(z, ',.2f')] for an integer [z]. *)
Definition format_2f (z : Z) : string :=
  let x := float_of_int z in
  (if x <? 0 then "-" else "") ++ thousands (digits (Z.abs_N x)) ++ ".00".

(** [str(z)] for an integer [z]. *)
Definition str_int (z : Z) : string :=
  (if z <? 0 then "-" else "") ++ digits (Z.abs_N z).

Definition str_value (v : Value) : string :=
  match v with
  | VInt z => str_int z
  | VStr s => s
  end.

(** [format(v, ',.2f')] *)
Definition format_value_2f (v : Value) : result string :=
  match v with
  | VInt z => Ok (format_2f z)
  | VStr _ => Raise "Unknown format code 'f' for object of type 'str'"
  end.

Definition cell (s : Series) (i : nat) : option Value :=
  match s with
  | Int64 vs => option_map VInt (nth_error vs i)
  | Object vs => option_map VStr (nth_error vs i)
  end.

(** [row.iloc[j]] for row [i] of the frame. *)
Definition iloc (df : DataFrame) (i j : nat) : result Value :=
  match nth_error (columns df) j with
  | None => Raise "single positional indexer is out-of-bounds"
  | Some (_, s) =>
      match cell s i with
      | Some v => Ok v
      | None => Raise "single positional indexer is out-of-bounds"
      end
  end.

(** [df[label].sum()] rendered with [',.2f'].  A label carried by several
    columns selects a frame, whose sum is a Series and refuses the format. *)
Definition format_column_sum (df : DataFrame) (label : string)
  : result string :=
  match filter (fun c => String.eqb (fst c) label) (columns df) with
  | [(_, Int64 vs)] => Ok (format_2f (series_sum vs))
  | [(_, Object _)] => Raise "Unknown format code 'f' for object of type 'str'"
  | [] => Raise label
  | _ => Raise "unsupported format string passed to Series.__format__"
  end.

(** Positions of the rows of [df.head(n)]. *)
Definition head_rows (df : DataFrame) (n : nat) : list nat :=
  seq 0 (Nat.min n (n_rows df)).

(** *** What the warehouse client and the chat page read of a frame *)

Definition value_eqb (a b : Value) : bool :=
  match a, b with
  | VInt x, VInt y => (x =? y)%Z
  | VStr x, VStr y => String.eqb x y
  | _, _ => false
  end.

(** [d[k] = v] on a dict held in insertion order: a key that is present
    keeps its place and takes the new value. *)
Fixpoint dict_set {K V : Type} (eqb : K -> K -> bool) (d : list (K * V))
    (k : K) (v : V) : list (K * V) :=
  match d with
  | [] => [(k, v)]
  | (k', v') :: rest =>
      if eqb k' k then (k', v) :: rest
      else (k', v') :: dict_set eqb rest k v
  end.

Definition series_values (s : Series) : list Value :=
  match s with
  | Int64 vs => map VInt vs
  | Object vs => map VStr vs
  end.

(** [for x in df[label]]: the values of the column; a label that no column
    carries is a [KeyError]; a label carried by several columns selects a
    frame, whose iteration yields its labels. *)
Definition iter_column (df : DataFrame) (label : string)
  : result (list Value) :=
  match filter (fun c => String.eqb (fst c) label) (columns df) with
  | [] => Raise ("'" ++ label ++ "'")
  | [(_, s)] => Ok (series_values s)
  | several => Ok (map (fun c => VStr (fst c)) several)
  end.

(** The dict of row [i]: [dict(zip(df.columns, row))]. *)
Definition row_dict (df : DataFrame) (i : nat) : list (string * Value) :=
  fold_left
    (fun d c =>
       match cell (snd c) i with
       | Some v => dict_set String.eqb d (fst c) v
       | None => d
       end)
    (columns df) [].

(** [df.to_dict('records')] *)
Definition to_dict_records (df : DataFrame) : list (list (string * Value)) :=
  map (row_dict df) (seq 0 (n_rows df)).

Definition series_head (n : nat) (s : Series) : Series :=
  match s with
  | Int64 vs => Int64 (firstn n vs)
  | Object vs => Object (firstn n vs)
  end.

(** [df.head(n)] for [n >= 0] *)
Definition head (n : nat) (df : DataFrame) : DataFrame :=
  {| n_rows := Nat.min n (n_rows df);
     columns := map (fun c => (fst c, series_head n (snd c))) (columns df) |}.

(** [df.select_dtypes(exclude=['number']).columns] *)
Definition select_dtypes_exclude_number (df : DataFrame) : list string :=
  map fst (filter (fun c => negb (is_number (snd c))) (columns df)).

End Pandas.

(** ** Result-to-text synthesis ([QueryRouter._generate_natural_response]) *)
Module Summary.
Import PyStr Pandas.

Definition NO_DATA : string :=
  "I couldn't find any data matching your query. Please try rephrasing your question.".

(** The marker that opens each enumerated row, byte for byte as in the
    source file. *)
Definition BULLET : string :=
  string_of_list_ascii
    (map ascii_of_nat [195; 162; 226; 130; 172; 194; 162]).

Definition str_nat (n : nat) : string := str_int (Z.of_nat n).

Definition row_line (df : DataFrame) (summary : string) (i : nat)
  : result string :=
  v0 <- iloc df i 0 ;;
  v1 <- iloc df i 1 ;;
  amount <- format_value_2f v1 ;;
  Ok (summary ++ BULLET ++ " " ++ str_value v0 ++ ": " ++ amount ++ LF).

Definition _generate_natural_response
    (query : string) (df : option DataFrame) (sql_query : option string)
  : result string :=
  match df with
  | None => Ok NO_DATA
  | Some df =>
      if empty df then Ok NO_DATA
      else
        let summary := "Found " ++ str_nat (len df) ++ " results. " in
        if 2 <=? List.length (columns df) then
          match select_dtypes_number df with
          | [] => Ok summary
          | first_numeric :: _ =>
              total <- format_column_sum df first_numeric ;;
              let summary :=
                summary ++ "The total " ++ first_numeric ++ " is "
                        ++ total ++ ". " in
              if len df <=? 10 then
                let summary :=
                  summary ++ "Here are all the results:" ++ LF ++ LF in
                for_each (row_line df) (head_rows df 10) summary
              else Ok (summary ++ "Top 10 results shown below.")
          end
        else Ok summary
  end.

End Summary.

(** ** Collaborators

    What the pipeline reaches outside its classes: the embedding provider,
    the text splitter, the language-model gateway and the warehouse cursor.
    A chain [prompt | llm | StrOutputParser()] is a call of [llm] on the
    template and its variables. *)
Record Document : Type := {
  page_content : string;
  metadata : list (string * string)
}.

Inductive Prompt : Type :=
| ClassificationPrompt (query : string)
| SqlPrompt (schema context query : string)
| ExplanationPrompt (context query : string).

Record Collaborators : Type := {
  Embedding : Type;
  (** [HuggingFaceEmbeddings]: the vector of a text, or a provider failure *)
  embed : string -> result Embedding;
  (** the score of a stored vector against a query vector; larger is closer *)
  similarity : Embedding -> Embedding -> Z;
  (** [RecursiveCharacterTextSplitter.split_documents] *)
  split_documents : list Document -> list Document;
  (** the chat model behind [chain.invoke] *)
  llm : Prompt -> result string;
  (** the warehouse cursor: run a statement and fetch its rows as a frame *)
  fetch : string -> result Pandas.DataFrame
}.


(** ** Document store *)
Module DocumentStore.

(** A stored chunk with the vector computed when it was inserted. *)
Definition Store (E : Type) : Type := list (Document * E).

(** One entry of a search: where the chunk sits in the store, its score
    against the query, and the chunk. *)
Record Hit : Type := {
  position : nat;
  score : Z;
  document : Document
}.

(** [h] goes in front of the first entry that does not score above it. *)
Fixpoint insert_hit (h : Hit) (ranked : list Hit) : list Hit :=
  match ranked with
  | [] => [h]
  | h' :: rest =>
      if (score h <? score h')%Z then h' :: insert_hit h rest
      else h :: ranked
  end.

Definition rank (hits : list Hit) : list Hit :=
  fold_right insert_hit [] hits.

(** The order of a ranking: a higher score first, and among equal scores the
    chunk inserted earlier. *)
Definition before (a b : Hit) : Prop :=
  (score b < score a)%Z \/ (score a = score b /\ position a < position b).

(** The order on scores alone. *)
Definition by_score (a b : Hit) : Prop := (score b <= score a)%Z.

Section Store.
Variable W : Collaborators.

Fixpoint embed_all (docs : list Document) : result (Store (Embedding W)) :=
  match docs with
  | [] => Ok []
  | d :: rest =>
      v <- embed W (page_content d) ;;
      vs <- embed_all rest ;;
      Ok ((d, v) :: vs)
  end.

(** Modelled from the spec: the insert capability of the Document Store
    ([FAISS.from_documents], of the vector-store library): the chunks are
    embedded and held in insertion order. *)
Definition from_documents (splits : list Document)
  : result (Store (Embedding W)) :=
  embed_all splits.

(** Modelled from the spec: incremental insertion ([FAISS.add_documents]):
    new chunks are embedded and appended; stored chunks are not embedded
    again and none is removed. *)
Definition add (store : Store (Embedding W)) (splits : list Document)
  : result (Store (Embedding W)) :=
  vs <- embed_all splits ;;
  Ok (store ++ vs)%list.

Fixpoint hits_from (i : nat) (q : Embedding W) (store : Store (Embedding W))
  : list Hit :=
  match store with
  | [] => []
  | (d, v) :: rest =>
      {| position := i; score := similarity W q v; document := d |}
        :: hits_from (S i) q rest
  end.

(** Modelled from the spec: the query capability of the Document Store
    ([FAISS.similarity_search]): the query is embedded, the stored chunks are
    ordered by descending similarity, equal scores in insertion order, and
    the first [k] are returned. *)
Definition search (store : Store (Embedding W)) (query : string) (k : nat)
  : result (list Hit) :=
  q <- embed W query ;;
  Ok (firstn k (rank (hits_from 0 q store))).

Definition similarity_search
    (store : Store (Embedding W)) (query : string) (k : nat)
  : result (list Document) :=
  hits <- search store query k ;;
  Ok (map document hits).

End Store.
End DocumentStore.

(** ** The machine: both objects and the calls they have made *)
Inductive Call : Type :=
| CallLLM (p : Prompt)
| CallRetrieve (query : string) (k : nat)
| CallExecute (sql : string).

Definition SchemaInfo : Type := list (string * list (string * string)).

(** [vector_store] is the field of the [RAGEngine], [schema_info] the field
    of the [QueryRouter]; [calls] records, oldest first, every call made to
    the gateway, the retrieval engine and the warehouse. *)
Record Machine (E : Type) : Type := {
  vector_store : option (DocumentStore.Store E);
  schema_info : SchemaInfo;
  calls : list Call
}.
Arguments vector_store {E} _.
Arguments schema_info {E} _.
Arguments calls {E} _.

Definition M (E A : Type) : Type := Machine E -> result A * Machine E.

#[export] Instance M_monad (E : Type) : Monad (M E) := {
  ret := fun A a m => (Ok a, m);
  bind := fun A B c k m =>
    match c m with
    | (Ok a, m') => k a m'
    | (Raise e, m') => (Raise e, m')
    end
}.

Section Machine.
Context {E : Type}.

Definition lift {A} (r : result A) : M E A := fun m => (r, m).

Definition record (c : Call) : M E unit := fun m =>
  (Ok tt,
   {| vector_store := vector_store m;
      schema_info := schema_info m;
      calls := (calls m ++ [c])%list |}).

Definition get_vector_store : M E (option (DocumentStore.Store E)) :=
  fun m => (Ok (vector_store m), m).

Definition set_vector_store (s : DocumentStore.Store E) : M E unit :=
  fun m =>
    (Ok tt,
     {| vector_store := Some s;
        schema_info := schema_info m;
        calls := calls m |}).

Definition get_schema_info : M E SchemaInfo :=
  fun m => (Ok (schema_info m), m).

(** [try: body except Exception as e: handler(str(e))] *)
Definition try_except {A} (body : M E A) (handler : string -> A)
  : Machine E -> A * Machine E :=
  fun m =>
    match body m with
    | (Ok a, m') => (a, m')
    | (Raise e, m') => (handler e, m')
    end.

(** A computation that leaves both objects as they are and whose outcome
    depends on the machine through them alone. *)
Definition reads_only {A} (c : M E A) : Prop :=
  forall m,
    vector_store (snd (c m)) = vector_store m /\
    schema_info (snd (c m)) = schema_info m /\
    forall m2,
      vector_store m2 = vector_store m -> schema_info m2 = schema_info m ->
      fst (c m2) = fst (c m).

End Machine.

(** ** Warehouse client ([SnowflakeConnector]) *)
Module SnowflakeConnector.

Definition execute_query (W : Collaborators) (query : string)
  : result Pandas.DataFrame :=
  match fetch W query with
  | Ok df => Ok df
  | Raise e => Raise ("Query execution failed: " ++ e)
  end.

Definition SP12 : string := "            ".
Definition SP16 : string := "                ".

(** The dict that [get_schema_info] returns: for each table name, in
    insertion order, the records of its columns. *)
Definition RawSchema : Type :=
  list (Pandas.Value * list (list (string * Pandas.Value))).

Definition tables_query (database schema : string) : string :=
  PyStr.LF ++ SP12 ++ "SELECT TABLE_NAME, TABLE_TYPE" ++ PyStr.LF
    ++ SP12 ++ "FROM " ++ database ++ ".INFORMATION_SCHEMA.TABLES" ++ PyStr.LF
    ++ SP12 ++ "WHERE TABLE_SCHEMA = '" ++ schema ++ "'" ++ PyStr.LF
    ++ SP12 ++ "ORDER BY TABLE_NAME" ++ PyStr.LF
    ++ SP12.

Definition columns_query (database schema table_name : string) : string :=
  PyStr.LF ++ SP16 ++ "SELECT COLUMN_NAME, DATA_TYPE" ++ PyStr.LF
    ++ SP16 ++ "FROM " ++ database ++ ".INFORMATION_SCHEMA.COLUMNS"
    ++ PyStr.LF
    ++ SP16 ++ "WHERE TABLE_SCHEMA = '" ++ schema ++ "'" ++ PyStr.LF
    ++ SP16 ++ "AND TABLE_NAME = '" ++ table_name ++ "'" ++ PyStr.LF
    ++ SP16 ++ "ORDER BY ORDINAL_POSITION" ++ PyStr.LF
    ++ SP16.

(** The loop over the table names: the outcome, and the statements sent to
    [execute_query], oldest first. *)
Fixpoint columns_loop (W : Collaborators) (database schema : string)
    (names : list Pandas.Value) (schema_info : RawSchema)
  : result RawSchema * list string :=
  match names with
  | [] => (Ok schema_info, [])
  | table_name :: rest =>
      let q := columns_query database schema (Pandas.str_value table_name) in
      match execute_query W q with
      | Raise e => (Raise e, [q])
      | Ok columns_df =>
          let (r, sent) :=
            columns_loop W database schema rest
              (Pandas.dict_set Pandas.value_eqb schema_info table_name
                 (Pandas.to_dict_records columns_df)) in
          (r, q :: sent)
      end
  end.

(** The statements under [try:] in [get_schema_info]. *)
Definition get_schema_info_body (W : Collaborators)
    (database schema : string) : result RawSchema * list string :=
  let q := tables_query database schema in
  match execute_query W q with
  | Raise e => (Raise e, [q])
  | Ok tables_df =>
      match Pandas.iter_column tables_df "TABLE_NAME" with
      | Raise e => (Raise e, [q])
      | Ok names =>
          let (r, sent) := columns_loop W database schema names [] in
          (r, q :: sent)
      end
  end.

Definition get_schema_info (W : Collaborators) (database schema : string)
  : result RawSchema * list string :=
  match get_schema_info_body W database schema with
  | (Ok schema_info, sent) => (Ok schema_info, sent)
  | (Raise e, sent) => (Raise ("Failed to retrieve schema info: " ++ e), sent)
  end.

End SnowflakeConnector.

(** ** Retrieval engine ([RAGEngine]) *)
Module RAGEngine.
Import PyStr.

(** The default knowledge documents of [_initialize_knowledge_base]. *)
Definition SEED_SCHEMA : Document :=
  {| page_content := "
                Supply Chain Analytics Database Schema:
                
                FACT_SALES: Contains all sales transactions
                - TRANSACTION_ID: Unique transaction identifier
                - SALE_DATE: Date of sale
                - PRODUCT_ID: Product identifier (FK to DIM_PRODUCTS)
                - STORE_ID: Store identifier (FK to DIM_STORES)
                - QUANTITY: Number of units sold
                - UNIT_PRICE: Price per unit
                - TOTAL_AMOUNT: Total sale amount (quantity * unit_price)
                - DISCOUNT_AMOUNT: Discount applied
                - PAYMENT_METHOD: Method of payment (Credit Card, Cash, etc.)
                
                DIM_PRODUCTS: Product dimension table
                - PRODUCT_ID: Unique product identifier
                - PRODUCT_NAME: Name of the product
                - CATEGORY: Product category (Electronics, Clothing, etc.)
                - BRAND: Product brand
                - UNIT_COST: Cost to acquire the product
                - CURRENT_STOCK: Current inventory level
                
                DIM_STORES: Store dimension table
                - STORE_ID: Unique store identifier
                - STORE_NAME: Name of the store
                - CITY: Store location city
                - STATE: Store location state
                - REGION: Geographic region (West, East, etc.)
                - STORE_SIZE_SQFT: Store size in square feet
                - OPENING_DATE: Date store opened
                
                DIM_DATE: Date dimension table for time intelligence
                - DATE_KEY: Date in YYYYMMDD format
                - FULL_DATE: Actual date
                - YEAR, QUARTER, MONTH, DAY: Time components
                - DAY_OF_WEEK: Day name (Monday, etc.)
                - IS_WEEKEND: Boolean flag for weekends
                ";
     metadata := [("source", "schema"); ("type", "database_schema")] |}.

Definition SEED_SQL_PATTERNS : Document :=
  {| page_content := "
                Common Business Questions and SQL Patterns:
                
                Top Products by Revenue:
                SELECT p.PRODUCT_NAME, SUM(s.TOTAL_AMOUNT) as total_revenue
                FROM FACT_SALES s
                JOIN DIM_PRODUCTS p ON s.PRODUCT_ID = p.PRODUCT_ID
                GROUP BY p.PRODUCT_NAME
                ORDER BY total_revenue DESC
                LIMIT 10
                
                Sales Trends Over Time:
                SELECT d.YEAR, d.MONTH, SUM(s.TOTAL_AMOUNT) as monthly_revenue
                FROM FACT_SALES s
                JOIN DIM_DATE d ON s.SALE_DATE = d.FULL_DATE
                GROUP BY d.YEAR, d.MONTH
                ORDER BY d.YEAR, d.MONTH
                
                Store Performance:
                SELECT st.STORE_NAME, st.REGION, SUM(s.TOTAL_AMOUNT) as revenue
                FROM FACT_SALES s
                JOIN DIM_STORES st ON s.STORE_ID = st.STORE_ID
                GROUP BY st.STORE_NAME, st.REGION
                ORDER BY revenue DESC
                
                Category Analysis:
                SELECT p.CATEGORY, 
                       COUNT(DISTINCT s.TRANSACTION_ID) as num_transactions,
                       SUM(s.QUANTITY) as units_sold,
                       SUM(s.TOTAL_AMOUNT) as revenue
                FROM FACT_SALES s
                JOIN DIM_PRODUCTS p ON s.PRODUCT_ID = p.PRODUCT_ID
                GROUP BY p.CATEGORY
                ORDER BY revenue DESC
                ";
     metadata := [("source", "sql_patterns"); ("type", "query_examples")] |}.

Definition SEED_METRICS : Document :=
  {| page_content := "
                Key Metrics and KPIs:
                
                Revenue Metrics:
                - Total Revenue: Sum of all TOTAL_AMOUNT in FACT_SALES
                - Average Order Value (AOV): Average of TOTAL_AMOUNT
                - Revenue Per Store: Total revenue divided by store count
                - Revenue Growth: Period-over-period revenue change
                
                Product Metrics:
                - Best Sellers: Products with highest sales volume
                - Stock Turnover: How quickly inventory sells
                - Average Discount Rate: DISCOUNT_AMOUNT / TOTAL_AMOUNT
                
                Store Metrics:
                - Store Efficiency: Revenue per square foot
                - Regional Performance: Revenue by region
                - Store Productivity: Sales per store employee
                
                Customer Metrics:
                - Transaction Count: Number of sales transactions
                - Average Items Per Transaction: AVG(QUANTITY)
                - Payment Method Distribution: Breakdown by payment type
                ";
     metadata := [("source", "metrics"); ("type", "business_definitions")] |}.

Definition SEED_BUSINESS_RULES : Document :=
  {| page_content := "
                Data Quality and Business Rules:
                
                1. All transactions must have positive TOTAL_AMOUNT
                2. QUANTITY sold should be positive integers
                3. DISCOUNT_AMOUNT cannot exceed TOTAL_AMOUNT
                4. Product CURRENT_STOCK decreases with each sale
                5. UNIT_PRICE should be greater than UNIT_COST for profitability
                6. Sales dates should be within store operating period
                7. Each product must belong to a valid category
                8. Store regions follow standard geographic divisions
                
                Data Refresh Schedule:
                - FACT_SALES: Updated daily at 2 AM UTC
                - DIM_PRODUCTS: Updated weekly on Sundays
                - DIM_STORES: Updated monthly
                - DIM_DATE: Pre-populated for 10 years
                ";
     metadata := [("source", "business_rules"); ("type", "data_quality")] |}.

Section Engine.
Variable W : Collaborators.

Definition add_documents (documents : list Document) : M (Embedding W) unit :=
  let splits := split_documents W documents in
  store <- get_vector_store ;;
  match store with
  | Some vs =>
      vs' <- lift (DocumentStore.add W vs splits) ;;
      set_vector_store vs'
  | None =>
      vs' <- lift (DocumentStore.from_documents W splits) ;;
      set_vector_store vs'
  end.

Definition retrieve_context (query : string) (k : nat)
  : M (Embedding W) (list Document) :=
  _ <- record (CallRetrieve query k) ;;
  store <- get_vector_store ;;
  match store with
  | None => ret []
  | Some vs => lift (DocumentStore.similarity_search W vs query k)
  end.

(** [d.get(key, default)] *)
Fixpoint dict_get (d : list (string * string)) (key default : string)
  : string :=
  match d with
  | [] => default
  | (k, v) :: rest => if String.eqb k key then v else dict_get rest key default
  end.

Definition context_entry (i : nat) (doc : Document) : string :=
  "Context " ++ Summary.str_nat (i + 1) ++ " (Source: "
    ++ dict_get (metadata doc) "source" "unknown" ++ "):" ++ LF
    ++ page_content doc.

Fixpoint enumerate {A} (i : nat) (xs : list A) : list (nat * A) :=
  match xs with
  | [] => []
  | x :: rest => (i, x) :: enumerate (S i) rest
  end.

(** The second half of [get_relevant_context]: the text made of the
    retrieved chunks. *)
Definition format_context (docs : list Document) : string :=
  match docs with
  | [] => "No relevant context found."
  | _ =>
      join (LF ++ LF)
           (map (fun p => context_entry (fst p) (snd p)) (enumerate 0 docs))
  end.

Definition get_relevant_context (query : string) : M (Embedding W) string :=
  docs <- retrieve_context query 3 ;;
  ret (format_context docs).

(** The statements of [__init__] that the engine's state depends on: the
    store starts absent and is built from the split seed documents. *)
Definition _initialize_knowledge_base : M (Embedding W) unit :=
  let documents :=
    [SEED_SCHEMA; SEED_SQL_PATTERNS; SEED_METRICS; SEED_BUSINESS_RULES] in
  let splits := split_documents W documents in
  vs <- lift (DocumentStore.from_documents W splits) ;;
  set_vector_store vs.

End Engine.
End RAGEngine.

(** ** Query router ([QueryRouter]) *)
Module QueryRouter.
Import PyStr.

(** The dict returned by [process_query]; [None] in [sql_query] and [error]
    stands for a key that is not set. *)
Record RouterResult : Type := {
  answer : string;
  dataframe : option Pandas.DataFrame;
  sql_query : option string;
  error : option string
}.

Definition GREETING : string :=
  "Hello! I'm your Supply Chain Analytics assistant. I can help you analyze sales data, product performance, store metrics, and more. What would you like to know?".

Definition sql_details (sql : string) : string :=
  LF ++ LF ++ "<details>" ++ LF ++ "<summary>SQL Query Used</summary>" ++ LF
     ++ LF ++ "```sql" ++ LF ++ sql ++ LF ++ "```" ++ LF ++ "</details>".

(** The dict built under [except Exception as e:]. *)
Definition error_result (e : string) : RouterResult :=
  {| answer :=
       "I encountered an error processing your query: " ++ e ++ LF ++ LF
         ++ "Please try rephrasing your question or check the Snowflake connection.";
     dataframe := None;
     sql_query := None;
     error := Some e |}.

Definition format_columns (cols : list (string * string)) : string :=
  fold_left
    (fun acc col => acc ++ "  - " ++ fst col ++ " (" ++ snd col ++ ")" ++ LF)
    cols "".

Section Router.
Variable W : Collaborators.

(** [chain.invoke(...)] *)
Definition invoke (p : Prompt) : M (Embedding W) string :=
  _ <- record (CallLLM p) ;;
  lift (llm W p).

Definition _classify_query (query : string) : M (Embedding W) string :=
  response <- invoke (ClassificationPrompt query) ;;
  ret (lower (strip response)).

Definition _format_schema_info : M (Embedding W) string :=
  info <- get_schema_info ;;
  ret (fold_left
         (fun schema_str t =>
            schema_str ++ LF ++ fst t ++ ":" ++ LF ++ format_columns (snd t))
         info "").

Definition _generate_sql (query context : string) : M (Embedding W) string :=
  schema_str <- _format_schema_info ;;
  raw <- invoke (SqlPrompt schema_str context query) ;;
  ret (SqlCleanup.clean_sql raw).

(** [self.sf_connector.execute_query(sql_query)] *)
Definition execute (sql : string) : M (Embedding W) Pandas.DataFrame :=
  _ <- record (CallExecute sql) ;;
  lift (SnowflakeConnector.execute_query W sql).

(** The statements under [try:]. *)
Definition process_query_body (query : string) : M (Embedding W) RouterResult :=
  query_type <- _classify_query query ;;
  if String.eqb query_type "general" then
    ret {| answer := GREETING; dataframe := None;
           sql_query := None; error := None |}
  else
    context <- RAGEngine.get_relevant_context W query ;;
    if String.eqb query_type "explanation" then
      text <- invoke (ExplanationPrompt context query) ;;
      ret {| answer := text; dataframe := None;
             sql_query := None; error := None |}
    else
      sql <- _generate_sql query context ;;
      df <- execute sql ;;
      text <- lift (Summary._generate_natural_response
                      query (Some df) (Some sql)) ;;
      ret {| answer := text ++ sql_details sql; dataframe := Some df;
             sql_query := Some sql; error := None |}.

Definition process_query (query : string)
  : Machine (Embedding W) -> RouterResult * Machine (Embedding W) :=
  try_except (process_query_body query) error_result.

End Router.
(** *** The chat model chosen in [QueryRouter.__init__] *)

(** [os.getenv]: the value of a variable, if it is set. *)
Definition Env : Type := string -> option string.

(** The truth value of what [os.getenv] returns: set and not empty. *)
Definition truthy (v : option string) : bool :=
  match v with
  | Some s => negb (String.eqb s "")
  | None => false
  end.

(** The chat model that is constructed, by the arguments it is given. *)
Record LLMConfig : Type := {
  llm_provider : string;
  model : string;
  api_key : option string;
  base_url : option string
}.

Definition select_llm (getenv : Env) : LLMConfig :=
  if truthy (getenv "ANTHROPIC_API_KEY") then
    {| llm_provider := "Claude";
       model := "claude-3-5-sonnet-20241022";
       api_key := getenv "ANTHROPIC_API_KEY";
       base_url := None |}
  else if truthy (getenv "GROQ_API_KEY") then
    {| llm_provider := "Groq";
       model := "mixtral-8x7b-32768";
       api_key := getenv "GROQ_API_KEY";
       base_url := Some "https://api.groq.com/openai/v1" |}
  else
    {| llm_provider := "OpenAI";
       model := "gpt-3.5-turbo";
       api_key := None;
       base_url := None |}.

(** *** [_format_schema_info] over the dicts that [get_schema_info] returns

    The machine above holds, for each record, its [COLUMN_NAME] and
    [DATA_TYPE]; here the records are the dicts themselves, and a missing
    key is a [KeyError]. *)

(** [d[key]] *)
Definition getitem (d : list (string * Pandas.Value)) (key : string)
  : result Pandas.Value :=
  match find (fun kv => String.eqb (fst kv) key) d with
  | Some kv => Ok (snd kv)
  | None => Raise ("'" ++ key ++ "'")
  end.

Definition column_line (schema_str : string)
    (col : list (string * Pandas.Value)) : result string :=
  name <- getitem col "COLUMN_NAME" ;;
  type <- getitem col "DATA_TYPE" ;;
  Ok (schema_str ++ "  - " ++ Pandas.str_value name
                 ++ " (" ++ Pandas.str_value type ++ ")" ++ LF).

Definition table_block (schema_str : string)
    (t : Pandas.Value * list (list (string * Pandas.Value)))
  : result string :=
  for_each column_line (snd t)
    (schema_str ++ LF ++ Pandas.str_value (fst t) ++ ":" ++ LF).

Definition format_raw_schema (schema_info : SnowflakeConnector.RawSchema)
  : result string :=
  for_each table_block schema_info "".

End QueryRouter.

(** ** Chat page ([app.py]): the provider indicator, and the block that
    answers a prompt *)
Module App.
Import PyStr Pandas.

Inductive Level : Type := Success | Info | Warning.

(** The indicator of the active chat model. *)
Definition llm_indicator (getenv : QueryRouter.Env) : Level * string :=
  if QueryRouter.truthy (getenv "ANTHROPIC_API_KEY") then
    (Success, "🤖 LLM: Claude 3 Haiku ($0.25/M tokens)")
  else if QueryRouter.truthy (getenv "GROQ_API_KEY") then
    (Info, "🤖 LLM: Groq Mixtral (FREE)")
  else if QueryRouter.truthy (getenv "OPENAI_API_KEY") then
    (Info, "🤖 LLM: OpenAI GPT-3.5")
  else
    (Warning, "🤖 LLM: Not configured").

(** A bar chart, by the arguments of [px.bar]. *)
Record Figure : Type := {
  data : DataFrame;
  x : string;
  y : string;
  title : string
}.

(** The chart that the page asks for, if it asks for one. *)
Definition chart_for (df : DataFrame) : option Figure :=
  if 2 <=? List.length (columns df) then
    match select_dtypes_number df with
    | [] => None
    | numeric_col :: _ =>
        let categorical_col :=
          match select_dtypes_exclude_number df with
          | c :: _ => c
          | [] => hd "" (map fst (columns df))
          end in
        Some {| data := head 10 df;
                x := categorical_col;
                y := numeric_col;
                title := numeric_col ++ " by " ++ categorical_col |}
    end
  else None.

(** An entry of [st.session_state.messages]; [None] stands for a key that
    is not set. *)
Record Message : Type := {
  role : string;
  content : string;
  chart : option Figure;
  frame : option DataFrame
}.

(** What the page has displayed, oldest first. *)
Inductive Shown : Type :=
| Markdown (text : string)
| PlotlyChart (fig : Figure)
| Table (df : DataFrame)
| Error (text : string).

Definition NOT_CONNECTED : string :=
  "⚠️ Please connect to Snowflake first using the sidebar configuration.".

Definition user (text : string) : Message :=
  {| role := "user"; content := text; chart := None; frame := None |}.

Definition assistant (text : string) : Message :=
  {| role := "assistant"; content := text; chart := None; frame := None |}.

Section Page.
Variable W : Collaborators.
(** [px.bar]: the text of the exception it raises for a figure, if any. *)
Variable px_bar_error : Figure -> option string.
(** [QueryRouter(sf_connector, rag_engine)]: the schema snapshot that the
    new router holds, or the failure of its constructor. *)
Variable new_router : result SchemaInfo.

(** The session: the history, the connection flag, the engine and the
    router if they have been built (the router holds the engine of the
    session), the calls made so far, and what has been displayed. *)
Record Session : Type := {
  messages : list Message;
  snowflake_connected : bool;
  rag_engine : option (option (DocumentStore.Store (Embedding W)));
  query_router : option SchemaInfo;
  router_calls : list Call;
  shown : list Shown
}.

Definition show (s : Session) (what : Shown) : Session :=
  {| messages := messages s;
     snowflake_connected := snowflake_connected s;
     rag_engine := rag_engine s;
     query_router := query_router s;
     router_calls := router_calls s;
     shown := (shown s ++ [what])%list |}.

Definition append_message (s : Session) (msg : Message) : Session :=
  {| messages := (messages s ++ [msg])%list;
     snowflake_connected := snowflake_connected s;
     rag_engine := rag_engine s;
     query_router := query_router s;
     router_calls := router_calls s;
     shown := shown s |}.

(** [RAGEngine()]: the store of the new engine, or the failure of its
    constructor. *)
Definition new_engine
  : result (option (DocumentStore.Store (Embedding W))) :=
  match RAGEngine._initialize_knowledge_base W
          {| vector_store := None; schema_info := []; calls := [] |} with
  | (Ok _, m) => Ok (vector_store m)
  | (Raise e, _) => Raise e
  end.

(** [if "rag_engine" not in st.session_state: ... = RAGEngine()] *)
Definition ensure_engine (s : Session)
  : result (option (DocumentStore.Store (Embedding W))) * Session :=
  match rag_engine s with
  | Some store => (Ok store, s)
  | None =>
      match new_engine with
      | Ok store =>
          (Ok store,
           {| messages := messages s;
              snowflake_connected := snowflake_connected s;
              rag_engine := Some store;
              query_router := query_router s;
              router_calls := router_calls s;
              shown := shown s |})
      | Raise e => (Raise e, s)
      end
  end.

(** [if "query_router" not in st.session_state: ... = QueryRouter(...)] *)
Definition ensure_router (s : Session) : result SchemaInfo * Session :=
  match query_router s with
  | Some schema => (Ok schema, s)
  | None =>
      match new_router with
      | Ok schema =>
          (Ok schema,
           {| messages := messages s;
              snowflake_connected := snowflake_connected s;
              rag_engine := rag_engine s;
              query_router := Some schema;
              router_calls := router_calls s;
              shown := shown s |})
      | Raise e => (Raise e, s)
      end
  end.

(** The statements from [st.markdown(result["answer"])] to
    [st.session_state.messages.append(message)]. *)
Definition present (reply : QueryRouter.RouterResult) (s : Session)
  : result unit * Session :=
  let s := show s (Markdown (QueryRouter.answer reply)) in
  let message := assistant (QueryRouter.answer reply) in
  match QueryRouter.dataframe reply with
  | None => (Ok tt, append_message s message)
  | Some df =>
      match chart_for df with
      | None =>
          let s := show s (Table (head 20 df)) in
          (Ok tt,
           append_message s
             {| role := role message; content := content message;
                chart := None; frame := Some df |})
      | Some fig =>
          match px_bar_error fig with
          | Some e => (Raise e, s)
          | None =>
              let s := show s (PlotlyChart fig) in
              let s := show s (Table (head 20 df)) in
              (Ok tt,
               append_message s
                 {| role := role message; content := content message;
                    chart := Some fig; frame := Some df |})
          end
      end
  end.

(** The statements under [try:]. *)
Definition respond (prompt : string) (s : Session) : result unit * Session :=
  if negb (snowflake_connected s) then
    (Ok tt, append_message (show s (Markdown NOT_CONNECTED))
              (assistant NOT_CONNECTED))
  else
    match ensure_engine s with
    | (Raise e, s) => (Raise e, s)
    | (Ok store, s) =>
        match ensure_router s with
        | (Raise e, s) => (Raise e, s)
        | (Ok schema, s) =>
            let (reply, m) :=
              QueryRouter.process_query W prompt
                {| vector_store := store; schema_info := schema;
                   calls := router_calls s |} in
            present reply
              {| messages := messages s;
                 snowflake_connected := snowflake_connected s;
                 rag_engine := Some (vector_store m);
                 query_router := query_router s;
                 router_calls := calls m;
                 shown := shown s |}
        end
    end.

(** The block under [if prompt := st.chat_input(...)]. *)
Definition on_prompt (prompt : string) (s : Session) : Session :=
  let s := append_message s (user prompt) in
  let s := show s (Markdown prompt) in
  match respond prompt s with
  | (Ok _, s) => s
  | (Raise e, s) =>
      let error_msg := "❌ Error: " ++ e in
      append_message (show s (Error error_msg)) (assistant error_msg)
  end.

End Page.
End App.

(** ** Sample collaborators, used to run the definitions *)
Module Sample.
Import PyStr Pandas.
Local Open Scope Z_scope.

Definition doc (text source : string) : Document :=
  {| page_content := text; metadata := [("source", source)] |}.

Definition revenue3 : DataFrame :=
  {| n_rows := 3;
     columns := [("PRODUCT_NAME", Object ["Anvil"; "Bolt"; "Crate"]);
                 ("TOTAL_REVENUE", Int64 [10; 20; 30])] |}.

Definition single3 : DataFrame :=
  {| n_rows := 3; columns := [("TOTAL_REVENUE", Int64 [10; 20; 30])] |}.

Definition names15 : list string :=
  map (fun i => "P" ++ Summary.str_nat i) (seq 1 15).

Definition revenue15 : DataFrame :=
  {| n_rows := 15;
     columns := [("PRODUCT_NAME", Object names15);
                 ("TOTAL_REVENUE", Int64 (map Z.of_nat (seq 1 15)))] |}.

Definition single15 : DataFrame :=
  {| n_rows := 15;
     columns := [("TOTAL_REVENUE", Int64 (map Z.of_nat (seq 1 15)))] |}.

Definition no_rows : DataFrame :=
  {| n_rows := 0; columns := [("TOTAL_REVENUE", Int64 [])] |}.

(** The gateway answers a classification with the question itself, wraps its
    statement in a fence, and explains by repeating the context.  A text is
    embedded as its length; the closer the lengths, the higher the score. *)
Definition gateway (p : Prompt) : result string :=
  match p with
  | ClassificationPrompt q => Ok q
  | SqlPrompt _ _ _ => Ok ("```sql" ++ LF ++ "SELECT 1" ++ LF ++ "```")
  | ExplanationPrompt c _ => Ok c
  end.

Definition online : Collaborators :=
  {| Embedding := Z;
     embed := fun s => Ok (Z.of_nat (String.length s));
     similarity := fun q v => - Z.abs (q - v);
     split_documents := fun ds => ds;
     llm := gateway;
     fetch := fun _ => Ok revenue3 |}.

(** The same, with a warehouse that cannot be reached. *)
Definition offline : Collaborators :=
  {| Embedding := Z;
     embed := fun s => Ok (Z.of_nat (String.length s));
     similarity := fun q v => - Z.abs (q - v);
     split_documents := fun ds => ds;
     llm := gateway;
     fetch := fun _ => Raise "connection lost" |}.

Definition corpus : DocumentStore.Store Z :=
  [(doc "schema" "schema", 6); (doc "metrics" "metrics", 7);
   (doc "rules!" "business_rules", 6); (doc "sql patterns" "sql_patterns", 12)].

Definition machine : Machine Z :=
  {| vector_store := Some corpus; schema_info := []; calls := [] |}.

Definition bare : Machine Z :=
  {| vector_store := None; schema_info := []; calls := [] |}.

(** A table with two text columns before its numeric column, and a table
    whose columns are all numeric. *)
Definition mixed3 : DataFrame :=
  {| n_rows := 3;
     columns := [("PRODUCT_NAME", Object ["Anvil"; "Bolt"; "Crate"]);
                 ("CATEGORY", Object ["Tools"; "Parts"; "Boxes"]);
                 ("TOTAL_REVENUE", Int64 [10; 20; 30])] |}.

Definition numeric3 : DataFrame :=
  {| n_rows := 3;
     columns := [("STORE_ID", Int64 [1; 2; 3]);
                 ("UNITS", Int64 [5; 6; 7])] |}.

(** A warehouse whose statements return no rows. *)
Definition drained : Collaborators :=
  {| Embedding := Z;
     embed := fun s => Ok (Z.of_nat (String.length s));
     similarity := fun q v => - Z.abs (q - v);
     split_documents := fun ds => ds;
     llm := gateway;
     fetch := fun _ => Ok no_rows |}.

Definition tables_frame : DataFrame :=
  {| n_rows := 2;
     columns := [("TABLE_NAME", Object ["DIM_DATE"; "FACT_SALES"]);
                 ("TABLE_TYPE", Object ["BASE TABLE"; "BASE TABLE"])] |}.

Definition columns_frame : DataFrame :=
  {| n_rows := 2;
     columns := [("COLUMN_NAME", Object ["ID"; "AMOUNT"]);
                 ("DATA_TYPE", Object ["NUMBER"; "FLOAT"])] |}.

(** A warehouse that answers the tables statement of schema [MARTS] of
    database [DB], and any other statement with the same two columns. *)
Definition catalogued : Collaborators :=
  {| Embedding := Z;
     embed := fun s => Ok (Z.of_nat (String.length s));
     similarity := fun q v => - Z.abs (q - v);
     split_documents := fun ds => ds;
     llm := gateway;
     fetch := fun q =>
                if String.eqb q (SnowflakeConnector.tables_query "DB" "MARTS")
                then Ok tables_frame else Ok columns_frame |}.

(** A schema of three tables, and a warehouse that fails on the columns
    statement of the second. *)
Definition tables3_frame : DataFrame :=
  {| n_rows := 3;
     columns := [("TABLE_NAME", Object ["DIM_DATE"; "DIM_STORES"; "FACT_SALES"]);
                 ("TABLE_TYPE",
                  Object ["BASE TABLE"; "BASE TABLE"; "BASE TABLE"])] |}.

Definition patchy : Collaborators :=
  {| Embedding := Z;
     embed := fun s => Ok (Z.of_nat (String.length s));
     similarity := fun q v => - Z.abs (q - v);
     split_documents := fun ds => ds;
     llm := gateway;
     fetch := fun q =>
                if String.eqb q (SnowflakeConnector.tables_query "DB" "MARTS")
                then Ok tables3_frame
                else if String.eqb q (SnowflakeConnector.columns_query
                                        "DB" "MARTS" "DIM_STORES")
                then Raise "timeout"
                else Ok columns_frame |}.

(** A table in which two columns carry the label of the first numeric
    column. *)
Definition twin3 : DataFrame :=
  {| n_rows := 3;
     columns := [("REGION", Object ["West"; "East"; "North"]);
                 ("AMOUNT", Int64 [10; 20; 30]);
                 ("AMOUNT", Int64 [1; 2; 3])] |}.

(** U+00A0, NO-BREAK SPACE. *)
Definition NBSP : string :=
  String (ascii_of_nat 194) (String (ascii_of_nat 160) "").

(** An environment with an empty Anthropic key and a Groq key, one with an
    Anthropic key, and one with no key at all. *)
Definition groq_only : QueryRouter.Env :=
  fun name =>
    if String.eqb name "ANTHROPIC_API_KEY" then Some ""%string
    else if String.eqb name "GROQ_API_KEY" then Some "gsk"%string
    else None.

Definition anthropic_only : QueryRouter.Env :=
  fun name =>
    if String.eqb name "ANTHROPIC_API_KEY" then Some "sk-ant"%string
    else None.

Definition no_key : QueryRouter.Env := fun _ => None.

(** A session that has its engine and its router, and one that has not
    connected. *)
Definition session : App.Session online :=
  App.Build_Session online [] true (Some (Some corpus)) (Some []) [] [].

Definition visitor : App.Session online :=
  App.Build_Session online [] false None None [] [].

Definition newcomer : App.Session online :=
  App.Build_Session online [] true (Some (Some corpus)) None [] [].

End Sample.

(** ** Notions used to state the further properties *)
Module Views.
Import PyStr.

(** The text that [_format_schema_info] builds from a catalog. *)
Definition schema_text (info : SchemaInfo) : string :=
  fold_left
    (fun schema_str t =>
       schema_str ++ LF ++ fst t ++ ":" ++ LF
                  ++ QueryRouter.format_columns (snd t))
    info "".

(** The strings of a list, one after the other. *)
Definition lines (l : list string) : string := fold_right append "" l.

(** The line that the summary writes for row [i] of a table whose first
    column is [s0] and whose second column holds the integers [vs1]. *)
Definition row_text (s0 : Pandas.Series) (vs1 : list Z) (i : nat) : string :=
  Summary.BULLET ++ " "
    ++ match Pandas.cell s0 i with
       | Some v => Pandas.str_value v
       | None => ""
       end
    ++ ": " ++ Pandas.format_2f (nth i vs1 0%Z) ++ LF.

(** The frame that the warehouse returns for a statement (the empty frame
    when the statement fails). *)
Definition fetched (W : Collaborators) (q : string) : Pandas.DataFrame :=
  match fetch W q with
  | Ok df => df
  | Raise _ => {| Pandas.n_rows := 0; Pandas.columns := [] |}
  end.

(** The statement that [get_schema_info] sends for a table name, and the
    entry that the answer to it makes in the schema dict. *)
Definition columns_statement (database schema : string) (t : Pandas.Value)
  : string :=
  SnowflakeConnector.columns_query database schema (Pandas.str_value t).

Definition columns_entry (W : Collaborators) (database schema : string)
    (t : Pandas.Value)
  : Pandas.Value * list (list (string * Pandas.Value)) :=
  (t, Pandas.to_dict_records
        (fetched W (columns_statement database schema t))).

(** The name and the type that a record of [get_schema_info] carries, when
    it carries both. *)
Definition record_pair (col : list (string * Pandas.Value))
  : option (string * string) :=
  match QueryRouter.getitem col "COLUMN_NAME",
        QueryRouter.getitem col "DATA_TYPE" with
  | Ok name, Ok type => Some (Pandas.str_value name, Pandas.str_value type)
  | _, _ => None
  end.

Fixpoint all_some {A : Type} (l : list (option A)) : option (list A) :=
  match l with
  | [] => Some []
  | None :: _ => None
  | Some a :: rest => option_map (cons a) (all_some rest)
  end.

(** The snapshot that the machine holds for a schema dict: table names and
    (name, type) pairs, when every record carries both keys. *)
Definition catalog_of (raw : SnowflakeConnector.RawSchema)
  : option SchemaInfo :=
  all_some
    (map (fun t =>
            option_map (pair (Pandas.str_value (fst t)))
                       (all_some (map record_pair (snd t))))
         raw).

(** The machine after a series of [add_documents] calls, each run on what
    the one before it left, whether it returned or raised. *)
Definition ingest_all (W : Collaborators) (batches : list (list Document))
    (m : Machine (Embedding W)) : Machine (Embedding W) :=
  fold_left (fun m documents => snd (RAGEngine.add_documents W documents m))
            batches m.

(** The entry that the page stores for a reply of the router. *)
Definition stored_message (reply : QueryRouter.RouterResult) : App.Message :=
  {| App.role := "assistant";
     App.content := QueryRouter.answer reply;
     App.chart := match QueryRouter.dataframe reply with
                  | Some df => App.chart_for df
                  | None => None
                  end;
     App.frame := QueryRouter.dataframe reply |}.

(** The [KeyError] of a record that lacks one of the two keys. *)
Definition KEY_ERROR (text : result string) : Prop :=
  text = Raise "'COLUMN_NAME'" \/ text = Raise "'DATA_TYPE'".

End Views.

(** * Properties *)

(** ** Facts about the string operations *)
Module PyStrFacts.
Import PyStr.

Lemma length_append (a b : string) :
  String.length (a ++ b) = String.length a + String.length b.
Proof. induction a as [|c a IH]; simpl; [reflexivity | now rewrite IH]. Qed.

Lemma append_assoc (a b c : string) : (a ++ b) ++ c = a ++ (b ++ c).
Proof. induction a as [|x a IH]; simpl; [reflexivity | now rewrite IH]. Qed.

Lemma append_empty_r (a : string) : a ++ "" = a.
Proof. induction a as [|x a IH]; simpl; [reflexivity | now rewrite IH]. Qed.

Lemma prefix_split (p s : string) :
  String.prefix p s = true -> exists b, s = p ++ b.
Proof.
  revert s; induction p as [|c p IH]; intros s H.
  - exists s; reflexivity.
  - destruct s as [|d s]; simpl in H; [discriminate|].
    destruct (ascii_dec c d) as [->|]; [|discriminate].
    destruct (IH s H) as [b ->]. exists b; reflexivity.
Qed.

Lemma prefix_append (p b : string) : String.prefix p (p ++ b) = true.
Proof.
  induction p as [|c p IH]; simpl; [now destruct b|].
  destruct (ascii_dec c c); [exact IH | congruence].
Qed.

Lemma take_drop (n : nat) (s : string) : take n s ++ drop n s = s.
Proof.
  revert s; induction n as [|n IH]; intros [|c s]; simpl; try reflexivity.
  now rewrite IH.
Qed.

Lemma drop_append (a b : string) : drop (String.length a) (a ++ b) = b.
Proof. induction a as [|c a IH]; simpl; [now destruct b | exact IH]. Qed.

Lemma take_append (a b : string) : take (String.length a) (a ++ b) = a.
Proof.
  induction a as [|c a IH]; simpl; [now destruct b | now rewrite IH].
Qed.

Lemma endswith_split (s p : string) :
  endswith s p = true -> exists a, s = a ++ p.
Proof.
  unfold endswith; intros H.
  apply andb_true_iff in H as [_ H]. apply String.eqb_eq in H.
  exists (take (String.length s - String.length p) s).
  pose proof (take_drop (String.length s - String.length p) s) as T.
  rewrite H in T. now symmetry.
Qed.

Lemma endswith_append (a p : string) : endswith (a ++ p) p = true.
Proof.
  unfold endswith. rewrite length_append.
  replace (String.length a + String.length p - String.length p)
    with (String.length a) by lia.
  rewrite drop_append, String.eqb_refl, andb_true_r.
  apply Nat.leb_le; lia.
Qed.

Lemma drop_last_append (a p : string) :
  drop_last (String.length p) (a ++ p) = a.
Proof.
  unfold drop_last. rewrite length_append.
  replace (String.length a + String.length p - String.length p)
    with (String.length a) by lia.
  apply take_append.
Qed.

Lemma contains_intro (a p b : string) : contains (a ++ p ++ b) p = true.
Proof.
  induction a as [|c a IH]; simpl.
  - destruct (p ++ b) eqn:E.
    + destruct p; [reflexivity | discriminate].
    + cbn [contains]. rewrite <- E, prefix_append. reflexivity.
  - rewrite IH. apply orb_true_r.
Qed.

Lemma after_space_split (s r : string) :
  after_space s = Some r -> exists w, s = w ++ r /\ 0 < String.length w.
Proof.
  destruct s as [|c1 [|c2 [|c3 s3]]]; cbn [after_space];
    repeat match goal with
           | |- context [if ?b then _ else _] => destruct b
           end;
    intros H; inversion H; subst;
    first [ exists (String c1 ""); split; [reflexivity | simpl; lia]
          | exists (String c1 (String c2 "")); split;
            [reflexivity | simpl; lia]
          | exists (String c1 (String c2 (String c3 ""))); split;
            [reflexivity | simpl; lia] ].
Qed.

Lemma lstrip_unfold (s : string) :
  lstrip s = match after_space s with Some r => lstrip r | None => s end.
Proof.
  destruct s as [|c1 s1]; [reflexivity|]. cbn [lstrip after_space].
  destruct (isspace c1); [reflexivity|].
  destruct s1 as [|c2 s2]; [reflexivity|].
  destruct (isspace2 c1 c2); [reflexivity|].
  destruct s2 as [|c3 s3]; [reflexivity|].
  now destruct (isspace3 c1 c2 c3).
Qed.

(** Induction along the white-space characters that a string begins with. *)
Lemma after_space_ind (P : string -> Prop) :
  (forall s, after_space s = None -> P s) ->
  (forall s r, after_space s = Some r -> P r -> P s) ->
  forall s, P s.
Proof.
  intros Hn Hs s.
  remember (String.length s) as n eqn:E. revert s E.
  induction n as [n IH] using lt_wf_ind. intros s ->.
  destruct (after_space s) as [r|] eqn:A; [|now apply Hn].
  apply (Hs s r A). destruct (after_space_split s r A) as (w & -> & Hw).
  apply (IH (String.length r)); [rewrite length_append; lia | reflexivity].
Qed.

Lemma lstrip_suffix (s : string) : exists a, s = a ++ lstrip s.
Proof.
  induction s as [s A | s r A [a IH]] using after_space_ind;
    rewrite lstrip_unfold, A.
  - now exists "".
  - destruct (after_space_split s r A) as (w & -> & _).
    exists (w ++ a). now rewrite append_assoc, <- IH.
Qed.

Lemma lstrip_clean (s : string) : after_space (lstrip s) = None.
Proof.
  induction s as [s A | s r A IH] using after_space_ind;
    rewrite lstrip_unfold, A; assumption.
Qed.

Lemma lstrip_fixed (s : string) : after_space s = None -> lstrip s = s.
Proof. intros A. now rewrite lstrip_unfold, A. Qed.

Lemma after_space_append (p r b : string) :
  after_space p = Some r -> after_space (p ++ b) = Some (r ++ b).
Proof.
  destruct p as [|c1 [|c2 [|c3 p3]]]; cbn [after_space append];
    repeat match goal with
           | |- context [if ?x then _ else _] => destruct x
           end;
    intros H; inversion H; reflexivity.
Qed.

Lemma after_space_prefix (p b : string) :
  after_space (p ++ b) = None -> after_space p = None.
Proof.
  intros H. destruct (after_space p) as [r|] eqn:A; [|reflexivity].
  rewrite (after_space_append p r b A) in H. discriminate.
Qed.

Lemma blank_empty (s : string) : blank s = true <-> lstrip s = "".
Proof. unfold blank. destruct (lstrip s); split; congruence. Qed.

Lemma lstrip_blank_append (p b : string) :
  blank p = true -> lstrip (p ++ b) = lstrip b.
Proof.
  induction p as [p A | p r A IH] using after_space_ind; intros H.
  - apply blank_empty in H. rewrite (lstrip_fixed p A) in H. now subst p.
  - rewrite (lstrip_unfold (p ++ b)), (after_space_append p r b A).
    apply IH. apply blank_empty. apply blank_empty in H.
    now rewrite lstrip_unfold, A in H.
Qed.

Lemma rstrip_split (s : string) :
  exists b, s = rstrip s ++ b /\ blank b = true.
Proof.
  induction s as [|c s (b & IH & Hb)].
  - now exists "".
  - cbn [rstrip]. destruct (blank (String c s)) eqn:B.
    + now exists (String c s).
    + exists b. split; [|exact Hb]. simpl. now rewrite <- IH.
Qed.

Lemma rstrip_prefix (s : string) : exists b, s = rstrip s ++ b.
Proof. destruct (rstrip_split s) as (b & H & _). now exists b. Qed.

Lemma strip_infix (s : string) : exists a b, s = a ++ strip s ++ b.
Proof.
  unfold strip.
  destruct (lstrip_suffix s) as [a Ha].
  destruct (rstrip_prefix (lstrip s)) as [b Hb].
  exists a, b. now rewrite <- Hb.
Qed.

Lemma rstrip_idempotent (s : string) : rstrip (rstrip s) = rstrip s.
Proof.
  induction s as [|c s IH]; [reflexivity|].
  cbn [rstrip]. destruct (blank (String c s)) eqn:B; [reflexivity|].
  cbn [rstrip]. rewrite IH.
  destruct (blank (String c (rstrip s))) eqn:B'; [|reflexivity].
  destruct (rstrip_split s) as (b & Hs & Hb).
  rewrite Hs in B.
  change (String c (rstrip s ++ b)) with (String c (rstrip s) ++ b) in B.
  unfold blank in B. rewrite (lstrip_blank_append _ b B') in B.
  apply blank_empty in Hb. rewrite Hb in B. discriminate.
Qed.

Lemma lstrip_rstrip (s : string) :
  after_space s = None -> lstrip (rstrip s) = rstrip s.
Proof.
  intros A. destruct (rstrip_prefix s) as [b Hb].
  apply lstrip_fixed, (after_space_prefix _ b). now rewrite <- Hb.
Qed.

Lemma strip_idempotent (s : string) : strip (strip s) = strip s.
Proof.
  unfold strip.
  rewrite (lstrip_rstrip (lstrip s) (lstrip_clean s)).
  apply rstrip_idempotent.
Qed.











End PyStrFacts.

Import PyStr SqlCleanup Pandas Summary.
Import DocumentStore RAGEngine QueryRouter Views.

(** ** Query-generation post-processing *)
Section GenerateSql.
Import PyStrFacts.

Lemma startswith_fence_sql (s : string) :
  startswith s FENCE = false -> startswith s FENCE_SQL = false.
Proof.
  unfold startswith; intros H.
  destruct (String.prefix FENCE_SQL s) eqn:P; [|reflexivity].
  destruct (prefix_split _ _ P) as [b ->].
  change (FENCE_SQL ++ b) with (FENCE ++ ("sql" ++ b)) in H.
  now rewrite prefix_append in H.
Qed.

Lemma drop_last_fence (body : string) : drop_last 3 (body ++ FENCE) = body.
Proof. exact (drop_last_append body FENCE). Qed.

Lemma clean_sql_sql_fence (raw inner : string) :
  strip raw = "```sql" ++ inner ++ "```" ->
  startswith inner FENCE = false ->
  clean_sql raw = strip inner.
Proof.
  intros H Hin. unfold clean_sql. rewrite H.
  change (startswith ("```sql" ++ inner ++ "```") FENCE_SQL)
    with (String.prefix FENCE_SQL (FENCE_SQL ++ inner ++ "```")).
  rewrite prefix_append.
  change (drop 6 ("```sql" ++ inner ++ "```")) with (inner ++ "```").
  destruct (startswith (inner ++ "```") FENCE) eqn:P.
  - (* the body is shorter than a fence and made of backticks *)
    assert (Hs : inner = "" \/ inner = "`" \/ inner = "``").
    { unfold startswith, FENCE in *.
      destruct inner as [|a [|b [|c r]]]; cbn -[ascii_dec] in *;
        repeat match goal with
               | H : context [ascii_dec ?x ?y] |- _ =>
                   destruct (ascii_dec x y); subst
               end;
        try discriminate; auto.
      destruct r; discriminate. }
    destruct Hs as [-> | [-> | ->]]; reflexivity.
  - change "```" with FENCE. rewrite endswith_append.
    now rewrite drop_last_fence.
Qed.

Lemma clean_sql_plain_fence (raw inner : string) :
  strip raw = "```" ++ inner ++ "```" ->
  startswith inner "sql" = false ->
  clean_sql raw = strip inner.
Proof.
  intros H Hin. unfold clean_sql. rewrite H.
  assert (Hs : startswith ("```" ++ inner ++ "```") FENCE_SQL = false).
  { unfold startswith in *. revert Hin.
    destruct inner as [|a [|b [|c r]]]; cbn -[ascii_dec];
      repeat match goal with
             | |- context [ascii_dec ?x ?y] => destruct (ascii_dec x y)
             end; try reflexivity; try discriminate; try congruence.
    now destruct r. }
  rewrite Hs.
  change (startswith ("```" ++ inner ++ "```") FENCE)
    with (String.prefix FENCE (FENCE ++ inner ++ "```")).
  rewrite prefix_append.
  change (drop 3 ("```" ++ inner ++ "```")) with (inner ++ FENCE).
  rewrite endswith_append.
  now rewrite drop_last_fence.
Qed.

Lemma clean_sql_no_fence (raw : string) :
  contains raw FENCE = false -> clean_sql raw = strip raw.
Proof.
  intros H. destruct (strip_infix raw) as (a & b & Hab).
  assert (Hp : startswith (strip raw) FENCE = false).
  { destruct (startswith (strip raw) FENCE) eqn:P; [|reflexivity].
    destruct (prefix_split _ _ P) as [t Ht].
    rewrite Ht, append_assoc in Hab.
    rewrite Hab, contains_intro in H. discriminate. }
  assert (He : endswith (strip raw) FENCE = false).
  { destruct (endswith (strip raw) FENCE) eqn:P; [|reflexivity].
    destruct (endswith_split _ _ P) as [t Ht].
    rewrite Ht, append_assoc, <- append_assoc in Hab.
    rewrite Hab, contains_intro in H. discriminate. }
  unfold clean_sql.
  rewrite (startswith_fence_sql _ Hp), Hp, He. apply strip_idempotent.
Qed.

(** C2 (as amended).  When the trimmed response is [```sql], a body that
    does not begin with a further fence, and a closing fence, or an opening
    fence, a body that does not begin with [sql], and a closing fence, the
    cleaned statement is the trimmed body.  A response with no fence in it
    comes back trimmed of its surrounding white space, and so unchanged
    when it has none. *)
Theorem generate_sql_cleanup (raw inner : string) :
  (strip raw = "```sql" ++ inner ++ "```" ->
   startswith inner "```" = false -> clean_sql raw = strip inner) /\
  (strip raw = "```" ++ inner ++ "```" ->
   startswith inner "sql" = false -> clean_sql raw = strip inner) /\
  (contains raw "```" = false ->
   clean_sql raw = strip raw /\ (strip raw = raw -> clean_sql raw = raw)).
Proof.
  split; [|split].
  - apply clean_sql_sql_fence.
  - apply clean_sql_plain_fence.
  - intros H. rewrite (clean_sql_no_fence raw H). now split.
Qed.

End GenerateSql.

(** ** Result-to-text synthesis *)
Section Summarize.
Import PyStrFacts.

Lemma count_sentence_only (query : string) (df : DataFrame)
    (sql : option string) :
  empty df = false ->
  List.length (columns df) < 2 \/ select_dtypes_number df = [] ->
  _generate_natural_response query (Some df) sql
  = Ok ("Found " ++ str_nat (len df) ++ " results. ").
Proof.
  intros He Hc. unfold _generate_natural_response. rewrite He.
  destruct (2 <=? List.length (columns df)) eqn:L; [|reflexivity].
  apply Nat.leb_le in L. destruct Hc as [Hc | Hc]; [lia|].
  now rewrite Hc.
Qed.

Lemma label_lookup (c0 c1 : string) (s0 s1 : Series) :
  c0 <> c1 ->
  filter (fun c => String.eqb (fst c) c1) [(c0, s0); (c1, s1)] = [(c1, s1)].
Proof.
  intros H. simpl. rewrite String.eqb_refl.
  apply String.eqb_neq in H. now rewrite H.
Qed.

(** C3 (as amended).  For a table of a label column and one numeric column,
    with 3 rows holding 10, 20 and 30, the summary states the total 60.00
    and lists the 3 rows; with more than 10 rows (15, say) it states the
    total and that the top 10 results are shown, and lists no row. *)
Theorem summary_of_labelled_totals (query c0 c1 : string)
    (sql : option string) :
  c0 <> c1 ->
  (forall l0 l1 l2 : string,
     _generate_natural_response query
       (Some {| n_rows := 3;
                columns := [(c0, Object [l0; l1; l2]);
                            (c1, Int64 [10; 20; 30]%Z)] |}) sql
     = Ok ("Found 3 results. The total " ++ c1
           ++ " is 60.00. Here are all the results:" ++ LF ++ LF
           ++ BULLET ++ " " ++ l0 ++ ": 10.00" ++ LF
           ++ BULLET ++ " " ++ l1 ++ ": 20.00" ++ LF
           ++ BULLET ++ " " ++ l2 ++ ": 30.00" ++ LF)) /\
  (forall (n : nat) (labels : list string) (values : list Z),
     10 < n ->
     _generate_natural_response query
       (Some {| n_rows := n;
                columns := [(c0, Object labels); (c1, Int64 values)] |}) sql
     = Ok ("Found " ++ str_nat n ++ " results. The total " ++ c1 ++ " is "
           ++ format_2f (series_sum values)
           ++ ". Top 10 results shown below.")).
Proof.
  intros Hne; split.
  - intros l0 l1 l2. unfold _generate_natural_response.
    cbn [empty n_rows columns List.length Nat.eqb orb Nat.leb
         select_dtypes_number filter map snd fst is_number len].
    unfold format_column_sum. cbn [columns]. rewrite (label_lookup _ _ _ _ Hne).
    cbn [bind result_monad head_rows n_rows Nat.min seq for_each].
    unfold row_line, iloc.
    cbn [columns nth_error cell option_map bind result_monad
         format_value_2f str_value].
    f_equal. rewrite !append_assoc. reflexivity.
  - intros n labels values Hn. unfold _generate_natural_response.
    unfold empty, len. cbn [n_rows columns List.length].
    destruct (Nat.eqb_spec n 0) as [->|_]; [lia|].
    cbn [Nat.eqb orb Nat.leb select_dtypes_number columns filter map snd fst
         is_number].
    unfold format_column_sum. cbn [columns]. rewrite (label_lookup _ _ _ _ Hne).
    cbn [bind result_monad].
    destruct (Nat.leb_spec n 10) as [H|_]; [lia|].
    f_equal. rewrite !append_assoc. reflexivity.
Qed.

(** C10 (as amended).  For a table that is not empty and has fewer than two
    columns, the summary is the row-count sentence alone, even when the one
    column is numeric; the same holds for a table with no numeric column.
    So a total and a row listing appear only with at least two columns and
    at least one numeric column. *)
Theorem summary_count_only (query : string) (df : DataFrame)
    (sql : option string) :
  empty df = false ->
  (List.length (columns df) < 2 ->
   _generate_natural_response query (Some df) sql
   = Ok ("Found " ++ str_nat (len df) ++ " results. ")) /\
  (select_dtypes_number df = [] ->
   _generate_natural_response query (Some df) sql
   = Ok ("Found " ++ str_nat (len df) ++ " results. ")).
Proof.
  intros He; split; intros H; apply count_sentence_only; auto.
Qed.

End Summarize.

(** ** Ranking in the document store *)
Section Ranking.

Lemma before_irrefl (h : Hit) : ~ before h h.
Proof. unfold before; lia. Qed.

Lemma before_asym (a b : Hit) : before a b -> ~ before b a.
Proof. unfold before; lia. Qed.

Lemma before_trans (a b c : Hit) : before a b -> before b c -> before a c.
Proof. unfold before; lia. Qed.

Lemma insert_hit_perm (h : Hit) (l : list Hit) :
  Permutation (insert_hit h l) (h :: l).
Proof.
  induction l as [|y l IH]; simpl; [reflexivity|].
  destruct (score h <? score y)%Z; [|reflexivity].
  rewrite IH. apply perm_swap.
Qed.

Lemma rank_perm (l : list Hit) : Permutation (rank l) l.
Proof.
  induction l as [|h l IH]; simpl; [reflexivity|].
  rewrite insert_hit_perm. now constructor.
Qed.

Lemma rank_length (l : list Hit) : List.length (rank l) = List.length l.
Proof. apply Permutation_length, rank_perm. Qed.

Lemma rank_In (h : Hit) (l : list Hit) : In h (rank l) <-> In h l.
Proof.
  split; apply Permutation_in; [|symmetry]; apply rank_perm.
Qed.

Lemma insert_hit_sorted (h : Hit) (l : list Hit) :
  StronglySorted before l ->
  (forall y, In y l -> position h < position y) ->
  StronglySorted before (insert_hit h l).
Proof.
  induction l as [|y l IH]; intros Hs Hp; simpl.
  - repeat constructor.
  - inversion Hs as [|? ? Hl Hy]; subst.
    destruct (Z.ltb_spec (score h) (score y)) as [Hlt | Hge].
    + constructor.
      * apply IH; [exact Hl | intros z Hz; apply Hp; now right].
      * rewrite Forall_forall in *. intros z Hz.
        apply (Permutation_in _ (insert_hit_perm h l)) in Hz.
        destruct Hz as [<- | Hz]; [left; exact Hlt | now apply Hy].
    + constructor; [exact Hs|].
      rewrite Forall_forall in *. intros z [<- | Hz].
      * specialize (Hp y (or_introl eq_refl)). unfold before. lia.
      * specialize (Hp z (or_intror Hz)). specialize (Hy z Hz).
        unfold before in *. lia.
Qed.

Lemma firstn_In {A} (k : nat) (l : list A) (x : A) :
  In x (firstn k l) -> In x l.
Proof.
  intros H. rewrite <- (firstn_skipn k l). apply in_or_app. now left.
Qed.

Lemma firstn_sorted {A} (R : A -> A -> Prop) (k : nat) (l : list A) :
  StronglySorted R l -> StronglySorted R (firstn k l).
Proof.
  revert k; induction l as [|x l IH]; intros [|k] Hs; simpl;
    try constructor.
  - inversion Hs; subst. now apply IH.
  - inversion Hs as [|? ? _ Hx]; subst.
    rewrite Forall_forall in *. intros y Hy. apply Hx.
    eapply firstn_In; eauto.
Qed.

Lemma sorted_split {A} (R : A -> A -> Prop) (l1 l2 : list A) :
  StronglySorted R (l1 ++ l2) ->
  forall x y, In x l1 -> In y l2 -> R x y.
Proof.
  induction l1 as [|a l1 IH]; intros Hs x y Hx Hy; [easy|].
  simpl in Hs. inversion Hs as [|? ? Hl Ha]; subst.
  destruct Hx as [<- | Hx].
  - rewrite Forall_forall in Ha. apply Ha, in_or_app. now right.
  - now apply IH.
Qed.

Lemma filter_sorted {A} (R : A -> A -> Prop) (P : A -> bool) (l : list A) :
  StronglySorted R l -> StronglySorted R (filter P l).
Proof.
  induction l as [|x l IH]; intros Hs; simpl; [constructor|].
  inversion Hs as [|? ? Hl Hx]; subst.
  destruct (P x); [|now apply IH].
  constructor; [now apply IH|].
  rewrite Forall_forall in *. intros y Hy.
  apply filter_In in Hy as [Hy _]. now apply Hx.
Qed.

Lemma filter_all {A} (P : A -> bool) (l : list A) :
  (forall x, In x l -> P x = true) -> filter P l = l.
Proof.
  induction l as [|x l IH]; intros H; simpl; [reflexivity|].
  rewrite (H x (or_introl eq_refl)). f_equal. apply IH.
  intros y Hy. apply H. now right.
Qed.

Lemma filter_none {A} (P : A -> bool) (l : list A) :
  (forall x, In x l -> P x = false) -> filter P l = [].
Proof.
  induction l as [|x l IH]; intros H; simpl; [reflexivity|].
  rewrite (H x (or_introl eq_refl)). apply IH.
  intros y Hy. apply H. now right.
Qed.

(** A prefix of a ranking is closed under [before]. *)
Lemma firstn_closed (k : nat) (l : list Hit) (a b : Hit) :
  StronglySorted before l ->
  In b (firstn k l) -> In a l -> before a b -> In a (firstn k l).
Proof.
  intros Hs Hb Ha Hab.
  rewrite <- (firstn_skipn k l) in Ha, Hs.
  apply in_app_or in Ha as [Ha | Ha]; [exact Ha|].
  exfalso. apply (before_asym a b Hab).
  exact (sorted_split before _ _ Hs b a Hb Ha).
Qed.

Lemma insert_hit_by_score (h : Hit) (l : list Hit) :
  StronglySorted by_score l -> StronglySorted by_score (insert_hit h l).
Proof.
  induction l as [|y l IH]; intros Hs; simpl.
  - repeat constructor.
  - inversion Hs as [|? ? Hl Hy]; subst.
    destruct (Z.ltb_spec (score h) (score y)) as [Hlt | Hge].
    + constructor; [now apply IH|].
      rewrite Forall_forall in *. intros z Hz.
      apply (Permutation_in _ (insert_hit_perm h l)) in Hz.
      destruct Hz as [<- | Hz]; [unfold by_score; lia | now apply Hy].
    + constructor; [exact Hs|].
      rewrite Forall_forall in *. intros z [<- | Hz]; [exact Hge|].
      specialize (Hy z Hz). unfold by_score in *. lia.
Qed.

Lemma rank_by_score (l : list Hit) : StronglySorted by_score (rank l).
Proof.
  induction l as [|h l IH]; simpl; [constructor|].
  now apply insert_hit_by_score.
Qed.

Lemma insert_hit_front (h : Hit) (l : list Hit) :
  (forall y, In y l -> (score y <= score h)%Z) -> insert_hit h l = h :: l.
Proof.
  destruct l as [|y l]; intros H; simpl; [reflexivity|].
  specialize (H y (or_introl eq_refl)).
  destruct (Z.ltb_spec (score h) (score y)); [lia | reflexivity].
Qed.

Lemma filter_insert_hit (P : Hit -> bool) (h : Hit) (l : list Hit) :
  StronglySorted by_score l ->
  filter P (insert_hit h l)
  = if P h then insert_hit h (filter P l) else filter P l.
Proof.
  induction l as [|y l IH]; intros Hs.
  - simpl. now destruct (P h).
  - inversion Hs as [|? ? Hl Hy]; subst. rewrite Forall_forall in Hy.
    cbn [insert_hit].
    destruct (Z.ltb_spec (score h) (score y)) as [Hlt | Hge].
    + cbn [filter]. rewrite (IH Hl).
      destruct (P y) eqn:Py, (P h) eqn:Ph; try reflexivity.
      cbn [insert_hit].
      destruct (Z.ltb_spec (score h) (score y)); [reflexivity | lia].
    + change (filter P (h :: y :: l))
        with (if P h then h :: filter P (y :: l) else filter P (y :: l)).
      destruct (P h); [|reflexivity].
      symmetry. apply insert_hit_front.
      intros z Hz. apply filter_In in Hz as [[<- | Hz] _]; [exact Hge|].
      specialize (Hy z Hz). unfold by_score in Hy. lia.
Qed.

Lemma rank_filter (P : Hit -> bool) (l : list Hit) :
  filter P (rank l) = rank (filter P l).
Proof.
  induction l as [|h l IH]; simpl; [reflexivity|].
  rewrite filter_insert_hit by apply rank_by_score.
  rewrite IH. now destruct (P h).
Qed.

End Ranking.

(** ** Retrieval *)
Section Retrieval.
Variable W : Collaborators.
Local Open Scope list_scope.

Lemma hits_from_position (i : nat) (q : Embedding W)
    (store : Store (Embedding W)) (h : Hit) :
  In h (hits_from W i q store) ->
  i <= position h < i + List.length store.
Proof.
  revert i; induction store as [|[d v] store IH]; intros i H; [easy|].
  destruct H as [<- | H]; simpl; [lia|].
  apply IH in H. lia.
Qed.

Lemma hits_from_entry (i : nat) (q : Embedding W)
    (store : Store (Embedding W)) (h : Hit) :
  In h (hits_from W i q store) ->
  exists e, nth_error store (position h - i) = Some (document h, e)
            /\ score h = similarity W q e.
Proof.
  revert i; induction store as [|[d v] store IH]; intros i H; [easy|].
  destruct H as [<- | H]; simpl.
  - rewrite Nat.sub_diag. now exists v.
  - pose proof (hits_from_position _ _ _ _ H) as Hp.
    destruct (IH _ H) as (e & He & Hs). exists e. split; [|exact Hs].
    replace (position h - i) with (S (position h - S i)) by lia.
    exact He.
Qed.

Lemma hits_from_app (i : nat) (q : Embedding W)
    (s1 s2 : Store (Embedding W)) :
  hits_from W i q (s1 ++ s2)
  = hits_from W i q s1 ++ hits_from W (i + List.length s1) q s2.
Proof.
  revert i; induction s1 as [|[d v] s1 IH]; intros i; simpl.
  - now rewrite Nat.add_0_r.
  - rewrite IH. do 3 f_equal. lia.
Qed.

Lemma hits_from_documents (i : nat) (q : Embedding W)
    (store : Store (Embedding W)) :
  map document (hits_from W i q store) = map fst store.
Proof.
  revert i; induction store as [|[d v] store IH]; intros i; simpl;
    [reflexivity | now rewrite IH].
Qed.

Lemma hits_from_length (i : nat) (q : Embedding W)
    (store : Store (Embedding W)) :
  List.length (hits_from W i q store) = List.length store.
Proof.
  rewrite <- (length_map document), hits_from_documents. apply length_map.
Qed.

Lemma rank_hits_sorted (i : nat) (q : Embedding W)
    (store : Store (Embedding W)) :
  StronglySorted before (rank (hits_from W i q store)).
Proof.
  revert i; induction store as [|[d v] store IH]; intros i; simpl.
  - constructor.
  - apply insert_hit_sorted; [apply IH|].
    intros y Hy. apply (proj1 (rank_In _ _)) in Hy.
    apply hits_from_position in Hy. simpl. lia.
Qed.

Lemma retrieve_context_store (query : string) (k : nat)
    (m : Machine (Embedding W)) (vs : Store (Embedding W)) :
  vector_store m = Some vs ->
  fst (retrieve_context W query k m) = similarity_search W vs query k.
Proof.
  intros H. unfold retrieve_context, record, get_vector_store, lift.
  cbn. rewrite H. reflexivity.
Qed.

(** C4.  On a machine that holds a document store, for a query that the
    provider embeds, [retrieve_context] returns the chunks of a list of hits
    that has at most [k] entries, each a chunk of the store scored against
    the query, ordered by score from high to low with equal scores in
    insertion order; when [k] is at least the size of the store, every chunk
    is returned. *)
Theorem retrieve_context_ranked (query : string) (k : nat)
    (m : Machine (Embedding W)) (vs : Store (Embedding W))
    (q : Embedding W) :
  vector_store m = Some vs ->
  embed W query = Ok q ->
  exists hits : list Hit,
    fst (retrieve_context W query k m) = Ok (map document hits) /\
    List.length hits <= k /\
    (forall h, In h hits ->
       In (document h) (map fst vs) /\
       exists e, nth_error vs (position h) = Some (document h, e)
                 /\ score h = similarity W q e) /\
    StronglySorted before hits /\
    (List.length vs <= k ->
       List.length hits = List.length vs /\
       Permutation (map document hits) (map fst vs)).
Proof.
  intros Hm Hq.
  exists (firstn k (rank (hits_from W 0 q vs))).
  split; [|split; [|split; [|split]]].
  - rewrite (retrieve_context_store _ _ _ _ Hm).
    unfold similarity_search, search. cbn. rewrite Hq. reflexivity.
  - apply firstn_le_length.
  - intros h Hh. apply firstn_In in Hh. apply (proj1 (rank_In _ _)) in Hh.
    destruct (hits_from_entry _ _ _ _ Hh) as (e & He & Hs).
    rewrite Nat.sub_0_r in He. split.
    + apply nth_error_In in He. now apply (in_map fst) in He.
    + now exists e.
  - apply firstn_sorted, rank_hits_sorted.
  - intros Hk.
    rewrite firstn_all2 by (rewrite rank_length, hits_from_length; exact Hk).
    split.
    + now rewrite rank_length, hits_from_length.
    + rewrite <- (hits_from_documents 0 q vs).
      apply Permutation_map, rank_perm.
Qed.

Lemma hits_from_score (i : nat) (q : Embedding W)
    (store : Store (Embedding W)) (d : Document) (e : Embedding W) :
  In (d, e) store ->
  exists h, In h (hits_from W i q store) /\ score h = similarity W q e.
Proof.
  revert i; induction store as [|[d' v] store IH]; intros i H; [easy|].
  destruct H as [H | H].
  - inversion H; subst. eexists; split; [now left | reflexivity].
  - destruct (IH (S i) H) as (h & Hh & Hs). exists h; split; [now right|easy].
Qed.

(** A hit among the first [k] stays among the first [k] when chunks that do
    not score above it are appended to the store. *)
Lemma rank_persists (q : Embedding W) (s1 s2 : Store (Embedding W))
    (k : nat) (h : Hit) :
  In h (firstn k (rank (hits_from W 0 q s1))) ->
  (forall d e, In (d, e) s2 -> (similarity W q e <= score h)%Z) ->
  In h (firstn k (rank (hits_from W 0 q (s1 ++ s2)))).
Proof.
  intros Hk Hle.
  set (P := fun x : Hit => position x <? List.length s1).
  set (H1 := hits_from W 0 q s1) in *.
  set (H2 := hits_from W (0 + List.length s1) q s2).
  rewrite hits_from_app. fold H1 H2.
  assert (P1 : forall x, In x H1 -> P x = true).
  { intros x Hx. apply hits_from_position in Hx. apply Nat.ltb_lt. lia. }
  assert (P2 : forall x, In x H2 -> P x = false).
  { intros x Hx. apply hits_from_position in Hx. apply Nat.ltb_ge. lia. }
  assert (HL : filter P (rank (H1 ++ H2)) = rank H1).
  { rewrite rank_filter, filter_app, (filter_all P H1 P1),
      (filter_none P H2 P2). now rewrite app_nil_r. }
  assert (Hh1 : In h H1).
  { apply firstn_In in Hk. now apply (proj1 (rank_In _ _)) in Hk. }
  assert (HM : In h (rank (H1 ++ H2))).
  { apply rank_In, in_or_app. now left. }
  destruct (in_split _ _ HM) as (M1 & M2 & EM).
  assert (Hs : StronglySorted before (rank (H1 ++ H2))).
  { unfold H1, H2. rewrite <- hits_from_app. apply rank_hits_sorted. }
  assert (Hb : forall x, In x M1 -> before x h).
  { intros x Hx. rewrite EM in Hs.
    apply (sorted_split before _ _ Hs x h Hx). now left. }
  assert (PM1 : forall x, In x M1 -> P x = true).
  { intros x Hx. destruct (P x) eqn:Px; [reflexivity | exfalso].
    assert (Hx2 : In x H2).
    { assert (Hin : In x (rank (H1 ++ H2)))
        by (rewrite EM; apply in_or_app; now left).
      apply (proj1 (rank_In _ _)) in Hin.
      apply in_app_or in Hin as [Hin | Hin]; [|exact Hin].
      rewrite (P1 x Hin) in Px. discriminate. }
    pose proof (Hb x Hx) as Hbx.
    pose proof (hits_from_position _ _ _ _ Hx2) as Hpx.
    pose proof (hits_from_position _ _ _ _ Hh1) as Hph.
    destruct (hits_from_entry _ _ _ _ Hx2) as (e & He & Hse).
    apply nth_error_In in He. specialize (Hle _ _ He).
    unfold before in Hbx. lia. }
  assert (EL : rank H1 = M1 ++ h :: filter P M2).
  { rewrite <- HL, EM, filter_app, (filter_all P M1 PM1).
    cbn [filter]. now rewrite (P1 h Hh1). }
  assert (Hlen : List.length M1 < k).
  { destruct (Nat.lt_ge_cases (List.length M1) k) as [|Hge]; [easy | exfalso].
    rewrite EL, firstn_app in Hk.
    replace (k - List.length M1) with 0 in Hk by lia.
    rewrite firstn_0, app_nil_r in Hk.
    apply firstn_In in Hk. exact (before_irrefl h (Hb h Hk)). }
  rewrite EM, firstn_app. apply in_or_app. right.
  destruct (k - List.length M1) as [|j] eqn:Ej; [lia | now left].
Qed.

(** C5 (as amended).  With no document store, for any [k], and with [k = 0]
    on a store whose provider embeds the query, [retrieve_context] returns
    the empty list and no error, and [format_context] of it is the sentinel
    [No relevant context found.], full stop included; with no document store
    that sentinel is what [get_relevant_context] returns. *)
Theorem retrieve_nothing (query : string) (k : nat)
    (m : Machine (Embedding W)) :
  (vector_store m = None ->
   fst (retrieve_context W query k m) = Ok [] /\
   fst (get_relevant_context W query m) = Ok "No relevant context found."%string) /\
  (forall vs q, vector_store m = Some vs -> embed W query = Ok q ->
   fst (retrieve_context W query 0 m) = Ok []) /\
  format_context [] = "No relevant context found."%string.
Proof.
  split; [|split; [|reflexivity]].
  - intros H. unfold get_relevant_context, retrieve_context, record,
      get_vector_store. cbn. rewrite H. split; reflexivity.
  - intros vs q H Hq. rewrite (retrieve_context_store _ _ _ _ H).
    unfold similarity_search, search. cbn. rewrite Hq. reflexivity.
Qed.

Lemma add_documents_store (documents : list Document)
    (m : Machine (Embedding W)) (vs news : Store (Embedding W)) :
  vector_store m = Some vs \/ (vector_store m = None /\ vs = []) ->
  embed_all W (split_documents W documents) = Ok news ->
  add_documents W documents m
  = (Ok tt, {| vector_store := Some (vs ++ news);
               schema_info := schema_info m;
               calls := calls m |}).
Proof.
  intros Hm He. unfold add_documents, get_vector_store, set_vector_store,
    lift, DocumentStore.add, from_documents. cbn.
  destruct Hm as [-> | [-> ->]]; cbn; rewrite He; reflexivity.
Qed.

(** The best-ranked hit of a batch that has a hit among the first [k] is
    itself among the first [k], and no chunk of the batch scores above it. *)
Lemma best_of_batch (q : Embedding W) (vs news : Store (Embedding W))
    (k : nat) (h : Hit) :
  In h (firstn k (rank (hits_from W 0 q (vs ++ news)))) ->
  List.length vs <= position h ->
  exists b,
    In b (firstn k (rank (hits_from W 0 q (vs ++ news)))) /\
    List.length vs <= position b < List.length vs + List.length news /\
    forall d e, In (d, e) news -> (similarity W q e <= score b)%Z.
Proof.
  intros Hk Hp.
  set (L := rank (hits_from W 0 q (vs ++ news))) in *.
  set (B := fun x : Hit => List.length vs <=? position x).
  assert (Hs : StronglySorted before L) by apply rank_hits_sorted.
  assert (HF : In h (filter B L)).
  { apply filter_In. split; [eapply firstn_In; eauto | now apply Nat.leb_le]. }
  pose proof (filter_sorted before B L Hs) as HsF.
  destruct (filter B L) as [|b F] eqn:EF; [easy|].
  inversion HsF as [|? ? _ Hb]; subst. rewrite Forall_forall in Hb.
  assert (HbL : In b L /\ B b = true).
  { apply filter_In. rewrite EF. now left. }
  destruct HbL as [HbL HbB]. apply Nat.leb_le in HbB.
  exists b. split; [|split].
  - destruct HF as [<- | HF]; [exact Hk|].
    exact (firstn_closed k L b h Hs Hk HbL (Hb h HF)).
  - apply (proj1 (rank_In _ _)), hits_from_position in HbL.
    rewrite length_app in HbL. lia.
  - intros d e Hin.
    assert (Hx : exists x, In x (filter B L) /\ score x = similarity W q e).
    { destruct (hits_from_score (0 + List.length vs) q news d e Hin)
        as (x & Hx & Hsx).
      exists x. split; [|exact Hsx]. apply filter_In. split.
      - apply rank_In. rewrite hits_from_app. apply in_or_app. now right.
      - apply hits_from_position in Hx. apply Nat.leb_le. lia. }
    destruct Hx as (x & Hx & <-). rewrite EF in Hx.
    destruct Hx as [<- | Hx]; [lia|].
    specialize (Hb x Hx). unfold before in Hb. lia.
Qed.

(** C8.  Ingesting the same documents twice appends their chunks twice: the
    store holds both copies after what it held before, every chunk keeps its
    place, and a query that had a hit in the first copy among its first [k]
    results still has that hit among its first [k] after the second
    ingestion. *)
Theorem add_documents_twice (documents : list Document)
    (m : Machine (Embedding W)) (vs news : Store (Embedding W)) :
  vector_store m = Some vs \/ (vector_store m = None /\ vs = []) ->
  embed_all W (split_documents W documents) = Ok news ->
  let m1 := snd (add_documents W documents m) in
  let m2 := snd (add_documents W documents m1) in
  vector_store m1 = Some (vs ++ news) /\
  vector_store m2 = Some ((vs ++ news) ++ news) /\
  (forall i c, nth_error (vs ++ news) i = Some c ->
               nth_error ((vs ++ news) ++ news) i = Some c) /\
  (forall query k hits1 hits2,
     search W (vs ++ news) query k = Ok hits1 ->
     search W ((vs ++ news) ++ news) query k = Ok hits2 ->
     (exists h, In h hits1 /\ List.length vs <= position h) ->
     exists h, In h hits1 /\ In h hits2 /\
               List.length vs <= position h
               < List.length vs + List.length news).
Proof.
  intros Hm He m1 m2.
  assert (E1 : vector_store m1 = Some (vs ++ news)).
  { unfold m1. now rewrite (add_documents_store _ _ _ _ Hm He). }
  assert (E2 : vector_store m2 = Some ((vs ++ news) ++ news)).
  { unfold m2.
    now rewrite (add_documents_store _ m1 (vs ++ news) news (or_introl E1) He). }
  split; [exact E1 | split; [exact E2 | split]].
  - intros i c Hi. rewrite nth_error_app1; [exact Hi|].
    apply nth_error_Some. congruence.
  - intros query k hits1 hits2 H1 H2 (h & Hh & Hp).
    unfold search in H1, H2. cbn in H1, H2.
    destruct (embed W query) as [q|]; [|discriminate].
    inversion H1; inversion H2; subst hits1 hits2.
    destruct (best_of_batch q vs news k h Hh Hp) as (b & Hb & Hpos & Hle).
    exists b. split; [exact Hb | split; [|exact Hpos]].
    now apply rank_persists.
Qed.

End Retrieval.

(** ** Frame of the computations *)
Section Frame.
Context {E : Type}.

Lemma reads_only_ret {A} (a : A) : reads_only (E := E) (ret a).
Proof. intros m; cbn; auto. Qed.

Lemma reads_only_lift {A} (r : result A) : reads_only (E := E) (lift r).
Proof. intros m; cbn; auto. Qed.

Lemma reads_only_record (c : Call) : reads_only (E := E) (record c).
Proof. intros m; cbn; auto. Qed.

Lemma reads_only_get_vector_store : reads_only (E := E) get_vector_store.
Proof.
  intros m; cbn; repeat split; auto. intros m2 H _. now rewrite H.
Qed.

Lemma reads_only_get_schema_info : reads_only (E := E) get_schema_info.
Proof.
  intros m; cbn; repeat split; auto. intros m2 _ H. now rewrite H.
Qed.

Lemma reads_only_bind {A B} (c : M E A) (k : A -> M E B) :
  reads_only c -> (forall a, reads_only (k a)) -> reads_only (bind c k).
Proof.
  intros Hc Hk m. destruct (Hc m) as (Hv & Hs & Hr). cbn.
  destruct (c m) as [[a|e] m1] eqn:Em; cbn in Hv, Hs, Hr.
  - destruct (Hk a m1) as (Hv1 & Hs1 & Hr1).
    split; [congruence | split; [congruence|]].
    intros m2 Hv2 Hs2. specialize (Hr m2 Hv2 Hs2).
    destruct (Hc m2) as (Hv3 & Hs3 & _).
    destruct (c m2) as [r2 m3]; cbn in *. subst r2.
    apply Hr1; congruence.
  - split; [exact Hv | split; [exact Hs|]].
    intros m2 Hv2 Hs2. specialize (Hr m2 Hv2 Hs2).
    destruct (c m2) as [r2 m3]; cbn in *. now subst r2.
Qed.

End Frame.

Create HintDb frame.
#[local] Hint Resolve reads_only_ret reads_only_lift reads_only_record
  reads_only_get_vector_store reads_only_get_schema_info : frame.

(** ** The router *)
Section Router.
Variable W : Collaborators.

Ltac frame :=
  repeat first
    [ apply reads_only_bind; [| intros ?]
    | progress eauto with frame
    | match goal with
      | |- reads_only (match ?x with _ => _ end) => destruct x
      | |- reads_only (if ?b then _ else _) => destruct b
      end ].

Lemma reads_only_invoke (p : Prompt) : reads_only (invoke W p).
Proof. unfold invoke. frame. Qed.

Lemma reads_only_classify (query : string) :
  reads_only (_classify_query W query).
Proof. unfold _classify_query. pose proof reads_only_invoke. frame. Qed.

Lemma reads_only_retrieve_context (query : string) (k : nat) :
  reads_only (retrieve_context W query k).
Proof. unfold retrieve_context. frame. Qed.

Lemma reads_only_get_relevant_context (query : string) :
  reads_only (get_relevant_context W query).
Proof.
  unfold get_relevant_context. pose proof reads_only_retrieve_context. frame.
Qed.

Lemma reads_only_generate_sql (query context : string) :
  reads_only (_generate_sql W query context).
Proof.
  unfold _generate_sql, _format_schema_info.
  pose proof reads_only_invoke. frame.
Qed.

Lemma reads_only_execute (sql : string) : reads_only (execute W sql).
Proof. unfold execute. frame. Qed.

Lemma reads_only_body (query : string) :
  reads_only (process_query_body W query).
Proof.
  unfold process_query_body.
  pose proof reads_only_invoke. pose proof reads_only_classify.
  pose proof reads_only_get_relevant_context.
  pose proof reads_only_generate_sql. pose proof reads_only_execute.
  frame.
Qed.

Lemma reads_only_after {A B} (c : M (Embedding W) A) (d : M (Embedding W) B)
    (m : Machine (Embedding W)) :
  reads_only c -> reads_only d -> fst (d (snd (c m))) = fst (d m).
Proof.
  intros Hc Hd. destruct (Hc m) as (Hv & Hs & _).
  destruct (Hd m) as (_ & _ & Hr). now apply Hr.
Qed.

Lemma invoke_outcome (p : Prompt) (m : Machine (Embedding W)) :
  fst (invoke W p m) = llm W p.
Proof. reflexivity. Qed.

Lemma execute_outcome (sql : string) (m : Machine (Embedding W)) :
  fst (execute W sql m) = SnowflakeConnector.execute_query W sql.
Proof. reflexivity. Qed.

Lemma classify_outcome (query : string) (m : Machine (Embedding W)) :
  _classify_query W query m
  = (match llm W (ClassificationPrompt query) with
     | Ok response => Ok (lower (strip response))
     | Raise e => Raise e
     end,
     snd (record (CallLLM (ClassificationPrompt query)) m)).
Proof.
  unfold _classify_query, invoke, lift. cbn.
  now destruct (llm W (ClassificationPrompt query)).
Qed.

Lemma process_query_machine (query : string) (m : Machine (Embedding W)) :
  snd (process_query W query m) = snd (process_query_body W query m).
Proof.
  unfold process_query, try_except.
  now destruct (process_query_body W query m) as [[a|e] m'].
Qed.

Lemma process_query_catch (query : string) (m : Machine (Embedding W)) :
  fst (process_query W query m)
  = match fst (process_query_body W query m) with
    | Ok a => a
    | Raise e => error_result e
    end.
Proof.
  unfold process_query, try_except.
  now destruct (process_query_body W query m) as [[a|e] m'].
Qed.

(** The outcome of [process_query], stage by stage, read on the machine it
    starts from. *)
Lemma process_query_outcome (query : string) (m : Machine (Embedding W)) :
  fst (process_query W query m)
  = match fst (_classify_query W query m) with
    | Raise e => error_result e
    | Ok query_type =>
        if String.eqb query_type "general" then
          {| answer := GREETING; dataframe := None;
             sql_query := None; error := None |}
        else
          match fst (get_relevant_context W query m) with
          | Raise e => error_result e
          | Ok context =>
              if String.eqb query_type "explanation" then
                match llm W (ExplanationPrompt context query) with
                | Raise e => error_result e
                | Ok text =>
                    {| answer := text; dataframe := None;
                       sql_query := None; error := None |}
                end
              else
                match fst (_generate_sql W query context m) with
                | Raise e => error_result e
                | Ok sql =>
                    match SnowflakeConnector.execute_query W sql with
                    | Raise e => error_result e
                    | Ok df =>
                        match _generate_natural_response
                                query (Some df) (Some sql) with
                        | Raise e => error_result e
                        | Ok text =>
                            {| answer := text ++ sql_details sql;
                               dataframe := Some df;
                               sql_query := Some sql; error := None |}
                        end
                    end
                end
          end
    end.
Proof.
  rewrite process_query_catch. unfold process_query_body.
  cbn [bind M_monad].
  pose proof (reads_only_classify query m) as (Hv1 & Hs1 & _).
  destruct (_classify_query W query m) as [[query_type|e] m1]; cbn [fst snd] in *;
    [|reflexivity].
  destruct (String.eqb query_type "general"); [reflexivity|].
  pose proof (reads_only_get_relevant_context query m1) as (Hv2 & Hs2 & _).
  pose proof (reads_only_get_relevant_context query m) as (_ & _ & Hr2).
  rewrite <- (Hr2 m1 Hv1 Hs1).
  destruct (get_relevant_context W query m1) as [[context|e] m2];
    cbn [fst snd] in *; [|reflexivity].
  destruct (String.eqb query_type "explanation").
  - rewrite <- (invoke_outcome (ExplanationPrompt context query) m2).
    now destruct (invoke W (ExplanationPrompt context query) m2) as [[t|e] m3].
  - pose proof (reads_only_generate_sql query context m2) as (Hv3 & Hs3 & _).
    pose proof (reads_only_generate_sql query context m) as (_ & _ & Hr3).
    rewrite <- (Hr3 m2) by congruence.
    destruct (_generate_sql W query context m2) as [[sql|e] m3];
      cbn [fst snd] in *; [|reflexivity].
    rewrite <- (execute_outcome sql m3).
    destruct (execute W sql m3) as [[df|e] m4]; cbn [fst snd]; [|reflexivity].
    unfold lift.
    now destruct (_generate_natural_response query (Some df) (Some sql)).
Qed.

(** C9.  Whatever [process_query] returns, the machine it leaves holds the
    same document store and the same schema snapshot as the machine it
    started from, and a later invocation returns what it would have returned
    without the earlier one. *)
Theorem process_query_frame (query : string) (m : Machine (Embedding W)) :
  vector_store (snd (process_query W query m)) = vector_store m /\
  schema_info (snd (process_query W query m)) = schema_info m /\
  forall later : string,
    fst (process_query W later (snd (process_query W query m)))
    = fst (process_query W later m).
Proof.
  rewrite process_query_machine.
  destruct (reads_only_body query m) as (Hv & Hs & _).
  split; [exact Hv | split; [exact Hs|]].
  intros later. rewrite !process_query_catch.
  destruct (reads_only_body later m) as (_ & _ & Hr).
  now rewrite (Hr _ Hv Hs).
Qed.

(** C1.  When the classification of a question is [general],
    [process_query] returns the fixed greeting with no table, and the only
    call it has made is the classification: no retrieval, no query
    generation, no execution. *)
Theorem process_query_general (query : string) (m : Machine (Embedding W)) :
  fst (_classify_query W query m) = Ok "general" ->
  fst (process_query W query m)
  = {| answer := GREETING; dataframe := None;
       sql_query := None; error := None |} /\
  calls (snd (process_query W query m))
  = (calls m ++ [CallLLM (ClassificationPrompt query)])%list.
Proof.
  intros H. split.
  - rewrite process_query_outcome, H. reflexivity.
  - rewrite process_query_machine. unfold process_query_body.
    cbn [bind M_monad]. rewrite classify_outcome in *. cbn [fst] in H.
    rewrite H. reflexivity.
Qed.

Lemma get_relevant_context_machine (query : string)
    (m : Machine (Embedding W)) :
  snd (get_relevant_context W query m) = snd (record (CallRetrieve query 3) m).
Proof.
  unfold get_relevant_context, retrieve_context, get_vector_store, lift.
  cbn. destruct (vector_store m) as [vs|]; cbn; [|reflexivity].
  now destruct (embed W query).
Qed.

Lemma generate_sql_pair (query context : string)
    (m : Machine (Embedding W)) :
  _generate_sql W query context m
  = (match llm W (SqlPrompt (schema_text (schema_info m)) context query) with
     | Ok raw => Ok (clean_sql raw)
     | Raise e => Raise e
     end,
     snd (record
            (CallLLM (SqlPrompt (schema_text (schema_info m)) context query))
            m)).
Proof.
  unfold _generate_sql, _format_schema_info, get_schema_info, invoke, lift,
    schema_text.
  cbn. match goal with |- context [llm W ?p] => destruct (llm W p) end;
    reflexivity.
Qed.

Lemma pair_eta {A B} (p : A * B) : p = (fst p, snd p).
Proof. now destruct p. Qed.

(** The calls that [process_query] adds to the log, stage by stage. *)
Lemma process_query_trace (query : string) (m : Machine (Embedding W)) :
  calls (snd (process_query W query m))
  = (calls m ++
     CallLLM (ClassificationPrompt query) ::
     match fst (_classify_query W query m) with
     | Raise _ => []
     | Ok query_type =>
         if String.eqb query_type "general" then []
         else
           CallRetrieve query 3 ::
           match fst (get_relevant_context W query m) with
           | Raise _ => []
           | Ok context =>
               if String.eqb query_type "explanation" then
                 [CallLLM (ExplanationPrompt context query)]
               else
                 CallLLM (SqlPrompt (schema_text (schema_info m))
                                    context query) ::
                 match fst (_generate_sql W query context m) with
                 | Raise _ => []
                 | Ok sql => [CallExecute sql]
                 end
           end
     end)%list.
Proof.
  rewrite process_query_machine. unfold process_query_body.
  cbn [bind M_monad].
  rewrite (classify_outcome query m). cbn [fst snd].
  set (m1 := snd (record (CallLLM (ClassificationPrompt query)) m)).
  destruct (llm W (ClassificationPrompt query)) as [response|e];
    [|reflexivity].
  destruct (String.eqb (lower (strip response)) "general"); [reflexivity|].
  pose proof (reads_only_get_relevant_context query m) as (_ & _ & Hr).
  rewrite <- (Hr m1 eq_refl eq_refl).
  rewrite (pair_eta (get_relevant_context W query m1)).
  rewrite get_relevant_context_machine.
  set (m2 := snd (record (CallRetrieve query 3) m1)).
  destruct (fst (get_relevant_context W query m1)) as [context|e];
    cbn [fst snd]; [|cbn; now rewrite <- app_assoc].
  destruct (String.eqb (lower (strip response)) "explanation").
  - unfold invoke, lift, record. cbn.
    destruct (llm W (ExplanationPrompt context query)); cbn;
      now rewrite <- !app_assoc.
  - rewrite (generate_sql_pair query context m2).
    rewrite (generate_sql_pair query context m). cbn [fst snd].
    change (schema_info m2) with (schema_info m).
    destruct (llm W (SqlPrompt (schema_text (schema_info m)) context query))
      as [raw|e]; [|cbn; now rewrite <- !app_assoc].
    unfold execute, lift, record.
    cbn -[_generate_natural_response clean_sql
          SnowflakeConnector.execute_query].
    destruct (SnowflakeConnector.execute_query W (clean_sql raw));
      cbn -[_generate_natural_response clean_sql].
    + match goal with
      | |- context [_generate_natural_response ?q ?d ?s] =>
          destruct (_generate_natural_response q d s)
      end; cbn; now rewrite <- !app_assoc.
    + now rewrite <- !app_assoc.
Qed.

(** C6.  An exception raised by the statements under [try:] is caught,
    whichever stage raises it: classifying, retrieving, generating (an
    explanation or a statement), executing or summarising.  [process_query]
    returns a result whose answer is the readable message written around
    the text [e] of the exception, whose error field is [e], and which
    carries no table and no statement. *)
Theorem process_query_wraps_exceptions (query : string)
    (m : Machine (Embedding W)) (e : string) :
  let failure :=
    {| answer :=
         "I encountered an error processing your query: " ++ e ++ LF ++ LF
           ++ "Please try rephrasing your question or check the Snowflake connection.";
       dataframe := None;
       sql_query := None;
       error := Some e |} in
  (fst (process_query_body W query m) = Raise e ->
   fst (process_query W query m) = failure) /\
  (fst (_classify_query W query m) = Raise e ->
   fst (process_query W query m) = failure) /\
  (forall query_type : string,
     fst (_classify_query W query m) = Ok query_type ->
     query_type <> "general" ->
     (fst (get_relevant_context W query m) = Raise e ->
      fst (process_query W query m) = failure) /\
     (forall context : string,
        fst (get_relevant_context W query m) = Ok context ->
        (query_type = "explanation" ->
         llm W (ExplanationPrompt context query) = Raise e ->
         fst (process_query W query m) = failure) /\
        (query_type <> "explanation" ->
         (fst (_generate_sql W query context m) = Raise e ->
          fst (process_query W query m) = failure) /\
         (forall sql : string,
            fst (_generate_sql W query context m) = Ok sql ->
            (SnowflakeConnector.execute_query W sql = Raise e ->
             fst (process_query W query m) = failure) /\
            (forall df : DataFrame,
               SnowflakeConnector.execute_query W sql = Ok df ->
               _generate_natural_response query (Some df) (Some sql)
               = Raise e ->
               fst (process_query W query m) = failure))))).
Proof.
  intros failure. change failure with (error_result e). clear failure.
  split; [rewrite process_query_catch; now intros ->|].
  rewrite process_query_outcome. split.
  - now intros ->.
  - intros query_type -> Hg. apply String.eqb_neq in Hg. rewrite Hg. split.
    + now intros ->.
    + intros context ->. split.
      * intros -> ->. reflexivity.
      * intros Hx. apply String.eqb_neq in Hx. rewrite Hx. split.
        -- now intros ->.
        -- intros sql ->. split.
           ++ now intros ->.
           ++ now intros df -> ->.
Qed.


End Router.

(** ** The properties on the sample collaborators *)
Section Instances.
Local Open Scope string_scope.

Lemma process_query_general_witness :
  fst (process_query Sample.online " General " Sample.machine)
  = {| answer := GREETING; dataframe := None;
       sql_query := None; error := None |} /\
  calls (snd (process_query Sample.online " General " Sample.machine))
  = [CallLLM (ClassificationPrompt " General ")].
Proof.
  exact (process_query_general Sample.online " General " Sample.machine
           eq_refl).
Defined.

(** A fence tagged [python] leaves its tag in the statement, and one tagged
    [sqlite] the end of its tag; a response with no fence is not returned
    unchanged when it has white space around it; and a body that begins
    with a further fence loses that fence. *)
Lemma generate_sql_cleanup_counterexample :
  clean_sql ("```python" ++ LF ++ "SELECT 1" ++ LF ++ "```")
  = "python" ++ LF ++ "SELECT 1" /\
  clean_sql ("```python" ++ LF ++ "SELECT 1" ++ LF ++ "```") <> "SELECT 1" /\
  clean_sql ("```sqlite" ++ LF ++ "SELECT 1" ++ LF ++ "```")
  = "ite" ++ LF ++ "SELECT 1" /\
  contains " SELECT 1" "```" = false /\
  clean_sql " SELECT 1" <> " SELECT 1" /\
  clean_sql ("```sql" ++ "```x" ++ "```") = "x" /\
  clean_sql ("```sql" ++ "```x" ++ "```") <> "```x".
Proof.
  split; [reflexivity|]. split; [intros H; vm_compute in H; discriminate|].
  split; [reflexivity|].
  split; [reflexivity|]. split; [intros H; vm_compute in H; discriminate|].
  split; [reflexivity|]. intros H; vm_compute in H; discriminate.
Defined.

Lemma generate_sql_cleanup_witness :
  clean_sql (" ```sql" ++ LF ++ "SELECT 1" ++ LF ++ "```" ++ LF) = "SELECT 1" /\
  clean_sql "```sql`a` FROM t```" = "`a` FROM t" /\
  clean_sql ("```" ++ LF ++ "SELECT 1" ++ LF ++ "```") = "SELECT 1" /\
  clean_sql (" SELECT `a` FROM t " ++ LF) = "SELECT `a` FROM t" /\
  clean_sql (Sample.NBSP ++ "SELECT 1") = "SELECT 1" /\
  clean_sql "SELECT 1" = "SELECT 1".
Proof.
  split; [|split; [|split; [|split; [|split]]]].
  - exact (proj1 (generate_sql_cleanup
                    (" ```sql" ++ LF ++ "SELECT 1" ++ LF ++ "```" ++ LF)
                    (LF ++ "SELECT 1" ++ LF)) eq_refl eq_refl).
  - exact (proj1 (generate_sql_cleanup
                    "```sql`a` FROM t```" "`a` FROM t") eq_refl eq_refl).
  - exact (proj1 (proj2 (generate_sql_cleanup
                           ("```" ++ LF ++ "SELECT 1" ++ LF ++ "```")
                           (LF ++ "SELECT 1" ++ LF))) eq_refl eq_refl).
  - exact (proj1 (proj2 (proj2 (generate_sql_cleanup
                                  (" SELECT `a` FROM t " ++ LF) ""))
                    eq_refl)).
  - exact (proj1 (proj2 (proj2 (generate_sql_cleanup
                                  (Sample.NBSP ++ "SELECT 1") ""))
                    eq_refl)).
  - exact (proj2 (proj2 (proj2 (generate_sql_cleanup "SELECT 1" ""))
                    eq_refl) eq_refl).
Defined.

(** A table whose only column is numeric gets the row count and nothing
    else: no total, no rows, no note about the top results. *)
Lemma summary_single_column_counterexample :
  _generate_natural_response "q" (Some Sample.single3) None
  = Ok "Found 3 results. " /\
  contains "Found 3 results. " "60.00" = false /\
  _generate_natural_response "q" (Some Sample.single15) None
  = Ok "Found 15 results. ".
Proof. repeat split. Defined.

Lemma summary_of_labelled_totals_witness :
  _generate_natural_response "q" (Some Sample.revenue3) None
  = Ok ("Found 3 results. The total TOTAL_REVENUE is 60.00. "
        ++ "Here are all the results:" ++ LF ++ LF
        ++ BULLET ++ " Anvil: 10.00" ++ LF
        ++ BULLET ++ " Bolt: 20.00" ++ LF
        ++ BULLET ++ " Crate: 30.00" ++ LF) /\
  _generate_natural_response "q" (Some Sample.revenue15) None
  = Ok ("Found 15 results. The total TOTAL_REVENUE is 120.00. "
        ++ "Top 10 results shown below.").
Proof.
  assert (Hne : "PRODUCT_NAME" <> "TOTAL_REVENUE") by discriminate.
  destruct (summary_of_labelled_totals "q" "PRODUCT_NAME" "TOTAL_REVENUE"
              None Hne) as [H3 H15].
  split.
  - exact (H3 "Anvil" "Bolt" "Crate").
  - refine (H15 15 Sample.names15 (map Z.of_nat (seq 1 15)) _). lia.
Defined.

Lemma retrieve_context_ranked_witness :
  exists hits : list Hit,
    fst (retrieve_context Sample.online "metrics" 2 Sample.machine)
    = Ok (map document hits) /\
    List.length hits <= 2 /\ StronglySorted before hits.
Proof.
  destruct (retrieve_context_ranked Sample.online "metrics" 2 Sample.machine
              Sample.corpus 7%Z eq_refl eq_refl)
    as (hits & H1 & H2 & _ & H4 & _).
  exists hits. repeat split; assumption.
Defined.

(** The sentinel ends in a full stop. *)
Lemma retrieve_nothing_counterexample :
  fst (retrieve_context Sample.online "q" 0 Sample.bare) = Ok [] /\
  format_context [] <> "No relevant context found".
Proof. split; [reflexivity | discriminate]. Defined.

Lemma retrieve_nothing_witness :
  fst (retrieve_context Sample.online "q" 5 Sample.bare) = Ok [] /\
  fst (get_relevant_context Sample.online "q" Sample.bare)
  = Ok "No relevant context found." /\
  fst (retrieve_context Sample.online "q" 0 Sample.machine) = Ok [].
Proof.
  split; [|split].
  - exact (proj1 (proj1 (retrieve_nothing Sample.online "q" 5 Sample.bare)
                    eq_refl)).
  - exact (proj2 (proj1 (retrieve_nothing Sample.online "q" 5 Sample.bare)
                    eq_refl)).
  - exact (proj1 (proj2 (retrieve_nothing Sample.online "q" 0 Sample.machine))
             Sample.corpus 1%Z eq_refl eq_refl).
Defined.

Lemma process_query_wraps_exceptions_witness :
  fst (process_query Sample.offline "banana" Sample.machine)
  = {| answer :=
         "I encountered an error processing your query: "
           ++ "Query execution failed: connection lost" ++ LF ++ LF
           ++ "Please try rephrasing your question or check the Snowflake connection.";
       dataframe := None;
       sql_query := None;
       error := Some "Query execution failed: connection lost" |}.
Proof.
  destruct (process_query_wraps_exceptions Sample.offline "banana"
              Sample.machine "Query execution failed: connection lost")
    as (_ & _ & H).
  assert (Hg : "banana" <> "general") by discriminate.
  assert (Hx : "banana" <> "explanation") by discriminate.
  destruct (H "banana" eq_refl Hg) as [_ H1].
  destruct (H1 _ eq_refl) as [_ H2].
  destruct (H2 Hx) as [_ H3].
  destruct (H3 "SELECT 1" eq_refl) as [H4 _].
  exact (H4 eq_refl).
Defined.


Lemma add_documents_twice_witness :
  vector_store
    (snd (add_documents Sample.online [Sample.doc "metrics" "metrics"]
            (snd (add_documents Sample.online
                    [Sample.doc "metrics" "metrics"] Sample.machine))))
  = Some ((Sample.corpus ++ [(Sample.doc "metrics" "metrics", 7%Z)])
            ++ [(Sample.doc "metrics" "metrics", 7%Z)])%list.
Proof.
  destruct (add_documents_twice Sample.online
              [Sample.doc "metrics" "metrics"] Sample.machine
              Sample.corpus [(Sample.doc "metrics" "metrics", 7%Z)]
              (or_introl eq_refl) eq_refl) as (_ & H & _).
  exact H.
Defined.

(** A table with one numeric column and no rows gets the no-data message,
    not the row-count sentence. *)
Lemma summary_count_only_counterexample :
  List.length (columns Sample.no_rows) < 2 /\
  _generate_natural_response "q" (Some Sample.no_rows) None = Ok NO_DATA /\
  NO_DATA <> "Found 0 results. ".
Proof. split; [simpl; lia|]. split; [reflexivity | discriminate]. Defined.

Lemma summary_count_only_witness :
  _generate_natural_response "q" (Some Sample.single3) None
  = Ok "Found 3 results. ".
Proof.
  assert (H : List.length (columns Sample.single3) < 2) by (simpl; lia).
  exact (proj1 (summary_count_only "q" Sample.single3 None eq_refl) H).
Defined.

End Instances.

(** * Further properties of the code *)

(** ** Query-generation post-processing, continued *)
Section CleanupShape.
Import PyStrFacts.

Lemma part_of_refl (s : string) : part_of s s.
Proof. exists "", "". now rewrite append_empty_r. Qed.

Lemma part_of_trans (x y z : string) :
  part_of x y -> part_of y z -> part_of x z.
Proof.
  intros (a & b & ->) (c & d & ->). exists (c ++ a), (b ++ d).
  now rewrite !append_assoc.
Qed.

Lemma part_of_drop (n : nat) (s : string) : part_of (drop n s) s.
Proof.
  exists (take n s), "". now rewrite append_empty_r, take_drop.
Qed.

Lemma part_of_take (n : nat) (s : string) : part_of (take n s) s.
Proof. exists "", (drop n s). simpl. now rewrite take_drop. Qed.

Lemma part_of_strip (s : string) : part_of (strip s) s.
Proof. exact (strip_infix s). Qed.

(** X1.  The cleaned statement is a run of consecutive characters of the
    model's response (only a prefix and a suffix are ever removed), and it
    has no whitespace at either end. *)
Theorem clean_sql_is_trimmed_part (raw : string) :
  part_of (clean_sql raw) raw /\ strip (clean_sql raw) = clean_sql raw.
Proof.
  split; [|apply strip_idempotent].
  unfold clean_sql.
  eapply part_of_trans; [apply part_of_strip|].
  eapply part_of_trans;
    [destruct (endswith _ FENCE);
       [apply part_of_take | apply part_of_refl]|].
  eapply part_of_trans;
    [destruct (startswith _ FENCE);
       [apply part_of_drop | apply part_of_refl]|].
  eapply part_of_trans;
    [destruct (startswith _ FENCE_SQL);
       [apply part_of_drop | apply part_of_refl]|].
  apply part_of_strip.
Qed.

(** X2.  The opening and the closing fence are removed independently of one
    another: a response cut off before its closing fence, or one that only
    ends in a fence, is still cleaned to its trimmed body. *)
Theorem clean_sql_unbalanced_fence (raw body : string) :
  (strip raw = "```sql" ++ body ->
   startswith body FENCE = false -> endswith body FENCE = false ->
   clean_sql raw = strip body) /\
  (strip raw = body ++ "```" ->
   startswith (strip raw) FENCE = false ->
   clean_sql raw = strip body).
Proof.
  split.
  - intros H Hs He. unfold clean_sql. rewrite H.
    change (startswith ("```sql" ++ body) FENCE_SQL)
      with (String.prefix FENCE_SQL (FENCE_SQL ++ body)).
    rewrite prefix_append.
    change (drop 6 ("```sql" ++ body)) with body.
    now rewrite Hs, He.
  - intros H Hs. unfold clean_sql.
    rewrite (startswith_fence_sql _ Hs), Hs, H.
    change "```" with FENCE. now rewrite endswith_append, drop_last_fence.
Qed.

End CleanupShape.

(** ** Schema text and retrieved context *)
Section PromptText.
Import PyStrFacts.
Variable W : Collaborators.

Lemma fold_left_append {A} (f : A -> string) (l : list A) (acc : string) :
  fold_left (fun a x => a ++ f x) l acc
  = acc ++ fold_left (fun a x => a ++ f x) l "".
Proof.
  revert acc; induction l as [|x l IH]; intros acc; simpl.
  - now rewrite append_empty_r.
  - rewrite IH, (IH (f x)). now rewrite append_assoc.
Qed.

Lemma format_columns_app (c1 c2 : list (string * string)) :
  format_columns (c1 ++ c2)%list = format_columns c1 ++ format_columns c2.
Proof.
  unfold format_columns. rewrite fold_left_app.
  apply (fold_left_append
           (fun col => "  - " ++ fst col ++ " (" ++ snd col ++ ")" ++ LF)).
Qed.

Lemma schema_text_app (s1 s2 : SchemaInfo) :
  schema_text (s1 ++ s2)%list = schema_text s1 ++ schema_text s2.
Proof.
  unfold schema_text. rewrite fold_left_app.
  apply (fold_left_append
           (fun t => LF ++ fst t ++ ":" ++ LF ++ format_columns (snd t))).
Qed.

Lemma format_schema_info_text (m : Machine (Embedding W)) :
  fst (_format_schema_info W m) = Ok (schema_text (schema_info m)).
Proof. reflexivity. Qed.

(** X3.  Every table of the schema snapshot, with all of its columns, is in
    the schema text that goes into the statement prompt: the text holds the
    block of the table, and the block holds the line of each column. *)
Theorem schema_text_covers_catalog (m : Machine (Embedding W))
    (t : string) (cols : list (string * string)) (c ty : string) :
  In (t, cols) (schema_info m) ->
  In (c, ty) cols ->
  exists text,
    fst (_format_schema_info W m) = Ok text /\
    part_of (LF ++ t ++ ":" ++ LF ++ format_columns cols) text /\
    part_of ("  - " ++ c ++ " (" ++ ty ++ ")" ++ LF) (format_columns cols).
Proof.
  intros Ht Hc. exists (schema_text (schema_info m)).
  split; [apply format_schema_info_text | split].
  - destruct (in_split _ _ Ht) as (l1 & l2 & ->).
    change ((t, cols) :: l2) with ([(t, cols)] ++ l2)%list.
    rewrite !schema_text_app.
    exists (schema_text l1), (schema_text l2). reflexivity.
  - destruct (in_split _ _ Hc) as (l1 & l2 & ->).
    change ((c, ty) :: l2) with ([(c, ty)] ++ l2)%list.
    rewrite !format_columns_app.
    exists (format_columns l1), (format_columns l2). reflexivity.
Qed.

Lemma join_head (sep p : string) (rest : list string) :
  exists tail, join sep (p :: rest) = p ++ tail.
Proof.
  destruct rest as [|q rest].
  - exists "". simpl. now rewrite append_empty_r.
  - exists (sep ++ join sep (q :: rest)). reflexivity.
Qed.

Lemma format_context_head (d : Document) (ds : list Document) :
  exists tail, format_context (d :: ds) = "Context 1 (Source: " ++ tail.
Proof.
  unfold format_context. cbn [enumerate map fst snd].
  destruct (join_head (LF ++ LF) (context_entry 0 d)
              (map (fun p => context_entry (fst p) (snd p)) (enumerate 1 ds)))
    as [tail ->].
  unfold context_entry. eexists. cbn. reflexivity.
Qed.

(** X4.  [format_context] returns the sentinel for the empty list and for no
    other list: the text of one or more chunks starts with the header of the
    first. *)
Theorem format_context_sentinel (docs : list Document) :
  (format_context docs = "No relevant context found." <-> docs = []) /\
  (docs <> [] ->
   exists tail, format_context docs = "Context 1 (Source: " ++ tail).
Proof.
  split; [split|].
  - destruct docs as [|d ds]; [reflexivity|].
    destruct (format_context_head d ds) as [tail ->]. discriminate.
  - now intros ->.
  - destruct docs as [|d ds]; [easy|]. intros _. apply format_context_head.
Qed.

Lemma dict_get_missing (d : list (string * string)) (key default : string) :
  (forall v, ~ In (key, v) d) -> dict_get d key default = default.
Proof.
  induction d as [|[k v] d IH]; intros H; simpl; [reflexivity|].
  destruct (String.eqb_spec k key) as [->|_].
  - exfalso. apply (H v). now left.
  - apply IH. intros v' Hv. apply (H v'). now right.
Qed.

Lemma dict_get_first (before after : list (string * string))
    (key v default : string) :
  (forall v', ~ In (key, v') before) ->
  dict_get (before ++ (key, v) :: after)%list key default = v.
Proof.
  induction before as [|[k v'] before IH]; intros H; simpl.
  - now rewrite String.eqb_refl.
  - destruct (String.eqb_spec k key) as [->|_].
    + exfalso. apply (H v'). now left.
    + apply IH. intros v'' Hv. apply (H v''). now right.
Qed.

(** X5.  The header of a chunk names the source recorded in its metadata:
    the value that the metadata holds under the key [source] is the one
    shown, whatever the other keys are, and a chunk whose metadata has no
    such key is headed [unknown]. *)
Theorem context_entry_source (i : nat) (doc : Document) :
  (forall (before after : list (string * string)) (source : string),
     metadata doc = (before ++ ("source", source) :: after)%list ->
     (forall v, ~ In ("source", v) before) ->
     context_entry i doc
     = "Context " ++ str_nat (i + 1) ++ " (Source: " ++ source ++ "):" ++ LF
         ++ page_content doc) /\
  ((forall v, ~ In ("source", v) (metadata doc)) ->
   context_entry i doc
   = "Context " ++ str_nat (i + 1) ++ " (Source: unknown):" ++ LF
       ++ page_content doc).
Proof.
  unfold context_entry. split.
  - intros before after source -> H. now rewrite dict_get_first.
  - intros H. now rewrite dict_get_missing.
Qed.

(** X6.  On a store that holds at least one chunk, for a query that the
    provider embeds, [get_relevant_context] returns the text of the
    [min 3 n] best chunks of the [n] stored, never the sentinel. *)
Theorem get_relevant_context_entries (query : string)
    (m : Machine (Embedding W)) (vs : Store (Embedding W))
    (q : Embedding W) :
  vector_store m = Some vs -> vs <> [] -> embed W query = Ok q ->
  exists docs,
    fst (get_relevant_context W query m) = Ok (format_context docs) /\
    List.length docs = Nat.min 3 (List.length vs) /\
    format_context docs <> "No relevant context found.".
Proof.
  intros Hm Hne Hq.
  exists (map document (firstn 3 (rank (hits_from W 0 q vs)))).
  assert (Hlen : List.length
                   (map document (firstn 3 (rank (hits_from W 0 q vs))))
                 = Nat.min 3 (List.length vs)).
  { now rewrite length_map, length_firstn, rank_length, hits_from_length. }
  split; [|split; [exact Hlen|]].
  - unfold get_relevant_context, retrieve_context, record, get_vector_store,
      lift, similarity_search, search.
    cbn. rewrite Hm. cbn. rewrite Hq. reflexivity.
  - intros Hs. apply format_context_sentinel in Hs. rewrite Hs in Hlen.
    destruct vs; [easy | simpl in Hlen; discriminate].
Qed.

End PromptText.

(** ** Calls and results of the router *)
Section RouterTrace.
Variable W : Collaborators.
Local Open Scope list_scope.

Ltac split_stages :=
  repeat match goal with
         | |- context [match ?x with _ => _ end] => destruct x eqn:?
         | H : context [match ?x with _ => _ end] |- _ => destruct x eqn:?
         end.


(** X8.  A question classified as [explanation] never reaches the warehouse
    and never asks for a statement: whatever happens, no execution and no
    statement prompt is among its calls and the result carries no table and
    no statement; when retrieval and the gateway succeed, the answer is the
    text of the gateway, unaltered. *)
Theorem process_query_explanation (query : string)
    (m : Machine (Embedding W)) :
  fst (_classify_query W query m) = Ok "explanation"%string ->
  (exists new,
     calls (snd (process_query W query m)) = calls m ++ new /\
     (forall sql, ~ In (CallExecute sql) new) /\
     (forall s c q, ~ In (CallLLM (SqlPrompt s c q)) new)) /\
  dataframe (fst (process_query W query m)) = None /\
  sql_query (fst (process_query W query m)) = None /\
  (forall context text,
     fst (get_relevant_context W query m) = Ok context ->
     llm W (ExplanationPrompt context query) = Ok text ->
     fst (process_query W query m)
     = {| answer := text; dataframe := None;
          sql_query := None; error := None |}).
Proof.
  intros H. rewrite process_query_trace, process_query_outcome, H.
  cbn [String.eqb Ascii.eqb Bool.eqb andb].
  split; [|split; [|split]].
  - eexists; split; [reflexivity|].
    split; [intros sql | intros s c q];
      (destruct (fst (get_relevant_context W query m)); cbn;
       intros Hin; intuition discriminate).
  - destruct (fst (get_relevant_context W query m)) as [c|]; [|reflexivity].
    now destruct (llm W (ExplanationPrompt c query)).
  - destruct (fst (get_relevant_context W query m)) as [c|]; [|reflexivity].
    now destruct (llm W (ExplanationPrompt c query)).
  - intros context text -> ->. reflexivity.
Qed.

(** X9.  The statement that a result reports is the statement that was
    executed: when the result carries a statement, the last call was its
    execution, the table in the result is what the warehouse returned for
    it, the answer is the summary of that table followed by the statement
    in its details block, and there is no error. *)
Theorem reported_sql_is_executed (query sql : string)
    (m : Machine (Embedding W)) :
  sql_query (fst (process_query W query m)) = Some sql ->
  exists earlier df text,
    calls (snd (process_query W query m)) = earlier ++ [CallExecute sql] /\
    SnowflakeConnector.execute_query W sql = Ok df /\
    _generate_natural_response query (Some df) (Some sql) = Ok text /\
    fst (process_query W query m)
    = {| answer := (text ++ sql_details sql)%string; dataframe := Some df;
         sql_query := Some sql; error := None |}.
Proof.
  rewrite process_query_trace, process_query_outcome.
  destruct (fst (_classify_query W query m)) as [query_type|e];
    [|discriminate].
  destruct (String.eqb query_type "general"); [discriminate|].
  destruct (fst (get_relevant_context W query m)) as [context|e];
    [|discriminate].
  destruct (String.eqb query_type "explanation").
  { destruct (llm W (ExplanationPrompt context query)); discriminate. }
  destruct (fst (_generate_sql W query context m)) as [sql'|e];
    [|discriminate].
  destruct (SnowflakeConnector.execute_query W sql') as [df|e] eqn:Ex;
    [|discriminate].
  destruct (_generate_natural_response query (Some df) (Some sql'))
    as [text|e] eqn:Es; [|discriminate].
  cbn [sql_query]. intros Hsql. inversion Hsql; subst sql'.
  eexists (calls m ++ [_; _; _]), df, text.
  repeat split; try assumption.
  now rewrite <- app_assoc.
Qed.

(** X10.  A result that carries an error is the failure result of that
    error text: its answer is the fixed message around the text, and it
    carries no table and no statement, also when the failure came after the
    statement had been generated. *)
Theorem error_result_shape (query e : string) (m : Machine (Embedding W)) :
  error (fst (process_query W query m)) = Some e ->
  fst (process_query W query m) = error_result e.
Proof.
  rewrite process_query_outcome.
  split_stages; cbn [error error_result]; intros Hx;
    solve [discriminate | inversion Hx; reflexivity].
Qed.

(** X11.  A statement that returns no rows is not an error: the answer is
    the no-data message followed by the statement in its details block, and
    the result carries the empty table and the statement. *)
Theorem process_query_empty_result (query query_type context sql : string)
    (df : DataFrame) (m : Machine (Embedding W)) :
  fst (_classify_query W query m) = Ok query_type ->
  query_type <> "general"%string -> query_type <> "explanation"%string ->
  fst (get_relevant_context W query m) = Ok context ->
  fst (_generate_sql W query context m) = Ok sql ->
  SnowflakeConnector.execute_query W sql = Ok df ->
  empty df = true ->
  fst (process_query W query m)
  = {| answer := (NO_DATA ++ sql_details sql)%string; dataframe := Some df;
       sql_query := Some sql; error := None |}.
Proof.
  intros Hc Hg Hx Hr Hs He Hd.
  apply String.eqb_neq in Hg, Hx.
  rewrite process_query_outcome, Hc, Hg, Hr, Hx, Hs, He.
  unfold _generate_natural_response. now rewrite Hd.
Qed.

End RouterTrace.

(** ** Result-to-text synthesis, continued *)
Section SummaryRows.
Import PyStrFacts.

Lemma cell_defined (s : Series) (i : nat) :
  i < series_len s -> exists v, cell s i = Some v.
Proof.
  intros H. destruct s as [vs|vs]; simpl in *;
    destruct (nth_error vs i) eqn:E;
    try (apply nth_error_None in E; lia); now eexists.
Qed.

Lemma summary_header (query : string) (df : DataFrame) (sql : option string)
    (first total : string) :
  0 < n_rows df ->
  2 <= List.length (columns df) ->
  hd_error (select_dtypes_number df) = Some first ->
  format_column_sum df first = Ok total ->
  _generate_natural_response query (Some df) sql
  = if len df <=? 10 then
      for_each (row_line df) (head_rows df 10)
        ((("Found " ++ str_nat (len df) ++ " results. ")
            ++ "The total " ++ first ++ " is " ++ total ++ ". ")
           ++ "Here are all the results:" ++ LF ++ LF)
    else
      Ok (("Found " ++ str_nat (len df) ++ " results. ")
            ++ "The total " ++ first ++ " is " ++ total ++ ". "
            ++ "Top 10 results shown below.").
Proof.
  intros Hn Hc Hf Ht. unfold _generate_natural_response, empty.
  destruct (Nat.eqb_spec (n_rows df) 0) as [|_]; [lia|].
  destruct (Nat.eqb_spec (List.length (columns df)) 0) as [|_]; [lia|].
  cbn [orb].
  destruct (Nat.leb_spec 2 (List.length (columns df))) as [_|]; [|lia].
  destruct (select_dtypes_number df) as [|f others]; [discriminate|].
  cbn in Hf. inversion Hf; subst f. rewrite Ht. cbn [bind result_monad].
  destruct (len df <=? 10); [reflexivity|].
  f_equal. now rewrite !append_assoc.
Qed.

(** X12.  When the second column of a table holds text, a table of one to
    ten rows with a numeric column elsewhere cannot be summarised: writing
    its first row raises the format error of a [str] under [',.2f'].  The
    same table with more than ten rows is summarised, since no row is
    written. *)
Theorem summary_text_second_column (query : string) (df : DataFrame)
    (sql : option string) (c0 c1 first total : string) (s0 : Series)
    (vs1 : list string) (rest : list (string * Series)) :
  columns df = (c0, s0) :: (c1, Object vs1) :: rest ->
  0 < n_rows df ->
  series_len s0 = n_rows df -> List.length vs1 = n_rows df ->
  hd_error (select_dtypes_number df) = Some first ->
  format_column_sum df first = Ok total ->
  (n_rows df <= 10 ->
   _generate_natural_response query (Some df) sql
   = Raise "Unknown format code 'f' for object of type 'str'") /\
  (10 < n_rows df ->
   _generate_natural_response query (Some df) sql
   = Ok ("Found " ++ str_nat (n_rows df) ++ " results. The total " ++ first
         ++ " is " ++ total ++ ". Top 10 results shown below.")).
Proof.
  intros Hc Hn H0 H1 Hf Ht.
  assert (H2 : 2 <= List.length (columns df)) by (rewrite Hc; simpl; lia).
  rewrite (summary_header query df sql first total Hn H2 Hf Ht).
  unfold len. split; intros Hle.
  - destruct (Nat.leb_spec (n_rows df) 10) as [_|]; [|lia].
    unfold head_rows.
    destruct (Nat.min 10 (n_rows df)) as [|k] eqn:Ek; [lia|].
    cbn [seq for_each]. unfold row_line, iloc. rewrite Hc.
    cbn [nth_error].
    destruct (cell_defined s0 0) as [v0 ->]; [lia|].
    destruct vs1 as [|x vs1]; [simpl in H1; lia|]. reflexivity.
  - destruct (Nat.leb_spec (n_rows df) 10) as [|_]; [lia|].
    f_equal. now rewrite !append_assoc.
Qed.

Lemma for_each_lines {A} (step : string -> A -> result string)
    (f : A -> string) (l : list A) (acc : string) :
  (forall x a, In x l -> step a x = Ok (a ++ f x)) ->
  for_each step l acc = Ok (acc ++ lines (map f l)).
Proof.
  revert acc; induction l as [|x l IH]; intros acc H; simpl.
  - now rewrite append_empty_r.
  - rewrite (H x acc (or_introl eq_refl)).
    rewrite IH by (intros y a Hy; apply H; now right).
    now rewrite append_assoc.
Qed.

(** X13.  For a table of one to ten rows whose second column is numeric,
    the summary is the row count, the total of the first numeric column,
    and one line for each row in order: the value of the first column, a
    colon, and the value of the second column with two decimals. *)
Theorem summary_lists_every_row (query : string) (df : DataFrame)
    (sql : option string) (c0 c1 first total : string) (s0 : Series)
    (vs1 : list Z) (rest : list (string * Series)) :
  columns df = (c0, s0) :: (c1, Int64 vs1) :: rest ->
  0 < n_rows df <= 10 ->
  series_len s0 = n_rows df -> List.length vs1 = n_rows df ->
  hd_error (select_dtypes_number df) = Some first ->
  format_column_sum df first = Ok total ->
  _generate_natural_response query (Some df) sql
  = Ok ("Found " ++ str_nat (n_rows df) ++ " results. The total " ++ first
        ++ " is " ++ total ++ ". Here are all the results:" ++ LF ++ LF
        ++ lines (map (row_text s0 vs1) (seq 0 (n_rows df)))).
Proof.
  intros Hc [Hn Hle] H0 H1 Hf Ht.
  assert (H2 : 2 <= List.length (columns df)) by (rewrite Hc; simpl; lia).
  rewrite (summary_header query df sql first total Hn H2 Hf Ht).
  unfold len. destruct (Nat.leb_spec (n_rows df) 10) as [_|]; [|lia].
  unfold head_rows. rewrite Nat.min_r by exact Hle.
  rewrite (for_each_lines (row_line df) (row_text s0 vs1)).
  - f_equal. now rewrite !append_assoc.
  - intros i a Hi. apply in_seq in Hi.
    unfold row_line, iloc, row_text. rewrite Hc. cbn [nth_error].
    destruct (cell_defined s0 i) as [v0 E0]; [lia|]. rewrite E0.
    cbn [cell option_map].
    destruct (nth_error vs1 i) as [z|] eqn:E1;
      [|apply nth_error_None in E1; lia].
    rewrite (nth_error_nth _ _ 0%Z E1).
    cbn [bind result_monad format_value_2f]. reflexivity.
Qed.

End SummaryRows.

(** ** The printed total *)
Section Totals.
Local Open Scope Z_scope.

Lemma wrap64_add (a v : Z) : wrap64 (wrap64 a + v) = wrap64 (a + v).
Proof.
  unfold wrap64. f_equal.
  replace ((a + 2 ^ 63) mod 2 ^ 64 - 2 ^ 63 + v + 2 ^ 63)
    with ((a + 2 ^ 63) mod 2 ^ 64 + v) by ring.
  rewrite Z.add_mod_idemp_l by lia. f_equal. ring.
Qed.

Lemma wrap64_small (z : Z) : - 2 ^ 63 <= z < 2 ^ 63 -> wrap64 z = z.
Proof. intros H. unfold wrap64. rewrite Z.mod_small; lia. Qed.

Lemma series_sum_wrap (vs : list Z) :
  series_sum vs = wrap64 (fold_right Z.add 0 vs).
Proof.
  unfold series_sum.
  assert (H : forall a, fold_left (fun acc v => wrap64 (acc + v)) vs (wrap64 a)
                        = wrap64 (a + fold_right Z.add 0 vs)).
  { induction vs as [|v vs IH]; intros a; simpl.
    - now rewrite Z.add_0_r.
    - rewrite wrap64_add, IH. f_equal. ring. }
  change 0 with (wrap64 0) at 1. now rewrite H.
Qed.

Lemma float_of_int_exact (z : Z) : Z.abs z < 2 ^ 53 -> float_of_int z = z.
Proof.
  intros H. unfold float_of_int.
  destruct (Z.leb_spec (Z.log2 (Z.abs z) + 1) 53) as [_|Hb]; [reflexivity|].
  exfalso.
  destruct (Z.eq_dec (Z.abs z) 0) as [E|E].
  - rewrite E in Hb. simpl in Hb. lia.
  - assert (Z.log2 (Z.abs z) < 53) by (apply Z.log2_lt_pow2; lia). lia.
Qed.

(** X14.  The total in a summary is exact whenever the true sum of the
    column is below [2^53] in magnitude, whatever the order of the rows and
    even if a partial sum leaves the [int64] range: what is printed is the
    sum itself with two zero decimals. *)
Theorem printed_total_exact (vs : list Z) :
  Z.abs (fold_right Z.add 0 vs) < 2 ^ 53 ->
  float_of_int (series_sum vs) = fold_right Z.add 0 vs /\
  format_2f (series_sum vs)
  = ((if (fold_right Z.add 0 vs <? 0)%Z then "-" else "")
       ++ thousands (digits (Z.abs_N (fold_right Z.add 0 vs)))
       ++ ".00")%string.
Proof.
  intros H.
  assert (Hs : series_sum vs = fold_right Z.add 0 vs).
  { rewrite series_sum_wrap. apply wrap64_small. lia. }
  assert (Hf : float_of_int (series_sum vs) = fold_right Z.add 0 vs).
  { rewrite Hs. now apply float_of_int_exact. }
  split; [exact Hf|]. unfold format_2f. now rewrite Hf.
Qed.

End Totals.

(** ** The schema fetched at construction *)
Section SchemaFetch.
Import PyStrFacts SnowflakeConnector.
Variable W : Collaborators.
Variables database schema : string.
Local Open Scope list_scope.

Lemma value_eqb_eq (a b : Value) : value_eqb a b = true <-> a = b.
Proof.
  destruct a as [x|x], b as [y|y]; simpl; split; intros H;
    try discriminate; try (inversion H; subst).
  - apply Z.eqb_eq in H. now subst.
  - apply Z.eqb_refl.
  - apply String.eqb_eq in H. now subst.
  - apply String.eqb_refl.
Qed.

Lemma dict_set_absent {V} (d : list (Value * V)) (k : Value) (v : V) :
  ~ In k (map fst d) -> dict_set value_eqb d k v = d ++ [(k, v)].
Proof.
  induction d as [|[k' v'] d IH]; intros H; simpl; [reflexivity|].
  destruct (value_eqb k' k) eqn:E.
  - apply value_eqb_eq in E. subst. exfalso. apply H. now left.
  - rewrite IH; [reflexivity|]. intros Hin. apply H. now right.
Qed.

Lemma execute_query_fetched (q : string) (df : DataFrame) :
  fetch W q = Ok df ->
  execute_query W q = Ok df /\ fetched W q = df.
Proof. intros H. unfold execute_query, fetched. now rewrite H. Qed.

Lemma columns_loop_ok (names : list Value) (acc : RawSchema) :
  NoDup names ->
  (forall t, In t names -> ~ In t (map fst acc)) ->
  (forall t, In t names ->
     exists df, fetch W (columns_statement database schema t) = Ok df) ->
  columns_loop W database schema names acc
  = (Ok (acc ++ map (columns_entry W database schema) names), map (columns_statement database schema) names).
Proof.
  revert acc; induction names as [|t names IH]; intros acc Hnd Hfresh Hok.
  - simpl. now rewrite app_nil_r.
  - inversion Hnd as [|? ? Hnot Hnd']; subst.
    destruct (Hok t (or_introl eq_refl)) as [df Hdf].
    destruct (execute_query_fetched _ _ Hdf) as [Hex Hfd].
    cbn [columns_loop]. fold (columns_statement database schema t). rewrite Hex.
    rewrite dict_set_absent by (apply Hfresh; now left).
    rewrite IH.
    + cbn [map]. unfold columns_entry at 2. rewrite Hfd.
      now rewrite <- app_assoc.
    + exact Hnd'.
    + intros u Hu Hin. rewrite map_app in Hin. apply in_app_or in Hin.
      destruct Hin as [Hin | [<- | []]].
      * apply (Hfresh u); [now right | exact Hin].
      * exact (Hnot Hu).
    + intros u Hu. apply Hok. now right.
Qed.

Lemma columns_loop_sent (names : list Value) (acc : RawSchema) :
  exists k, snd (columns_loop W database schema names acc)
            = firstn k (map (columns_statement database schema) names).
Proof.
  revert acc; induction names as [|t names IH]; intros acc.
  - now exists 0.
  - cbn [columns_loop]. fold (columns_statement database schema t).
    destruct (execute_query W (columns_statement database schema t)) as [df|e].
    + destruct (IH (dict_set value_eqb acc t (to_dict_records df)))
        as [k Hk].
      destruct (columns_loop W database schema names _) as [r sent].
      cbn [snd] in *. exists (S k). cbn. now rewrite Hk.
    + now exists 1.
Qed.

Lemma columns_loop_fails (names : list Value) (acc : RawSchema) (t : Value)
    (cause : string) :
  In t names ->
  fetch W (columns_statement database schema t) = Raise cause ->
  exists e, fst (columns_loop W database schema names acc) = Raise e.
Proof.
  revert acc; induction names as [|u names IH]; intros acc Hin Hf; [easy|].
  cbn [columns_loop]. fold (columns_statement database schema u).
  destruct (execute_query W (columns_statement database schema u))
    as [df|e] eqn:Ex.
  - destruct Hin as [-> | Hin].
    + unfold execute_query in Ex. rewrite Hf in Ex. discriminate.
    + destruct (IH (dict_set value_eqb acc u (to_dict_records df)) Hin Hf)
        as [e He].
      destruct (columns_loop W database schema names _) as [r sent].
      cbn [fst] in *. now exists e.
  - now exists e.
Qed.

Lemma columns_loop_stops (before after : list Value) (t : Value)
    (cause : string) (acc : RawSchema) :
  (forall u, In u before ->
     exists df, fetch W (columns_statement database schema u) = Ok df) ->
  fetch W (columns_statement database schema t) = Raise cause ->
  columns_loop W database schema (before ++ t :: after) acc
  = (Raise ("Query execution failed: " ++ cause)%string,
     map (columns_statement database schema) before
       ++ [columns_statement database schema t]).
Proof.
  revert acc; induction before as [|u before IH]; intros acc Hok Hf.
  - cbn [app columns_loop map]. fold (columns_statement database schema t).
    unfold execute_query. now rewrite Hf.
  - destruct (Hok u (or_introl eq_refl)) as [df Hdf].
    destruct (execute_query_fetched _ _ Hdf) as [Hex _].
    cbn [app columns_loop map]. fold (columns_statement database schema u).
    rewrite Hex, IH; [reflexivity | | exact Hf].
    intros v Hv. apply Hok. now right.
Qed.

(** X15.  Every failure of [get_schema_info] carries the prefix
    [Failed to retrieve schema info: ]: a failure of the tables statement
    comes out with the prefix of [execute_query] nested inside it, and a
    tables frame with no [TABLE_NAME] column as the [KeyError] text.  It is
    all or nothing: when the columns statement of a listed table fails
    after those of the tables before it succeeded, no schema is returned,
    the failure is that of this statement under both prefixes, and the
    statements sent are the tables statement, the columns statements of the
    tables before it and the failing one: none is sent after it. *)
Theorem get_schema_info_failures :
  (forall e sent,
     get_schema_info W database schema = (Raise e, sent) ->
     exists cause, e = ("Failed to retrieve schema info: " ++ cause)%string) /\
  (forall cause,
     fetch W (tables_query database schema) = Raise cause ->
     get_schema_info W database schema
     = (Raise ("Failed to retrieve schema info: Query execution failed: "
               ++ cause)%string,
        [tables_query database schema])) /\
  (forall tables_df,
     fetch W (tables_query database schema) = Ok tables_df ->
     (forall c, In c (columns tables_df) -> fst c <> "TABLE_NAME"%string) ->
     get_schema_info W database schema
     = (Raise "Failed to retrieve schema info: 'TABLE_NAME'"%string,
        [tables_query database schema])) /\
  (forall tables_df before t after cause,
     fetch W (tables_query database schema) = Ok tables_df ->
     iter_column tables_df "TABLE_NAME" = Ok (before ++ t :: after) ->
     (forall u, In u before ->
        exists df, fetch W (columns_statement database schema u) = Ok df) ->
     fetch W (columns_statement database schema t) = Raise cause ->
     get_schema_info W database schema
     = (Raise ("Failed to retrieve schema info: Query execution failed: "
               ++ cause)%string,
        tables_query database schema
          :: map (columns_statement database schema) before
          ++ [columns_statement database schema t])) /\
  (forall tables_df names,
     fetch W (tables_query database schema) = Ok tables_df ->
     iter_column tables_df "TABLE_NAME" = Ok names ->
     (exists k,
        snd (get_schema_info W database schema)
        = tables_query database schema
            :: firstn k (map (columns_statement database schema) names)) /\
     (forall t cause,
        In t names ->
        fetch W (columns_statement database schema t) = Raise cause ->
        exists e, fst (get_schema_info W database schema) = Raise e)).
Proof.
  split; [|split; [|split; [|split]]].
  - intros e sent H. unfold get_schema_info in H.
    destruct (get_schema_info_body W database schema) as [[info|e'] sent'];
      inversion H. now eexists.
  - intros cause H. unfold get_schema_info, get_schema_info_body,
      execute_query. rewrite H. reflexivity.
  - intros tables_df H Hc. unfold get_schema_info, get_schema_info_body,
      execute_query, iter_column. rewrite H.
    rewrite filter_none; [reflexivity|].
    intros c Hin. apply String.eqb_neq. now apply Hc.
  - intros tables_df before t after cause H Hn Hok Hf.
    unfold get_schema_info, get_schema_info_body, execute_query.
    rewrite H, Hn, (columns_loop_stops before after t cause [] Hok Hf).
    reflexivity.
  - intros tables_df names H Hn. unfold get_schema_info,
      get_schema_info_body, execute_query. rewrite H, Hn. split.
    + destruct (columns_loop_sent names []) as [k Hk].
      exists k.
      destruct (columns_loop W database schema names []) as [[i|e] sent];
        cbn [snd] in *; now rewrite Hk.
    + intros t cause Hin Hf.
      destruct (columns_loop_fails names [] t cause Hin Hf) as [e He].
      destruct (columns_loop W database schema names []) as [[i|e'] sent];
        cbn [fst] in *; [discriminate|]. now eexists.
Qed.

(** X16.  When the tables statement lists distinct table names and the
    columns statement of each of them succeeds, [get_schema_info] returns
    one entry per table, in the order listed, holding the records of the
    frame returned for that table; it has sent the tables statement and
    then one columns statement per table, in that order. *)
Theorem get_schema_info_catalog (tables_df : DataFrame) (names : list Value) :
  fetch W (tables_query database schema) = Ok tables_df ->
  iter_column tables_df "TABLE_NAME" = Ok names ->
  NoDup names ->
  (forall t, In t names ->
     exists df, fetch W (columns_statement database schema t) = Ok df) ->
  get_schema_info W database schema
  = (Ok (map (columns_entry W database schema) names),
     tables_query database schema
       :: map (columns_statement database schema) names).
Proof.
  intros H Hn Hnd Hok.
  unfold get_schema_info, get_schema_info_body, execute_query.
  rewrite H, Hn.
  rewrite (columns_loop_ok names [] Hnd) by (auto; intros t _ []).
  reflexivity.
Qed.

End SchemaFetch.

(** ** The schema text over the fetched dicts *)
Section SchemaDicts.
Import PyStrFacts.

Lemma column_line_pair (acc : string) (col : list (string * Value))
    (p : string * string) :
  record_pair col = Some p ->
  column_line acc col
  = Ok (acc ++ "  - " ++ fst p ++ " (" ++ snd p ++ ")" ++ LF).
Proof.
  unfold record_pair, column_line. intros H.
  destruct (getitem col "COLUMN_NAME") as [n|]; [|discriminate].
  destruct (getitem col "DATA_TYPE") as [t|]; [|discriminate].
  inversion H; subst. reflexivity.
Qed.

Lemma column_line_key_error (acc : string) (col : list (string * Value)) :
  record_pair col = None -> KEY_ERROR (column_line acc col).
Proof.
  unfold record_pair, column_line, getitem, KEY_ERROR. intros H.
  destruct (find _ col) as [kv|]; [|now left].
  destruct (find _ col) as [kv'|]; [discriminate | now right].
Qed.

Lemma all_some_cons {A} (o : option A) (l : list (option A)) (r : list A) :
  all_some (o :: l) = Some r ->
  exists a rest, o = Some a /\ all_some l = Some rest /\ r = a :: rest.
Proof.
  destruct o as [a|]; [|discriminate]. simpl.
  destruct (all_some l) as [rest|]; [|discriminate].
  intros H; inversion H. now exists a, rest.
Qed.

Lemma all_some_none {A} (o : option A) (l : list (option A)) :
  all_some (o :: l) = None ->
  o = None \/ (exists a, o = Some a) /\ all_some l = None.
Proof.
  destruct o as [a|]; [|now left]. simpl.
  destruct (all_some l); [discriminate|]. right. split; [now eexists|easy].
Qed.

Lemma columns_text (cols : list (list (string * Value)))
    (pairs : list (string * string)) (acc : string) :
  all_some (map record_pair cols) = Some pairs ->
  for_each column_line cols acc = Ok (acc ++ format_columns pairs).
Proof.
  revert pairs acc; induction cols as [|col cols IH]; intros pairs acc H.
  - inversion H. unfold format_columns. simpl. now rewrite append_empty_r.
  - cbn [map] in H.
    destruct (all_some_cons _ _ _ H) as (p & rest & Hp & Hr & ->).
    cbn [for_each]. rewrite (column_line_pair acc col p Hp).
    rewrite (IH rest _ Hr).
    change (p :: rest) with ([p] ++ rest)%list.
    rewrite format_columns_app, append_assoc. reflexivity.
Qed.

Lemma columns_key_error (cols : list (list (string * Value))) (acc : string) :
  all_some (map record_pair cols) = None ->
  KEY_ERROR (for_each column_line cols acc).
Proof.
  revert acc; induction cols as [|col cols IH]; intros acc H; [discriminate|].
  cbn [map] in H. cbn [for_each].
  destruct (all_some_none _ _ H) as [Hn | [[p Hp] Hr]].
  - destruct (column_line_key_error acc col Hn) as [-> | ->];
      [now left | now right].
  - rewrite (column_line_pair acc col p Hp). now apply IH.
Qed.

Lemma tables_text (raw : SnowflakeConnector.RawSchema) (info : SchemaInfo)
    (acc : string) :
  catalog_of raw = Some info ->
  for_each table_block raw acc = Ok (acc ++ schema_text info).
Proof.
  unfold catalog_of.
  revert info acc; induction raw as [|[name cols] raw IH]; intros info acc H.
  - inversion H. unfold schema_text. simpl. now rewrite append_empty_r.
  - cbn [map fst snd] in H.
    destruct (all_some_cons _ _ _ H) as (t & rest & Ht & Hr & ->).
    destruct (all_some (map record_pair cols)) as [pairs|] eqn:Ep;
      [|discriminate].
    inversion Ht; subst t.
    cbn [for_each]. unfold table_block. cbn [fst snd].
    rewrite (columns_text cols pairs _ Ep).
    rewrite (IH rest _ Hr).
    change ((str_value name, pairs) :: rest)
      with ([(str_value name, pairs)] ++ rest)%list.
    rewrite schema_text_app. unfold schema_text at 2. cbn [fold_left fst snd].
    f_equal. rewrite !append_assoc. reflexivity.
Qed.

Lemma tables_key_error (raw : SnowflakeConnector.RawSchema) (acc : string) :
  catalog_of raw = None -> KEY_ERROR (for_each table_block raw acc).
Proof.
  unfold catalog_of.
  revert acc; induction raw as [|[name cols] raw IH]; intros acc H;
    [discriminate|].
  cbn [map fst snd] in H. cbn [for_each]. unfold table_block at 1.
  cbn [fst snd].
  destruct (all_some (map record_pair cols)) as [pairs|] eqn:Ep.
  - rewrite (columns_text cols pairs _ Ep).
    destruct (all_some_none _ _ H) as [Hn | [_ Hr]]; [discriminate|].
    now apply IH.
  - destruct (columns_key_error cols
                (acc ++ LF ++ str_value name ++ ":" ++ LF) Ep) as [-> | ->];
      [now left | now right].
Qed.

(** X17.  The schema text built from the dicts that [get_schema_info]
    returns is the text built from their table names and their
    ([COLUMN_NAME], [DATA_TYPE]) pairs when every record carries both keys;
    when some record lacks one, building the text raises the [KeyError] of
    a missing key. *)
Theorem format_raw_schema_catalog (raw : SnowflakeConnector.RawSchema) :
  (forall info,
     catalog_of raw = Some info ->
     format_raw_schema raw = Ok (schema_text info)) /\
  (catalog_of raw = None ->
   format_raw_schema raw = Raise "'COLUMN_NAME'" \/
   format_raw_schema raw = Raise "'DATA_TYPE'").
Proof.
  split.
  - intros info H. unfold format_raw_schema.
    now rewrite (tables_text raw info "" H).
  - intros H. exact (tables_key_error raw "" H).
Qed.

End SchemaDicts.

(** ** The chat model chosen and the chat model displayed *)
Section Provider.
Import App.

(** X18.  The page and the router read the same keys in the same order:
    the Anthropic key if it is set and not empty, else the Groq key, else
    OpenAI.  The indicator and the model constructed are given for each
    case.  They name the same provider, and differ twice: with an Anthropic
    key the page announces [Claude 3 Haiku] while the router constructs
    [claude-3-5-sonnet-20241022], and with none of the three keys the page
    says [Not configured] while the router still constructs the OpenAI
    model. *)
Theorem indicator_names_provider (getenv : Env) :
  (truthy (getenv "ANTHROPIC_API_KEY") = true ->
   llm_indicator getenv
   = (Success, "🤖 LLM: Claude 3 Haiku ($0.25/M tokens)") /\
   select_llm getenv
   = {| llm_provider := "Claude";
        model := "claude-3-5-sonnet-20241022";
        api_key := getenv "ANTHROPIC_API_KEY";
        base_url := None |}) /\
  (truthy (getenv "ANTHROPIC_API_KEY") = false ->
   truthy (getenv "GROQ_API_KEY") = true ->
   llm_indicator getenv = (Info, "🤖 LLM: Groq Mixtral (FREE)") /\
   select_llm getenv
   = {| llm_provider := "Groq";
        model := "mixtral-8x7b-32768";
        api_key := getenv "GROQ_API_KEY";
        base_url := Some "https://api.groq.com/openai/v1" |}) /\
  (truthy (getenv "ANTHROPIC_API_KEY") = false ->
   truthy (getenv "GROQ_API_KEY") = false ->
   select_llm getenv
   = {| llm_provider := "OpenAI";
        model := "gpt-3.5-turbo";
        api_key := None;
        base_url := None |} /\
   (truthy (getenv "OPENAI_API_KEY") = true ->
    llm_indicator getenv = (Info, "🤖 LLM: OpenAI GPT-3.5")) /\
   (truthy (getenv "OPENAI_API_KEY") = false ->
    llm_indicator getenv = (Warning, "🤖 LLM: Not configured"))).
Proof.
  unfold llm_indicator, select_llm.
  split; [|split].
  - intros ->. now split.
  - intros -> ->. now split.
  - intros -> ->. split; [reflexivity|]. split; now intros ->.
Qed.

End Provider.

(** ** The chat page *)
Section ChatPage.
Import App.
Variable W : Collaborators.
Variable px_bar_error : Figure -> option string.
Variable new_router : result SchemaInfo.
Local Open Scope list_scope.

Ltac split_page :=
  repeat match goal with
         | |- context [match ?x with _ => _ end] => destruct x eqn:?
         | |- context [let (_, _) := ?x in _] => destruct x eqn:?
         end.

Lemma row_lines_extend (df : DataFrame) (rows : list nat)
    (summary text : string) :
  for_each (row_line df) rows summary = Ok text ->
  exists rest, text = (summary ++ rest)%string.
Proof.
  revert summary; induction rows as [|i rows IH]; intros summary H.
  - cbn in H. inversion H. exists ""%string.
    now rewrite PyStrFacts.append_empty_r.
  - cbn [for_each] in H.
    destruct (row_line df summary i) as [summary'|e] eqn:R; [|discriminate].
    destruct (IH _ H) as [rest ->].
    unfold row_line in R.
    destruct (iloc df i 0) as [v0|]; [|discriminate].
    destruct (iloc df i 1) as [v1|]; [|discriminate].
    cbn [bind result_monad] in R.
    destruct (format_value_2f v1) as [amount|]; [|discriminate].
    cbn [bind result_monad] in R. inversion R.
    eexists. rewrite !PyStrFacts.append_assoc. reflexivity.
Qed.

(** X19.  The page asks for a chart exactly when the table has at least two
    columns and a numeric column; the column charted is the first numeric
    column, over the first ten rows.  For a table that is not empty: with no
    chart, the summary is the row-count sentence alone; with a chart, a
    summary that is produced states, after the row count, the total of the
    charted column, and none is produced when that total cannot be
    rendered, as when two columns carry the label. *)
Theorem chart_matches_total (query : string) (df : DataFrame)
    (sql : option string) :
  (chart_for df = None <->
   List.length (columns df) < 2 \/ select_dtypes_number df = []) /\
  (forall fig,
     chart_for df = Some fig ->
     hd_error (select_dtypes_number df) = Some (y fig) /\
     data fig = head 10 df /\
     title fig = (y fig ++ " by " ++ x fig)%string) /\
  (empty df = false -> chart_for df = None ->
   _generate_natural_response query (Some df) sql
   = Ok ("Found " ++ str_nat (len df) ++ " results. ")%string) /\
  (forall fig,
     empty df = false -> chart_for df = Some fig ->
     match format_column_sum df (y fig) with
     | Raise e => _generate_natural_response query (Some df) sql = Raise e
     | Ok total =>
         forall text,
           _generate_natural_response query (Some df) sql = Ok text ->
           exists rest,
             text = ("Found " ++ str_nat (len df) ++ " results. The total "
                       ++ y fig ++ " is " ++ total ++ ". " ++ rest)%string
     end).
Proof.
  assert (Hn : chart_for df = None <->
               List.length (columns df) < 2 \/ select_dtypes_number df = []).
  { unfold chart_for.
    destruct (Nat.leb_spec 2 (List.length (columns df))) as [Hc|Hc].
    - destruct (select_dtypes_number df) as [|n ns]; split; intros H;
        try discriminate; auto. destruct H as [H|H]; [lia | discriminate].
    - split; auto. }
  split; [exact Hn | split; [|split]].
  - unfold chart_for. intros fig H.
    destruct (2 <=? List.length (columns df)); [|discriminate].
    destruct (select_dtypes_number df) as [|n ns]; [discriminate|].
    inversion H; subst fig. cbn. repeat split.
  - intros He Hc. apply count_sentence_only; [exact He | now apply Hn].
  - intros fig He H. unfold chart_for in H.
    unfold _generate_natural_response. rewrite He.
    destruct (2 <=? List.length (columns df)); [|discriminate].
    destruct (select_dtypes_number df) as [|n ns]; [discriminate|].
    inversion H; subst fig. cbn [y].
    destruct (format_column_sum df n) as [total|e]; [|reflexivity].
    cbn [bind result_monad]. intros text.
    destruct (len df <=? 10).
    + intros Hr. destruct (row_lines_extend _ _ _ _ Hr) as [rest ->].
      exists ("Here are all the results:" ++ LF ++ LF ++ rest)%string.
      rewrite !PyStrFacts.append_assoc. reflexivity.
    + intros Hr. exists "Top 10 results shown below."%string.
      rewrite !PyStrFacts.append_assoc in Hr. now inversion Hr.
Qed.

(** X20.  For a table of two or more columns that are all numeric, the page
    charts the first column against itself: both axes are the first
    column. *)
Theorem chart_of_numeric_table (df : DataFrame) :
  2 <= List.length (columns df) ->
  (forall c, In c (columns df) -> is_number (snd c) = true) ->
  exists fig,
    chart_for df = Some fig /\ x fig = y fig /\
    hd_error (map fst (columns df)) = Some (x fig).
Proof.
  intros Hc Hall. unfold chart_for, select_dtypes_number,
    select_dtypes_exclude_number.
  destruct (Nat.leb_spec 2 (List.length (columns df))) as [_|]; [|lia].
  rewrite (filter_all (fun c => is_number (snd c)) _ Hall).
  rewrite (filter_none (fun c => negb (is_number (snd c)))).
  2: { intros c Hin. now rewrite (Hall c Hin). }
  destruct (columns df) as [|[c0 s0] rest]; [simpl in Hc; lia|].
  eexists. cbn. repeat split.
Qed.

Lemma present_appends (reply : RouterResult) (s : Session W) :
  match present W px_bar_error reply s with
  | (Ok _, s') =>
      messages W s' = messages W s ++ [stored_message reply] /\
      (forall df fig, dataframe reply = Some df -> chart_for df = Some fig ->
                      px_bar_error fig = None)
  | (Raise e, s') =>
      messages W s' = messages W s /\
      shown W s' = shown W s ++ [Markdown (answer reply)] /\
      exists df fig,
        dataframe reply = Some df /\ chart_for df = Some fig /\
        px_bar_error fig = Some e
  end.
Proof.
  unfold present, stored_message.
  destruct (dataframe reply) as [df|]; [|split; [reflexivity | discriminate]].
  destruct (chart_for df) as [fig|] eqn:Ec.
  2: { split; [reflexivity|]. intros d f Hd. inversion Hd; subst.
       rewrite Ec. discriminate. }
  destruct (px_bar_error fig) as [e|] eqn:Ep.
  - cbn. repeat split. now exists df, fig.
  - split; [reflexivity|]. intros d f Hd Hf. inversion Hd; subst.
    rewrite Ec in Hf. inversion Hf; subst. exact Ep.
Qed.

Lemma present_other_fields (reply : RouterResult) (s : Session W) :
  snowflake_connected W (snd (present W px_bar_error reply s))
  = snowflake_connected W s /\
  rag_engine W (snd (present W px_bar_error reply s)) = rag_engine W s /\
  query_router W (snd (present W px_bar_error reply s)) = query_router W s /\
  router_calls W (snd (present W px_bar_error reply s)) = router_calls W s.
Proof.
  unfold present.
  destruct (dataframe reply) as [df|]; [|cbn; auto].
  destruct (chart_for df) as [fig|]; [|cbn; auto].
  destruct (px_bar_error fig); cbn; auto.
Qed.

Ltac close_history :=
  cbn; eexists; (split; [rewrite <- ?app_assoc; reflexivity | reflexivity]).

Ltac answer_history :=
  match goal with
  | |- context [process_query W ?p ?m] => destruct (process_query W p m)
  end;
  match goal with
  | |- context [present W px_bar_error ?r ?s0] =>
      let Hp := fresh "Hp" in
      pose proof (present_appends r s0) as Hp;
      destruct (present W px_bar_error r s0) as [[?|?] ?];
      [ destruct Hp as [Hp _]; rewrite Hp
      | destruct Hp as [Hp _]; cbn; rewrite Hp ]
  end;
  close_history.

(** X21.  Every prompt adds exactly two entries to the history, whatever
    happens while answering it: the prompt as the user's message, then one
    message of the assistant (the answer, the request to connect, or the
    text of an error). *)
Theorem on_prompt_history (prompt : string) (s : Session W) :
  exists reply : Message,
    messages W (on_prompt W px_bar_error new_router prompt s)
    = messages W s ++ [user prompt; reply] /\
    role reply = "assistant"%string.
Proof.
  unfold on_prompt, respond, ensure_engine, ensure_router.
  cbn -[process_query present new_engine].
  destruct (snowflake_connected W s); cbn -[process_query present new_engine];
    [|close_history].
  destruct (rag_engine W s) as [store|].
  - cbn -[process_query present new_engine].
    destruct (query_router W s) as [schema|].
    + answer_history.
    + destruct new_router as [schema|e]; [answer_history | close_history].
  - destruct (new_engine W) as [store|e]; [|close_history].
    cbn -[process_query present new_engine].
    destruct (query_router W s) as [schema|].
    + answer_history.
    + destruct new_router as [schema|e]; [answer_history | close_history].
Qed.

(** X22.  Without a connection nothing is built and nothing is called: the
    page shows and stores the request to connect, and the engine, the
    router and the call log of the session are as they were. *)
Theorem on_prompt_not_connected (prompt : string) (s : Session W) :
  snowflake_connected W s = false ->
  on_prompt W px_bar_error new_router prompt s
  = {| messages := messages W s ++ [user prompt; assistant NOT_CONNECTED];
       snowflake_connected := false;
       rag_engine := rag_engine W s;
       query_router := query_router W s;
       router_calls := router_calls W s;
       shown := shown W s ++ [Markdown prompt; Markdown NOT_CONNECTED] |}.
Proof.
  intros H. unfold on_prompt, respond, append_message, show.
  cbn -[process_query present new_engine]. rewrite H.
  cbn. rewrite <- ?app_assoc. reflexivity.
Qed.

Lemma on_prompt_with_router (prompt : string) (s : Session W)
    (store : option (Store (Embedding W))) (schema : SchemaInfo) :
  snowflake_connected W s = true ->
  rag_engine W s = Some store ->
  query_router W s = Some schema ->
  on_prompt W px_bar_error new_router prompt s
  = let pm := process_query W prompt
                {| vector_store := store; schema_info := schema;
                   calls := router_calls W s |} in
    match present W px_bar_error (fst pm)
            {| messages := messages W s ++ [user prompt];
               snowflake_connected := true;
               rag_engine := Some (vector_store (snd pm));
               query_router := Some schema;
               router_calls := calls (snd pm);
               shown := shown W s ++ [Markdown prompt] |} with
    | (Ok _, s') => s'
    | (Raise e, s') =>
        append_message W (show W s' (Error ("❌ Error: " ++ e)%string))
          (assistant ("❌ Error: " ++ e)%string)
    end.
Proof.
  intros Hc He Hr. unfold on_prompt, respond, ensure_engine, ensure_router.
  cbn -[process_query present new_engine]. rewrite Hc, He.
  cbn -[process_query present new_engine]. rewrite Hr.
  cbn -[process_query present new_engine]. rewrite ?Hc, ?Hr.
  now destruct (process_query W prompt _).
Qed.

(** X23.  With the engine and the router in the session, and when drawing
    the chart does not fail, the page stores the reply of the router as it
    is: its answer as the content, its table, and the chart made from the
    table; the session keeps its engine with the store unchanged and its
    router, and its call log is the log that the router leaves. *)
Theorem on_prompt_stores_reply (prompt : string) (s : Session W)
    (store : option (Store (Embedding W))) (schema : SchemaInfo) :
  snowflake_connected W s = true ->
  rag_engine W s = Some store ->
  query_router W s = Some schema ->
  (forall fig, px_bar_error fig = None) ->
  let m := {| vector_store := store; schema_info := schema;
              calls := router_calls W s |} in
  let s' := on_prompt W px_bar_error new_router prompt s in
  messages W s'
  = messages W s ++ [user prompt;
                     stored_message (fst (process_query W prompt m))] /\
  rag_engine W s' = Some store /\
  query_router W s' = Some schema /\
  router_calls W s' = calls (snd (process_query W prompt m)).
Proof.
  intros Hc He Hr Hpx m s'. unfold s'.
  rewrite (on_prompt_with_router prompt s store schema Hc He Hr).
  fold m. cbn zeta.
  assert (Hv : vector_store (snd (process_query W prompt m)) = store).
  { rewrite process_query_machine.
    now destruct (reads_only_body W prompt m) as (Hv & _). }
  match goal with
  | |- context [present W px_bar_error ?r ?s0] =>
      pose proof (present_appends r s0) as Hp;
      pose proof (present_other_fields r s0) as (_ & H2 & H3 & H4);
      destruct (present W px_bar_error r s0) as [[u|e] s1]
  end; cbn [snd] in *.
  - destruct Hp as [Hp _]. rewrite Hp, H2, H3, H4. cbn.
    rewrite Hv, <- app_assoc. repeat split.
  - destruct Hp as (_ & _ & df & fig & _ & _ & Hx).
    rewrite Hpx in Hx. discriminate.
Qed.

(** X24.  When drawing the chart fails, the answer has already been shown,
    but what the history keeps for the prompt is the error: the stored
    message is the text of the failure, with no table and no chart. *)
Theorem on_prompt_chart_failure (prompt e : string) (s : Session W)
    (store : option (Store (Embedding W))) (schema : SchemaInfo)
    (df : DataFrame) (fig : Figure) :
  snowflake_connected W s = true ->
  rag_engine W s = Some store ->
  query_router W s = Some schema ->
  let m := {| vector_store := store; schema_info := schema;
              calls := router_calls W s |} in
  let reply := fst (process_query W prompt m) in
  let s' := on_prompt W px_bar_error new_router prompt s in
  dataframe reply = Some df ->
  chart_for df = Some fig ->
  px_bar_error fig = Some e ->
  messages W s'
  = messages W s ++ [user prompt; assistant ("❌ Error: " ++ e)%string] /\
  shown W s'
  = shown W s ++ [Markdown prompt; Markdown (answer reply);
                  Error ("❌ Error: " ++ e)%string].
Proof.
  intros Hc He Hr m reply s' Hd Hf Hx. unfold s'.
  rewrite (on_prompt_with_router prompt s store schema Hc He Hr).
  fold m. cbn zeta. fold reply.
  unfold present. rewrite Hd, Hf, Hx. cbn.
  now rewrite <- !app_assoc.
Qed.

(** X25.  When a constructor fails, no question is processed and the
    history keeps the error.  If the router cannot be built, the engine
    that exists or was just built stays in the session, so it is not built
    again for the next prompt; if the engine cannot be built, neither
    object is in the session afterwards. *)
Theorem on_prompt_constructor_failure (prompt e : string) (s : Session W) :
  snowflake_connected W s = true ->
  query_router W s = None ->
  let s' := on_prompt W px_bar_error new_router prompt s in
  (forall store,
     rag_engine W s = Some store \/
     (rag_engine W s = None /\ new_engine W = Ok store) ->
     new_router = Raise e ->
     messages W s'
     = messages W s ++ [user prompt; assistant ("❌ Error: " ++ e)%string] /\
     rag_engine W s' = Some store /\
     query_router W s' = None /\
     router_calls W s' = router_calls W s) /\
  (rag_engine W s = None -> new_engine W = Raise e ->
   messages W s'
   = messages W s ++ [user prompt; assistant ("❌ Error: " ++ e)%string] /\
   rag_engine W s' = None /\
   query_router W s' = None /\
   router_calls W s' = router_calls W s).
Proof.
  intros Hc Hr s'. unfold s', on_prompt, respond, ensure_engine,
    ensure_router.
  cbn -[process_query present new_engine]. rewrite Hc.
  cbn -[process_query present new_engine].
  split.
  - intros store [He | [He Hn]] Hnr; rewrite He; [|rewrite Hn];
      cbn -[process_query present new_engine]; rewrite Hr, Hnr; cbn;
      rewrite <- ?app_assoc; repeat split; assumption.
  - intros He Hn. rewrite He, Hn. cbn.
    rewrite <- ?app_assoc. repeat split; assumption.
Qed.

End ChatPage.

(** ** Ingestion *)
Section Ingestion.
Variable W : Collaborators.
Local Open Scope list_scope.

Lemma embed_all_chunks (docs : list Document) (vs : Store (Embedding W)) :
  embed_all W docs = Ok vs ->
  map fst vs = docs /\
  Forall (fun c => embed W (page_content (fst c)) = Ok (snd c)) vs.
Proof.
  revert vs; induction docs as [|d docs IH]; intros vs H; simpl in H.
  - inversion H. split; constructor.
  - destruct (embed W (page_content d)) as [v|] eqn:Ev; [|discriminate].
    destruct (embed_all W docs) as [rest|]; [|discriminate].
    inversion H; subst vs. destruct (IH rest eq_refl) as [Hm Hf].
    split; [simpl; now rewrite Hm | now constructor].
Qed.

Lemma add_documents_outcome (documents : list Document)
    (m : Machine (Embedding W)) :
  match embed_all W (split_documents W documents) with
  | Raise e => add_documents W documents m = (Raise e, m)
  | Ok news =>
      add_documents W documents m
      = (Ok tt,
         {| vector_store :=
              Some (match vector_store m with
                    | Some vs => vs ++ news
                    | None => news
                    end);
            schema_info := schema_info m;
            calls := calls m |})
  end.
Proof.
  unfold add_documents, get_vector_store, set_vector_store, lift,
    DocumentStore.add, from_documents. cbn.
  destruct (vector_store m) as [vs|]; cbn;
    now destruct (embed_all W (split_documents W documents)).
Qed.

(** X26.  An ingestion whose embedding fails raises and leaves the machine
    exactly as it was; and through any series of ingestions, failed or not,
    a store is never emptied, shortened or reordered: what it held is still
    the beginning of what it holds. *)
Theorem ingestion_only_appends (m : Machine (Embedding W)) :
  (forall documents e,
     embed_all W (split_documents W documents) = Raise e ->
     add_documents W documents m = (Raise e, m)) /\
  (forall batches vs,
     vector_store m = Some vs ->
     exists added,
       vector_store (ingest_all W batches m) = Some (vs ++ added) /\
       schema_info (ingest_all W batches m) = schema_info m /\
       calls (ingest_all W batches m) = calls m).
Proof.
  split.
  - intros documents e H.
    pose proof (add_documents_outcome documents m) as Ho.
    now rewrite H in Ho.
  - intros batches. revert m.
    induction batches as [|documents batches IH]; intros m vs Hm.
    + exists []. cbn. now rewrite app_nil_r.
    + cbn [ingest_all fold_left].
      pose proof (add_documents_outcome documents m) as Ho.
      destruct (embed_all W (split_documents W documents)) as [news|e].
      * rewrite Ho. cbn [snd]. rewrite Hm.
        destruct (IH {| vector_store := Some (vs ++ news);
                        schema_info := schema_info m;
                        calls := calls m |} (vs ++ news) eq_refl)
          as (added & Hv & Hs & Hc).
        exists (news ++ added). unfold ingest_all in *.
        rewrite Hv, Hs, Hc, <- app_assoc. repeat split.
      * rewrite Ho. cbn [snd]. exact (IH m vs Hm).
Qed.

(** X27.  What is ingested can be retrieved, and nothing is lost by it:
    after a successful [add_documents], a retrieval that asks for at least
    as many chunks as the store holds returns the chunks held before
    together with the chunks of the new documents, each once. *)
Theorem ingested_chunks_are_retrieved (documents : list Document)
    (query : string) (k : nat) (m : Machine (Embedding W))
    (vs news : Store (Embedding W)) (q : Embedding W) :
  vector_store m = Some vs \/ (vector_store m = None /\ vs = []) ->
  embed_all W (split_documents W documents) = Ok news ->
  embed W query = Ok q ->
  List.length vs + List.length news <= k ->
  exists docs,
    fst (retrieve_context W query k (snd (add_documents W documents m)))
    = Ok docs /\
    Permutation docs (map fst vs ++ split_documents W documents).
Proof.
  intros Hm He Hq Hk.
  rewrite (add_documents_store W documents m vs news Hm He). cbn [snd].
  erewrite retrieve_context_store by reflexivity.
  unfold similarity_search, search. cbn. rewrite Hq.
  eexists. split; [reflexivity|].
  rewrite firstn_all2
    by (rewrite rank_length, hits_from_length, length_app; exact Hk).
  destruct (embed_all_chunks _ _ He) as [Hd _].
  rewrite <- Hd, <- map_app, <- (hits_from_documents W 0 q (vs ++ news)).
  apply Permutation_map, rank_perm.
Qed.

(** X28.  Building the knowledge base either raises, leaving no store, or
    leaves a store that holds the chunks of the four seed documents as the
    splitter returns them, in order, each with the vector of its own text;
    it never leaves an engine that has no store. *)
Theorem initialize_knowledge_base_outcome (m : Machine (Embedding W)) :
  (exists e, _initialize_knowledge_base W m = (Raise e, m)) \/
  (exists vs,
     _initialize_knowledge_base W m
     = (Ok tt, {| vector_store := Some vs;
                  schema_info := schema_info m;
                  calls := calls m |}) /\
     map fst vs
     = split_documents W
         [SEED_SCHEMA; SEED_SQL_PATTERNS; SEED_METRICS; SEED_BUSINESS_RULES]
     /\
     Forall (fun c => embed W (page_content (fst c)) = Ok (snd c)) vs).
Proof.
  unfold _initialize_knowledge_base, from_documents, lift, set_vector_store.
  cbn -[SEED_SCHEMA SEED_SQL_PATTERNS SEED_METRICS SEED_BUSINESS_RULES].
  destruct (embed_all W _) as [vs|e] eqn:E.
  - right. exists vs. split; [reflexivity|]. now apply embed_all_chunks.
  - left. now exists e.
Qed.

End Ingestion.

(** ** The further properties on the sample collaborators *)
Section FurtherInstances.
Import App SnowflakeConnector.
Local Open Scope string_scope.

Lemma clean_sql_unbalanced_fence_witness :
  clean_sql ("```sql" ++ LF ++ "SELECT 1") = "SELECT 1" /\
  clean_sql ("SELECT 1" ++ LF ++ "```") = "SELECT 1" /\
  clean_sql ("```sql" ++ LF ++ "SELECT 1" ++ Sample.NBSP) = "SELECT 1".
Proof.
  split; [|split].
  - exact (proj1 (clean_sql_unbalanced_fence
                    ("```sql" ++ LF ++ "SELECT 1") (LF ++ "SELECT 1"))
             eq_refl eq_refl eq_refl).
  - exact (proj2 (clean_sql_unbalanced_fence
                    ("SELECT 1" ++ LF ++ "```") ("SELECT 1" ++ LF))
             eq_refl eq_refl).
  - exact (proj1 (clean_sql_unbalanced_fence
                    ("```sql" ++ LF ++ "SELECT 1" ++ Sample.NBSP)
                    (LF ++ "SELECT 1"))
             eq_refl eq_refl eq_refl).
Defined.

Lemma schema_text_covers_catalog_witness :
  exists text,
    fst (_format_schema_info Sample.online
           {| vector_store := None;
              schema_info := [("FACT_SALES", [("QUANTITY", "NUMBER")])];
              calls := [] |}) = Ok text /\
    part_of (LF ++ "FACT_SALES:" ++ LF ++ "  - QUANTITY (NUMBER)" ++ LF) text.
Proof.
  destruct (schema_text_covers_catalog Sample.online
              {| vector_store := None;
                 schema_info := [("FACT_SALES", [("QUANTITY", "NUMBER")])];
                 calls := [] |}
              "FACT_SALES" [("QUANTITY", "NUMBER")] "QUANTITY" "NUMBER"
              (or_introl eq_refl) (or_introl eq_refl))
    as (text & H1 & H2 & _).
  exists text. split; [exact H1 | exact H2].
Defined.

Lemma format_context_sentinel_witness :
  exists tail,
    format_context [Sample.doc "metrics" "metrics"]
    = "Context 1 (Source: " ++ tail.
Proof.
  refine (proj2 (format_context_sentinel [Sample.doc "metrics" "metrics"]) _).
  discriminate.
Defined.

Lemma context_entry_source_witness :
  context_entry 1
    {| page_content := "text";
       metadata := [("type", "x"); ("source", "metrics")] |}
  = "Context 2 (Source: metrics):" ++ LF ++ "text" /\
  context_entry 0 {| page_content := "text"; metadata := [("type", "x")] |}
  = "Context 1 (Source: unknown):" ++ LF ++ "text".
Proof.
  split.
  - refine (proj1 (context_entry_source 1
                     {| page_content := "text";
                        metadata := [("type", "x"); ("source", "metrics")] |})
              [("type", "x")] [] "metrics" eq_refl _).
    intros v [H | []]. discriminate.
  - refine (proj2 (context_entry_source 0
                     {| page_content := "text";
                        metadata := [("type", "x")] |}) _).
    intros v [H | []]. discriminate.
Defined.

Lemma get_relevant_context_entries_witness :
  exists docs,
    fst (get_relevant_context Sample.online "metrics" Sample.machine)
    = Ok (format_context docs) /\
    List.length docs = 3.
Proof.
  assert (Hne : Sample.corpus <> []) by discriminate.
  destruct (get_relevant_context_entries Sample.online "metrics"
              Sample.machine Sample.corpus 7%Z eq_refl Hne eq_refl)
    as (docs & H1 & H2 & _).
  exists docs. split; [exact H1 | exact H2].
Defined.

Lemma process_query_explanation_witness :
  dataframe (fst (process_query Sample.online "explanation" Sample.machine))
  = None /\
  sql_query (fst (process_query Sample.online "explanation" Sample.machine))
  = None.
Proof.
  destruct (process_query_explanation Sample.online "explanation"
              Sample.machine eq_refl) as (_ & H1 & H2 & _).
  split; [exact H1 | exact H2].
Defined.

Lemma reported_sql_is_executed_witness :
  exists earlier df text,
    calls (snd (process_query Sample.online "data_query" Sample.machine))
    = (earlier ++ [CallExecute "SELECT 1"])%list /\
    SnowflakeConnector.execute_query Sample.online "SELECT 1" = Ok df /\
    _generate_natural_response "data_query" (Some df) (Some "SELECT 1")
    = Ok text.
Proof.
  destruct (reported_sql_is_executed Sample.online "data_query" "SELECT 1"
              Sample.machine eq_refl) as (earlier & df & text & H1 & H2 & H3 & _).
  exists earlier, df, text. repeat split; assumption.
Defined.

Lemma error_result_shape_witness :
  fst (process_query Sample.offline "banana" Sample.machine)
  = error_result "Query execution failed: connection lost".
Proof.
  exact (error_result_shape Sample.offline "banana"
           "Query execution failed: connection lost" Sample.machine eq_refl).
Defined.

Lemma process_query_empty_result_witness :
  fst (process_query Sample.drained "data_query" Sample.machine)
  = {| answer := NO_DATA ++ sql_details "SELECT 1";
       dataframe := Some Sample.no_rows;
       sql_query := Some "SELECT 1"; error := None |}.
Proof.
  assert (Hg : "data_query" <> "general") by discriminate.
  assert (Hx : "data_query" <> "explanation") by discriminate.
  eapply (process_query_empty_result Sample.drained "data_query"
            "data_query" _ "SELECT 1" Sample.no_rows Sample.machine);
    [reflexivity | exact Hg | exact Hx | reflexivity | reflexivity
    | reflexivity | reflexivity].
Defined.

Lemma summary_text_second_column_witness :
  _generate_natural_response "q" (Some Sample.mixed3) None
  = Raise "Unknown format code 'f' for object of type 'str'".
Proof.
  assert (Hn : 0 < n_rows Sample.mixed3) by (simpl; lia).
  assert (Hle : n_rows Sample.mixed3 <= 10) by (simpl; lia).
  exact (proj1 (summary_text_second_column "q" Sample.mixed3 None
                  "PRODUCT_NAME" "CATEGORY" "TOTAL_REVENUE" "60.00"
                  (Object ["Anvil"; "Bolt"; "Crate"])
                  ["Tools"; "Parts"; "Boxes"]
                  [("TOTAL_REVENUE", Int64 [10; 20; 30]%Z)]
                  eq_refl Hn eq_refl eq_refl eq_refl eq_refl) Hle).
Defined.

Lemma summary_lists_every_row_witness :
  _generate_natural_response "q" (Some Sample.revenue3) None
  = Ok ("Found " ++ str_nat 3 ++ " results. The total TOTAL_REVENUE is 60.00"
        ++ ". Here are all the results:" ++ LF ++ LF
        ++ lines (map (row_text (Object ["Anvil"; "Bolt"; "Crate"])
                                [10; 20; 30]%Z) (seq 0 3))).
Proof.
  assert (Hn : 0 < n_rows Sample.revenue3 <= 10) by (simpl; lia).
  exact (summary_lists_every_row "q" Sample.revenue3 None
           "PRODUCT_NAME" "TOTAL_REVENUE" "TOTAL_REVENUE" "60.00"
           (Object ["Anvil"; "Bolt"; "Crate"]) [10; 20; 30]%Z []
           eq_refl Hn eq_refl eq_refl eq_refl eq_refl).
Defined.

Lemma printed_total_exact_witness :
  float_of_int (series_sum [10; 20; 30]%Z) = 60%Z.
Proof.
  assert (H : (Z.abs (fold_right Z.add 0 [10; 20; 30]) < 2 ^ 53)%Z)
    by (simpl; lia).
  exact (proj1 (printed_total_exact [10; 20; 30]%Z H)).
Defined.

Lemma get_schema_info_failures_witness :
  get_schema_info Sample.offline "DB" "MARTS"
  = (Raise ("Failed to retrieve schema info: Query execution failed: "
            ++ "connection lost"),
     [tables_query "DB" "MARTS"]) /\
  get_schema_info Sample.patchy "DB" "MARTS"
  = (Raise "Failed to retrieve schema info: Query execution failed: timeout",
     [tables_query "DB" "MARTS";
      columns_query "DB" "MARTS" "DIM_DATE";
      columns_query "DB" "MARTS" "DIM_STORES"]).
Proof.
  split.
  - exact (proj1 (proj2 (get_schema_info_failures
                           Sample.offline "DB" "MARTS"))
             "connection lost" eq_refl).
  - refine (proj1 (proj2 (proj2 (proj2 (get_schema_info_failures
                                          Sample.patchy "DB" "MARTS"))))
              Sample.tables3_frame [VStr "DIM_DATE"] (VStr "DIM_STORES")
              [VStr "FACT_SALES"] "timeout" eq_refl eq_refl _ eq_refl).
    intros u [<- | []]. exists Sample.columns_frame. reflexivity.
Defined.

Lemma get_schema_info_catalog_witness :
  get_schema_info Sample.catalogued "DB" "MARTS"
  = (Ok (map (columns_entry Sample.catalogued "DB" "MARTS")
             [VStr "DIM_DATE"; VStr "FACT_SALES"]),
     tables_query "DB" "MARTS"
       :: map (columns_statement "DB" "MARTS")
              [VStr "DIM_DATE"; VStr "FACT_SALES"]).
Proof.
  assert (Hnd : NoDup [VStr "DIM_DATE"; VStr "FACT_SALES"]).
  { constructor; [intros [H | []]; discriminate|].
    constructor; [intros []|constructor]. }
  apply (get_schema_info_catalog Sample.catalogued "DB" "MARTS"
           Sample.tables_frame [VStr "DIM_DATE"; VStr "FACT_SALES"]
           eq_refl eq_refl Hnd).
  intros t [<- | [<- | []]]; exists Sample.columns_frame; reflexivity.
Defined.

Lemma format_raw_schema_catalog_witness :
  format_raw_schema
    [(VStr "FACT_SALES",
      [[("COLUMN_NAME", VStr "QUANTITY"); ("DATA_TYPE", VStr "NUMBER")]])]
  = Ok (schema_text [("FACT_SALES", [("QUANTITY", "NUMBER")])]) /\
  (format_raw_schema
     [(VStr "FACT_SALES", [[("COLUMN_NAME", VStr "QUANTITY")]])]
   = Raise "'COLUMN_NAME'" \/
   format_raw_schema
     [(VStr "FACT_SALES", [[("COLUMN_NAME", VStr "QUANTITY")]])]
   = Raise "'DATA_TYPE'").
Proof.
  split.
  - exact (proj1 (format_raw_schema_catalog
                    [(VStr "FACT_SALES",
                      [[("COLUMN_NAME", VStr "QUANTITY");
                        ("DATA_TYPE", VStr "NUMBER")]])]) _ eq_refl).
  - exact (proj2 (format_raw_schema_catalog
                    [(VStr "FACT_SALES",
                      [[("COLUMN_NAME", VStr "QUANTITY")]])]) eq_refl).
Defined.

Lemma indicator_names_provider_witness :
  (llm_indicator Sample.anthropic_only
   = (Success, "🤖 LLM: Claude 3 Haiku ($0.25/M tokens)") /\
   select_llm Sample.anthropic_only
   = {| llm_provider := "Claude";
        model := "claude-3-5-sonnet-20241022";
        api_key := Some "sk-ant";
        base_url := None |}) /\
  (llm_indicator Sample.groq_only = (Info, "🤖 LLM: Groq Mixtral (FREE)") /\
   select_llm Sample.groq_only
   = {| llm_provider := "Groq";
        model := "mixtral-8x7b-32768";
        api_key := Some "gsk";
        base_url := Some "https://api.groq.com/openai/v1" |}) /\
  (select_llm Sample.no_key
   = {| llm_provider := "OpenAI";
        model := "gpt-3.5-turbo";
        api_key := None;
        base_url := None |} /\
   llm_indicator Sample.no_key = (Warning, "🤖 LLM: Not configured")).
Proof.
  split; [|split].
  - exact (proj1 (indicator_names_provider Sample.anthropic_only) eq_refl).
  - exact (proj1 (proj2 (indicator_names_provider Sample.groq_only))
             eq_refl eq_refl).
  - destruct (proj2 (proj2 (indicator_names_provider Sample.no_key))
                eq_refl eq_refl) as (H1 & _ & H2).
    split; [exact H1 | exact (H2 eq_refl)].
Defined.

Lemma chart_matches_total_witness :
  _generate_natural_response "q" (Some Sample.single3) None
  = Ok ("Found " ++ str_nat (len Sample.single3) ++ " results. ") /\
  (exists rest,
     _generate_natural_response "q" (Some Sample.revenue3) None
     = Ok ("Found 3 results. The total TOTAL_REVENUE is 60.00. " ++ rest)) /\
  (exists fig, chart_for Sample.twin3 = Some fig /\ y fig = "AMOUNT") /\
  _generate_natural_response "q" (Some Sample.twin3) None
  = Raise "unsupported format string passed to Series.__format__".
Proof.
  split; [|split; [|split]].
  - exact (proj1 (proj2 (proj2 (chart_matches_total "q" Sample.single3 None)))
             eq_refl eq_refl).
  - destruct (proj2 (proj2 (proj2 (chart_matches_total
                                     "q" Sample.revenue3 None)))
                _ eq_refl eq_refl _ eq_refl) as [rest E].
    exists rest. exact (f_equal Ok E).
  - eexists. split; reflexivity.
  - exact (proj2 (proj2 (proj2 (chart_matches_total "q" Sample.twin3 None)))
             _ eq_refl eq_refl).
Defined.

Lemma chart_of_numeric_table_witness :
  exists fig,
    chart_for Sample.numeric3 = Some fig /\ x fig = y fig /\
    hd_error (map fst (columns Sample.numeric3)) = Some (x fig).
Proof.
  apply chart_of_numeric_table.
  - simpl. lia.
  - intros c [<- | [<- | []]]; reflexivity.
Defined.

Lemma on_prompt_not_connected_witness :
  messages Sample.online
    (on_prompt Sample.online (fun _ => None) (Ok []) "hello" Sample.visitor)
  = [user "hello"; assistant NOT_CONNECTED].
Proof.
  rewrite (on_prompt_not_connected Sample.online (fun _ => None) (Ok [])
             "hello" Sample.visitor eq_refl).
  reflexivity.
Defined.

Lemma on_prompt_stores_reply_witness :
  rag_engine Sample.online
    (on_prompt Sample.online (fun _ => None) (Ok []) "data_query"
       Sample.session)
  = Some (Some Sample.corpus).
Proof.
  destruct (on_prompt_stores_reply Sample.online (fun _ => None) (Ok [])
              "data_query" Sample.session (Some Sample.corpus) []
              eq_refl eq_refl eq_refl (fun _ => eq_refl))
    as (_ & H & _).
  exact H.
Defined.

Lemma on_prompt_chart_failure_witness :
  messages Sample.online
    (on_prompt Sample.online (fun _ => Some "bad figure") (Ok [])
       "data_query" Sample.session)
  = [user "data_query"; assistant "❌ Error: bad figure"].
Proof.
  eapply (proj1 (on_prompt_chart_failure Sample.online
                   (fun _ => Some "bad figure") (Ok []) "data_query"
                   "bad figure" Sample.session (Some Sample.corpus) []
                   Sample.revenue3 _ eq_refl eq_refl eq_refl eq_refl
                   eq_refl eq_refl)).
Defined.

Lemma on_prompt_constructor_failure_witness :
  query_router Sample.online
    (on_prompt Sample.online (fun _ => None) (Raise "no schema") "hello"
       Sample.newcomer)
  = None /\
  rag_engine Sample.online
    (on_prompt Sample.online (fun _ => None) (Raise "no schema") "hello"
       Sample.newcomer)
  = Some (Some Sample.corpus).
Proof.
  destruct (proj1 (on_prompt_constructor_failure Sample.online
                     (fun _ => None) (Raise "no schema") "hello" "no schema"
                     Sample.newcomer eq_refl eq_refl)
              (Some Sample.corpus) (or_introl eq_refl) eq_refl)
    as (_ & H1 & H2 & _).
  split; [exact H2 | exact H1].
Defined.

Lemma ingestion_only_appends_witness :
  exists added,
    vector_store
      (ingest_all Sample.online [[Sample.doc "metrics" "metrics"]; []]
         Sample.machine)
    = Some (Sample.corpus ++ added)%list.
Proof.
  destruct (proj2 (ingestion_only_appends Sample.online Sample.machine)
              [[Sample.doc "metrics" "metrics"]; []] Sample.corpus eq_refl)
    as (added & H & _).
  now exists added.
Defined.

Lemma ingested_chunks_are_retrieved_witness :
  exists docs,
    fst (retrieve_context Sample.online "q" 5
           (snd (add_documents Sample.online
                   [Sample.doc "metrics" "metrics"] Sample.machine)))
    = Ok docs /\
    Permutation docs
      (map fst Sample.corpus ++ [Sample.doc "metrics" "metrics"])%list.
Proof.
  assert (Hk : List.length Sample.corpus
               + List.length [(Sample.doc "metrics" "metrics", 7%Z)] <= 5)
    by (simpl; lia).
  exact (ingested_chunks_are_retrieved Sample.online
           [Sample.doc "metrics" "metrics"] "q" 5 Sample.machine
           Sample.corpus [(Sample.doc "metrics" "metrics", 7%Z)] 1%Z
           (or_introl eq_refl) eq_refl eq_refl Hk).
Defined.

End FurtherInstances.
